(** * bulk_update: the log-replay engine of [app.py]

    A shallow embedding of the spreadsheet replay engine of [app.py]
    (functions [adjust_formula_row] to [process_bulk_log_streamlit]) and the
    properties of it stated by the specification.

    Modelling conventions.
    - A Python [str] is the list of its Unicode code points ([str]); the
      Hangul literals of the source are written as code points, each next
      to the literal it stands for.
    - A Python [int] is a [Z]; a [float] is an IEEE binary64 value of the
      Standard Library's [spec_float]; a [datetime] is the number of
      microseconds since [datetime.min].
    - Facts about the Python runtime that are tables or algorithms of
      CPython and pandas (case mapping and the word class outside ASCII,
      the text of a float, parsing numbers and dates) are the fields of
      the class [PyRuntime]: every definition and theorem is stated for an
      arbitrary runtime.
    - A worksheet is the finite map of its cells and the list of its
      tables, with openpyxl's documented interface: [ws.cell] creates the
      cell it is asked for, [max_row] and [max_column] range over the cells
      that exist, and assigning a value stores it as it is and leaves the
      style of the cell alone.
    - Exceptions and mutation are explicit: a computation [Py A] takes the
      state of the run and returns either a value or an exception, each
      with the state reached. *)

From Stdlib Require Import ZArith List Lia Ascii String DecimalZ DecimalPos.
From Stdlib Require Import Floats.SpecFloat.
From stdpp Require Import gmap list sorting.
From Equations Require Import Equations.
From Equations.Prop Require Import Logic.

Local Open Scope Z_scope.

(** * Part I. The model *)

(** ** Python strings *)

(** A string is the sequence of its code points. *)
Definition str : Type := list Z.

(** An ASCII literal as a [str]. *)
Definition lit (s : string) : str :=
  map (fun a => Z.of_N (N_of_ascii a)) (list_ascii_of_string s).

Fixpoint uint_digits (d : Decimal.uint) : str :=
  match d with
  | Decimal.Nil => []
  | Decimal.D0 d => 48 :: uint_digits d
  | Decimal.D1 d => 49 :: uint_digits d
  | Decimal.D2 d => 50 :: uint_digits d
  | Decimal.D3 d => 51 :: uint_digits d
  | Decimal.D4 d => 52 :: uint_digits d
  | Decimal.D5 d => 53 :: uint_digits d
  | Decimal.D6 d => 54 :: uint_digits d
  | Decimal.D7 d => 55 :: uint_digits d
  | Decimal.D8 d => 56 :: uint_digits d
  | Decimal.D9 d => 57 :: uint_digits d
  end.

(** [str(n)] and [f"{n}"] for an [int]: decimal digits, [-] first when
    negative. *)
Definition str_of_int (n : Z) : str :=
  match Z.to_int n with
  | Decimal.Pos d => uint_digits d
  | Decimal.Neg d => 45 :: uint_digits d
  end.

(** [str.isspace] of one character (the code points of
    [_PyUnicode_IsWhitespace]). *)
Definition is_space (c : Z) : bool :=
  ((9 <=? c) && (c <=? 13)) || ((28 <=? c) && (c <=? 32))
  || (c =? 133) || (c =? 160) || (c =? 5760)
  || ((8192 <=? c) && (c <=? 8202))
  || (c =? 8232) || (c =? 8233) || (c =? 8239) || (c =? 8287) || (c =? 12288).

Fixpoint lstrip (s : str) : str :=
  match s with
  | c :: t => if is_space c then lstrip t else s
  | [] => []
  end.

Definition rstrip (s : str) : str := rev (lstrip (rev s)).

(** [s.strip()] *)
Definition strip (s : str) : str := rstrip (lstrip s).

(** [s.startswith(p)] *)
Fixpoint startswith (p s : str) : bool :=
  match p, s with
  | [], _ => true
  | a :: p', b :: s' => (a =? b) && startswith p' s'
  | _ :: _, [] => false
  end.

(** ** Python values *)

Definition float : Type := spec_float.

(** [datetime]: microseconds since [datetime.min]. *)
Definition datetime : Type := N.

Definition datetime_min : datetime := 0%N.

Inductive pyval : Type :=
| PNone
| PBool (b : bool)
| PInt (n : Z)
| PFloat (f : float)
| PStr (s : str)
| PDatetime (t : datetime).

Inductive exn : Type :=
| ValueError
| TypeError
| KeyError
| OverflowError.

(** What the embedding takes from CPython and pandas as given. *)
Class PyRuntime : Type := {
  (** full upper-case mapping of a code point outside ASCII *)
  uni_upper : Z -> str;
  (** membership of a code point outside ASCII in the regex class [\w] *)
  uni_word : Z -> bool;
  (** [str(f)] for a float *)
  str_of_float : float -> str;
  (** [str(t)] for a datetime *)
  str_of_datetime : datetime -> str;
  (** [float(s)] for a string; [None] is [ValueError] *)
  float_of_str : str -> option float;
  (** [int(s)] for a string; [None] is [ValueError] *)
  int_of_str : str -> option Z;
  (** [pd.to_datetime(v, errors="coerce")] for one value; [None] is [NaT] *)
  to_datetime : pyval -> option datetime
}.

(** Truth value of an object, as [or] and [if] test it. *)
Definition truthy (v : pyval) : bool :=
  match v with
  | PNone => false
  | PBool b => b
  | PInt n => negb (n =? 0)
  | PFloat (S754_zero _) => false
  | PFloat _ => true
  | PStr [] => false
  | PStr (_ :: _) => true
  | PDatetime _ => true
  end.

(** [a or b] *)
Definition py_or (a b : pyval) : pyval := if truthy a then a else b.

(** [f == 0] for a float. *)
Definition float_is_zero (f : float) : bool :=
  match f with
  | S754_zero _ => true
  | _ => false
  end.

(** An [int] as the nearest binary64 value. *)
Definition float_of_int (n : Z) : float := binary_normalize 53 1024 n 0 false.

(** [x.upper()] of one character. *)
Definition upper_char `{PyRuntime} (c : Z) : str :=
  if (97 <=? c) && (c <=? 122) then [c - 32]
  else if c <? 128 then [c]
  else uni_upper c.

(** [s.upper()] *)
Definition upper `{PyRuntime} (s : str) : str := flat_map upper_char s.

(** [str(v)] *)
Definition py_str `{PyRuntime} (v : pyval) : str :=
  match v with
  | PNone => lit "None"
  | PBool true => lit "True"
  | PBool false => lit "False"
  | PInt n => str_of_int n
  | PFloat f => str_of_float f
  | PStr s => s
  | PDatetime t => str_of_datetime t
  end.

(** [float(v)] *)
Definition py_float `{PyRuntime} (v : pyval) : exn + float :=
  match v with
  | PNone => inl TypeError
  | PBool b => inr (float_of_int (if b then 1 else 0))
  | PInt n =>
      match float_of_int n with
      | S754_infinity _ => inl OverflowError
      | f => inr f
      end
  | PFloat f => inr f
  | PStr s =>
      match float_of_str s with
      | Some f => inr f
      | None => inl ValueError
      end
  | PDatetime _ => inl TypeError
  end.

(** [int(v)]: a float is truncated towards zero. *)
Definition py_int `{PyRuntime} (v : pyval) : exn + Z :=
  match v with
  | PNone => inl TypeError
  | PBool b => inr (if b then 1 else 0)
  | PInt n => inr n
  | PFloat (S754_zero _) => inr 0
  | PFloat (S754_finite s m e) =>
      let a := if 0 <=? e then Z.pos m * 2 ^ e else Z.pos m / 2 ^ (- e) in
      inr (if s then - a else a)
  | PFloat (S754_infinity _) => inl OverflowError
  | PFloat S754_nan => inl ValueError
  | PStr s =>
      match int_of_str s with
      | Some n => inr n
      | None => inl ValueError
      end
  | PDatetime _ => inl TypeError
  end.

(** ** The formula rewriter *)

Module Regex.

(** [[A-Z]] *)
Definition is_AZ (c : Z) : bool := (65 <=? c) && (c <=? 90).

(** [\w] in a [str] pattern. *)
Definition is_word `{PyRuntime} (c : Z) : bool :=
  if c <? 128 then
    ((48 <=? c) && (c <=? 57)) || ((65 <=? c) && (c <=? 90))
    || (c =? 95) || ((97 <=? c) && (c <=? 122))
  else uni_word c.

(** [\b] between the character before ([prev]) and the rest of the text. *)
Definition word_boundary `{PyRuntime} (prev : option Z) (rest : str) : bool :=
  let w (o : option Z) := match o with Some c => is_word c | None => false end in
  negb (Bool.eqb (w prev) (w (head rest))).

(** The literal [l] at the head of [s]: what follows it. *)
Fixpoint strip_literal (l s : str) : option str :=
  match l, s with
  | [], _ => Some s
  | a :: l', b :: s' => if a =? b then strip_literal l' s' else None
  | _ :: _, [] => None
  end.

(** [{old_row}\b] after the character [prev]. *)
Definition row_then_boundary `{PyRuntime} (old : str) (prev : option Z) (s : str)
  : option str :=
  match strip_literal old s with
  | Some rest =>
      if word_boundary (match last old with Some c => Some c | None => prev end) rest
      then Some rest else None
  | None => None
  end.

(** [[A-Z]{n}]: the letters and what follows them. *)
Fixpoint letters (n : nat) (s : str) : option (str * str) :=
  match n with
  | O => Some ([], s)
  | S n' =>
      match s with
      | c :: t =>
          if is_AZ c then
            match letters n' t with
            | Some (ls, r) => Some (c :: ls, r)
            | None => None
            end
          else None
      | [] => None
      end
  end.

(** [[A-Z]{n}{old_row}\b] *)
Definition letters_row `{PyRuntime} (old : str) (n : nat) (s : str)
  : option (str * str) :=
  match letters n s with
  | Some (ls, r) =>
      match row_then_boundary old (last ls) r with
      | Some rest => Some (ls, rest)
      | None => None
      end
  | None => None
  end.

(** [[A-Z]{1,3}{old_row}\b]: the quantifier is greedy, three letters are
    tried before two and one. *)
Definition cols_row `{PyRuntime} (old s : str) : option (str * str) :=
  match letters_row old 3 s with
  | Some m => Some m
  | None =>
      match letters_row old 2 s with
      | Some m => Some m
      | None => letters_row old 1 s
      end
  end.

(** The pattern [(\$?[A-Z]{1,3}){old_row}\b] matched at the head of [s]:
    group 1 and the text after the match. [\$?] takes the dollar first and
    gives it back when the rest fails. *)
Definition match_here `{PyRuntime} (old s : str) : option (str * str) :=
  match s with
  | c :: t =>
      if c =? 36 then
        match cols_row old t with
        | Some (ls, rest) => Some (c :: ls, rest)
        | None => cols_row old s
        end
      else cols_row old s
  | [] => cols_row old s
  end.

Lemma strip_literal_app (l s r : str) :
  strip_literal l s = Some r -> s = l ++ r.
Proof.
  revert s. induction l as [|a l IH]; intros [|b s]; simpl; try congruence.
  destruct (Z.eqb_spec a b); [|discriminate].
  intros Hr. subst b. f_equal. now apply IH.
Qed.

Lemma letters_app (n : nat) (s ls r : str) :
  letters n s = Some (ls, r) -> s = ls ++ r /\ length ls = n.
Proof.
  revert s ls r. induction n as [|n IH]; intros s ls r; simpl.
  - intros [= <- <-]. now split.
  - destruct s as [|c t]; [discriminate|].
    destruct (is_AZ c); [|discriminate].
    destruct (letters n t) as [[ls' r']|] eqn:E; [|discriminate].
    intros [= <- <-]. destruct (IH _ _ _ E) as [-> <-]. now split.
Qed.

Lemma letters_row_app `{PyRuntime} (old : str) (n : nat) (s ls rest : str) :
  letters_row old n s = Some (ls, rest) ->
  s = ls ++ old ++ rest /\ length ls = n.
Proof.
  unfold letters_row, row_then_boundary.
  destruct (letters n s) as [[ls' r]|] eqn:E; [|discriminate].
  destruct (strip_literal old r) as [rest'|] eqn:E'; [|discriminate].
  destruct (word_boundary _ rest'); [|discriminate].
  intros [= <- <-].
  destruct (letters_app _ _ _ _ E) as [-> Hn].
  now rewrite (strip_literal_app _ _ _ E').
Qed.

Lemma cols_row_app `{PyRuntime} (old s ls rest : str) :
  cols_row old s = Some (ls, rest) ->
  s = ls ++ old ++ rest /\ (1 <= length ls <= 3)%nat.
Proof.
  unfold cols_row.
  destruct (letters_row old 3 s) as [m|] eqn:E3.
  { intros [= ->]. apply letters_row_app in E3 as [-> ->]. split; [easy|lia]. }
  destruct (letters_row old 2 s) as [m|] eqn:E2.
  { intros [= ->]. apply letters_row_app in E2 as [-> ->]. split; [easy|lia]. }
  intros E1. apply letters_row_app in E1 as [-> ->]. split; [easy|lia].
Qed.

(** A match is its group, then the old row; the group is not empty. *)
Lemma match_here_app `{PyRuntime} (old s g rest : str) :
  match_here old s = Some (g, rest) ->
  s = g ++ old ++ rest /\ (1 <= length g)%nat.
Proof.
  unfold match_here. destruct s as [|c t].
  { intros E. apply cols_row_app in E as [-> ?]. split; [easy|lia]. }
  destruct (c =? 36).
  - destruct (cols_row old t) as [[ls r]|] eqn:E.
    + intros [= <- <-]. apply cols_row_app in E as [-> ?].
      split; [easy|simpl; lia].
    + intros E'. apply cols_row_app in E' as [-> ?]. split; [easy|lia].
  - intros E'. apply cols_row_app in E' as [-> ?]. split; [easy|lia].
Qed.

Lemma match_here_shorter `{PyRuntime} (old s g rest : str) :
  match_here old s = Some (g, rest) -> (length rest < length s)%nat.
Proof.
  intros E. apply match_here_app in E as [-> Hg].
  rewrite !length_app. lia.
Qed.

(** [pattern.sub(repl, s)] with [repl] returning group 1 followed by [new]:
    the text is scanned from the left; a match is replaced and the scan goes
    on after it, a character with no match at it is kept. *)
Equations? sub `{PyRuntime} (old new s : str) : str by wf (length s) lt :=
  sub old new [] := [];
  sub old new (c :: t) with inspect (match_here old (c :: t)) := {
    | exist _ (Some (g, rest)) E => g ++ new ++ sub old new rest;
    | exist _ None _ => c :: sub old new t }.
Proof.
  pose proof (match_here_shorter old (c :: t) g rest E) as Hlt.
  simpl in Hlt. lia.
Qed.

End Regex.

(** [adjust_formula_row(formula, old_row, new_row)] *)
Definition adjust_formula_row `{PyRuntime} (formula : pyval) (old_row new_row : Z)
  : pyval :=
  match formula with
  | PStr s =>
      if startswith (lit "=") s
      then PStr (Regex.sub (str_of_int old_row) (str_of_int new_row) s)
      else formula
  | _ => formula
  end.

(** ** Worksheets *)

(** A cell style ([StyleArray]) is identified by a number; a new cell has
    style [0]. *)
Definition style : Type := Z.

Record cell : Type := Cell { value : pyval; cell_style : style }.

Definition blank_cell : cell := Cell PNone 0.

(** A structured table: its display name and its range ([tbl.ref]). *)
Record table : Type := Table { displayName : str; ref : str }.

(** A worksheet: the cells that exist ([ws._cells], keyed by row and
    column) and the tables in the order [ws.tables.values()] lists them. *)
Record sheet : Type := Sheet { cells : gmap (Z * Z) cell; tables : list table }.

(** The largest coordinate, row ([fst]) or column ([snd]), of a cell that
    exists; [1] for a sheet with no cell. *)
Definition max_coord (p : Z * Z -> Z) (sh : sheet) : Z :=
  foldr Z.max 1 (map (fun kv => p kv.1) (map_to_list (cells sh))).

(** [ws.max_row] *)
Definition max_row (sh : sheet) : Z := max_coord fst sh.

(** [ws.max_column] *)
Definition max_column (sh : sheet) : Z := max_coord snd sh.

(** The value and style a reader finds at a coordinate. *)
Definition value_at (sh : sheet) (row col : Z) : pyval :=
  match cells sh !! (row, col) with
  | Some c => value c
  | None => PNone
  end.

Definition style_at (sh : sheet) (row col : Z) : style :=
  match cells sh !! (row, col) with
  | Some c => cell_style c
  | None => 0
  end.

(** ** The state of a run and its computations *)

(** What Streamlit is told ([st.warning], [st.info], [st.write]). *)
Inductive message : Type :=
| WarnDrumOutOfRange (drum_no : Z)
| InfoNoNewLogs
| WriteNewLot (part_no lot_no : str).

(** The two worksheets the engine works on, and the messages shown. *)
Record world : Type := World {
  main_sheet : sheet;
  log_sheet : sheet;
  console : list message
}.

(** A reference to one of the worksheets. *)
Inductive worksheet : Type := WsMain | WsLog.

Definition sheet_of (ws : worksheet) (w : world) : sheet :=
  match ws with
  | WsMain => main_sheet w
  | WsLog => log_sheet w
  end.

Definition with_sheet (ws : worksheet) (sh : sheet) (w : world) : world :=
  match ws with
  | WsMain => World sh (log_sheet w) (console w)
  | WsLog => World (main_sheet w) sh (console w)
  end.

Inductive outcome (A : Type) : Type :=
| Done (a : A) (w : world)
| Raised (e : exn) (w : world).
Arguments Done {A} a w.
Arguments Raised {A} e w.

(** A computation: from the state to a value or an exception, with the
    state reached. *)
Definition Py (A : Type) : Type := world -> outcome A.

Definition ret {A} (a : A) : Py A := fun w => Done a w.

Definition bind {A B} (m : Py A) (k : A -> Py B) : Py B :=
  fun w =>
    match m w with
    | Done a w' => k a w'
    | Raised e w' => Raised e w'
    end.

Definition raise {A} (e : exn) : Py A := fun w => Raised e w.

Notation "'let*' x := m 'in' k" := (bind m (fun x => k))
  (at level 10, x pattern, m at level 100, k at level 200).
Notation "m ;;; k" := (bind m (fun _ => k))
  (at level 100, k at level 200, right associativity).

(** A builtin that may raise, run as a computation. *)
Definition run {A} (r : exn + A) : Py A :=
  match r with
  | inr a => ret a
  | inl e => raise e
  end.

(** [for x in xs: body(x)] *)
Fixpoint for_each {A} (xs : list A) (body : A -> Py unit) : Py unit :=
  match xs with
  | [] => ret tt
  | x :: xs' => body x ;;; for_each xs' body
  end.

(** [range(a, b)] *)
Definition range (a b : Z) : list Z := seqZ a (b - a).

(** [range(a, b, -1)] *)
Definition range_down (a b : Z) : list Z := reverse (seqZ (b + 1) (a - b)).

Definition get_max_row (ws : worksheet) : Py Z :=
  fun w => Done (max_row (sheet_of ws w)) w.

Definition get_max_column (ws : worksheet) : Py Z :=
  fun w => Done (max_column (sheet_of ws w)) w.

(** The cell object at a coordinate: the one that exists, or the new one
    that asking for it creates. *)
Definition cell_of (sh : sheet) (row col : Z) : cell :=
  default blank_cell (cells sh !! (row, col)).

(** The sheet with the cell at a coordinate replaced. *)
Definition put_cell (sh : sheet) (row col : Z) (c : cell) : sheet :=
  Sheet (<[(row, col) := c]> (cells sh)) (tables sh).

(** The cell at a coordinate once [v] was passed as [value=]: a value
    other than [None] is assigned to it. *)
Definition assigned (sh : sheet) (row col : Z) (v : pyval) : cell :=
  match v with
  | PNone => cell_of sh row col
  | _ => Cell v (cell_style (cell_of sh row col))
  end.

(** The sheet after [ws.cell(row, col, value=v)]. *)
Definition touch (sh : sheet) (row col : Z) (v : pyval) : sheet :=
  put_cell sh row col (assigned sh row col v).

Definition set_cell (ws : worksheet) (row col : Z) (c : cell) : Py unit :=
  fun w => Done tt (with_sheet ws (put_cell (sheet_of ws w) row col c) w).

(** [ws.cell(row=row, column=col, value=v)]: the cell is created when it
    does not exist; a value other than [None] is assigned to it. The cell
    is returned as it then is. *)
Definition ws_cell (ws : worksheet) (row col : Z) (v : pyval) : Py cell :=
  if (row <? 1) || (col <? 1) then raise ValueError
  else fun w =>
    let c := assigned (sheet_of ws w) row col v in
    bind (set_cell ws row col c) (fun _ => ret c) w.

(** [cell.value = v] on the cell at a coordinate ([None] is assigned too). *)
Definition set_value (ws : worksheet) (row col : Z) (v : pyval) : Py unit :=
  let* c := ws_cell ws row col PNone in
  set_cell ws row col (Cell v (cell_style c)).

(** [cell._style = st] on the cell at a coordinate. *)
Definition set_style (ws : worksheet) (row col : Z) (st : style) : Py unit :=
  let* c := ws_cell ws row col PNone in
  set_cell ws row col (Cell (value c) st).

Definition st_message (m : message) : Py unit :=
  fun w => Done tt (World (main_sheet w) (log_sheet w) (console w ++ [m])).

(** [d[k]] for a dictionary. *)
Definition dict_item {K A} `{Countable K} (d : gmap K A) (k : K) : Py A :=
  match d !! k with
  | Some a => ret a
  | None => raise KeyError
  end.

(** [d.get(k)] for a dictionary of values. *)
Definition dict_get (d : gmap str pyval) (k : str) : pyval :=
  default PNone (d !! k).

(** ** Column letters and ranges (openpyxl.utils) *)

(** The loop of [get_column_letter]: the letters of [n], least significant
    first in the source and joined in reverse, so accumulated in front. *)
Fixpoint column_letters (fuel : nat) (n : Z) (acc : str) : str :=
  match fuel with
  | O => acc
  | S fuel' =>
      if n <=? 0 then acc
      else
        let q := n / 26 in
        let r := n mod 26 in
        if r =? 0 then column_letters fuel' (q - 1) (90 :: acc)
        else column_letters fuel' q ((r + 64) :: acc)
  end.

(** [get_column_letter(col_idx)], for the columns [1] to [18278] ([ZZZ]). *)
Definition get_column_letter (col_idx : Z) : exn + str :=
  if (1 <=? col_idx) && (col_idx <=? 18278)
  then inr (column_letters 3 col_idx [])
  else inl ValueError.

(** The column number of one to three letters [A]-[Z]. *)
Definition column_number (letters : str) : Z :=
  fold_left (fun acc c => acc * 26 + (c - 64)) letters 0.

(** [column_index_from_string(s)]: the inverse of [get_column_letter], on
    the upper-cased name. *)
Definition column_index_from_string `{PyRuntime} (s : str) : exn + Z :=
  let u := upper s in
  if forallb Regex.is_AZ u && (1 <=? Z.of_nat (length u)) && (Z.of_nat (length u) <=? 3)
  then inr (column_number u)
  else inl ValueError.

Definition is_digit (c : Z) : bool := (48 <=? c) && (c <=? 57).

Definition is_letter (c : Z) : bool :=
  ((65 <=? c) && (c <=? 90)) || ((97 <=? c) && (c <=? 122)).

(** [int(s)] for a string of ASCII digits. *)
Definition int_of_digits (ds : str) : Z :=
  fold_left (fun acc d => acc * 10 + (d - 48)) ds 0.

(** The longest prefix of characters in a class, and the rest. *)
Fixpoint span (p : Z -> bool) (s : str) : str * str :=
  match s with
  | c :: t => if p c then let '(a, b) := span p t in (c :: a, b) else ([], s)
  | [] => ([], [])
  end.

(** [[$]?] *)
Definition skip_dollar (s : str) : str :=
  match s with
  | c :: t => if c =? 36 then t else s
  | [] => []
  end.

(** One corner [[$]?[A-Za-z]{1,3}[$]?\d+] of a range: column, row and the
    text after it. *)
Definition parse_corner `{PyRuntime} (s : str) : exn + (Z * Z * str) :=
  let '(ls, s1) := span is_letter (skip_dollar s) in
  let '(ds, s2) := span is_digit (skip_dollar s1) in
  match ds with
  | [] => inl ValueError
  | _ :: _ =>
      match column_index_from_string ls with
      | inr col => inr (col, int_of_digits ds, s2)
      | inl e => inl e
      end
  end.

(** [range_boundaries(ref)] for the range of a table, a cell or a
    rectangle of cells: [(min_col, min_row, max_col, max_row)]. A text
    that is neither is refused. *)
Definition range_boundaries `{PyRuntime} (range_string : str)
  : exn + (Z * Z * Z * Z) :=
  match parse_corner range_string with
  | inl e => inl e
  | inr (min_col, min_row, rest) =>
      match rest with
      | [] => inr (min_col, min_row, min_col, min_row)
      | c :: rest' =>
          if c =? 58 then
            match parse_corner rest' with
            | inr (max_col, max_row, []) => inr (min_col, min_row, max_col, max_row)
            | inr (_, _, _ :: _) => inl ValueError
            | inl e => inl e
            end
          else inl ValueError
      end
  end.

(** ** The main sheet: rows and columns *)

(** [str(v or "").strip()]: the text of a cell as the row scans read it. *)
Definition cell_text `{PyRuntime} (v : pyval) : str :=
  strip (py_str (py_or v (PStr []))).

(** The loop of [find_main_row] over the rows still to visit. *)
Fixpoint find_main_row_loop `{PyRuntime} (ws_main : worksheet)
    (part_no lot_no : pyval) (rows : list Z) : Py Z :=
  match rows with
  | [] => ret 0
  | r :: rows' =>
      let* cB := ws_cell ws_main r 2 PNone in
      let v_part := cell_text (value cB) in
      let* cD := ws_cell ws_main r 4 PNone in
      let v_lot := cell_text (value cD) in
      if bool_decide (v_part = strip (py_str part_no))
         && bool_decide (v_lot = strip (py_str lot_no))
      then ret r
      else find_main_row_loop ws_main part_no lot_no rows'
  end.

(** [find_main_row(ws_main, part_no, lot_no)] *)
Definition find_main_row `{PyRuntime} (ws_main : worksheet)
    (part_no lot_no : pyval) : Py Z :=
  let* max_row := get_max_row ws_main in
  find_main_row_loop ws_main part_no lot_no (range 3 (max_row + 1)).

Fixpoint get_template_row_loop `{PyRuntime} (ws_main : worksheet)
    (rows : list Z) : Py (option Z) :=
  match rows with
  | [] => ret None
  | r :: rows' =>
      let* cD := ws_cell ws_main r 4 PNone in
      let v_lot := cell_text (value cD) in
      if bool_decide (v_lot <> []) then ret (Some r)
      else get_template_row_loop ws_main rows'
  end.

(** [get_template_row(ws_main)] *)
Definition get_template_row `{PyRuntime} (ws_main : worksheet) : Py (option Z) :=
  let* max_row := get_max_row ws_main in
  get_template_row_loop ws_main (range_down max_row 2).

Definition qtyCols : gmap Z str := list_to_map [
  (1, lit "X"); (2, lit "AA"); (3, lit "AD"); (4, lit "AG"); (5, lit "AJ");
  (6, lit "AM"); (7, lit "AP"); (8, lit "AS"); (9, lit "AV"); (10, lit "AY");
  (11, lit "BB"); (12, lit "BE"); (13, lit "BH"); (14, lit "BK"); (15, lit "BN");
  (16, lit "BQ"); (17, lit "BT"); (18, lit "BW"); (19, lit "BZ"); (20, lit "CC")].

Definition locCols : gmap Z str := list_to_map [
  (1, lit "Y"); (2, lit "AB"); (3, lit "AE"); (4, lit "AH"); (5, lit "AK");
  (6, lit "AN"); (7, lit "AQ"); (8, lit "AT"); (9, lit "AW"); (10, lit "AZ");
  (11, lit "BC"); (12, lit "BF"); (13, lit "BI"); (14, lit "BL"); (15, lit "BO");
  (16, lit "BR"); (17, lit "BU"); (18, lit "BX"); (19, lit "CA"); (20, lit "CD")].

Definition stockCols : gmap Z str := list_to_map [
  (1, lit "Z"); (2, lit "AC"); (3, lit "AF"); (4, lit "AI"); (5, lit "AL");
  (6, lit "AO"); (7, lit "AR"); (8, lit "AU"); (9, lit "AX"); (10, lit "BA");
  (11, lit "BD"); (12, lit "BG"); (13, lit "BJ"); (14, lit "BM"); (15, lit "BP");
  (16, lit "BS"); (17, lit "BV"); (18, lit "BY"); (19, lit "CB"); (20, lit "CE")].

(** [get_drum_col_letters()]: the quantity, location and stock columns of
    the twenty drum slots. *)
Definition get_drum_col_letters : gmap Z str * gmap Z str * gmap Z str :=
  (qtyCols, locCols, stockCols).

(** ** The table range extender *)

Definition get_tables (ws : worksheet) : Py (list table) :=
  fun w => Done (tables (sheet_of ws w)) w.

Definition set_tables (ws : worksheet) (tbls : list table) : Py unit :=
  fun w => Done tt (with_sheet ws (Sheet (cells (sheet_of ws w)) tbls) w).

(** The body of the loop of [extend_tables_for_new_row] for one table: the
    table as the body leaves it. *)
Definition extend_table `{PyRuntime} (template_row new_row : Z) (tbl : table)
  : exn + table :=
  match range_boundaries (ref tbl) with
  | inl e => inl e
  | inr (min_col, min_row, max_col, max_row) =>
      if (min_row <=? template_row) && (template_row <=? max_row) then
        if max_row <? new_row then
          match get_column_letter min_col, get_column_letter max_col with
          | inr a, inr b =>
              let new_ref :=
                a ++ str_of_int min_row ++ lit ":" ++ b ++ str_of_int new_row in
              inr (Table (displayName tbl) new_ref)
          | inl e, _ => inl e
          | _, inl e => inl e
          end
        else inr tbl
      else inr tbl
  end.

(** The body of the loop of [extend_tables_for_new_row] at index [i]. *)
Definition extend_at `{PyRuntime} (ws : worksheet) (t n : Z) (i : nat) : Py unit :=
  let* cur := get_tables ws in
  match cur !! i with
  | Some tbl =>
      let* tbl' := run (extend_table t n tbl) in
      set_tables ws (<[i := tbl']> cur)
  | None => ret tt
  end.

(** [extend_tables_for_new_row(ws, template_row, new_row)]: the tables are
    visited in order and each is changed in place. *)
Definition extend_tables_for_new_row `{PyRuntime} (ws : worksheet)
    (template_row new_row : Z) : Py unit :=
  let* tbls := get_tables ws in
  for_each (seq 0 (length tbls)) (extend_at ws template_row new_row).

(** ** The drum-slot updater *)

(** "소진" *)
Definition loc_exhausted : str := [49548; 51652].
(** "폐기" *)
Definition loc_disposed : str := [54224; 44592].
(** "외주" *)
Definition loc_outsourced : str := [50808; 51452].

(** The writes of [apply_drum_update_to_main] once the three columns of
    the slot are known (the source from "새 위치/용량 입력" on). *)
Definition write_drum_slot `{PyRuntime} (ws_main : worksheet)
    (row q_col l_col s_col : Z) (new_qty new_loc : pyval) : Py unit :=
  ws_cell ws_main row l_col new_loc ;;;
  let loc_upper := upper (strip (py_str (py_or new_loc (PStr [])))) in
  let* new_qty_val := run (py_float (py_or new_qty (PInt 0))) in
  if bool_decide (loc_upper = loc_exhausted)
     || bool_decide (loc_upper = loc_disposed) then
    ws_cell ws_main row s_col (PInt 0) ;;;
    ws_cell ws_main row q_col (PInt 0) ;;;
    ret tt
  else if bool_decide (loc_upper = loc_outsourced) then
    ws_cell ws_main row s_col (PInt 0) ;;;
    ws_cell ws_main row q_col (PFloat new_qty_val) ;;;
    ret tt
  else
    ws_cell ws_main row q_col (PFloat new_qty_val) ;;;
    ws_cell ws_main row s_col
      (PInt (if float_is_zero new_qty_val then 0 else 1)) ;;;
    ret tt.

(** [apply_drum_update_to_main(ws_main, row, drum_no, new_qty, new_loc)] *)
Definition apply_drum_update_to_main `{PyRuntime} (ws_main : worksheet)
    (row drum_no : Z) (new_qty new_loc : pyval) : Py unit :=
  let '(qtyCols, locCols, stockCols) := get_drum_col_letters in
  if (drum_no <? 1) || (20 <? drum_no) then
    st_message (WarnDrumOutOfRange drum_no)
  else
    let* q_col_letter := dict_item qtyCols drum_no in
    let* l_col_letter := dict_item locCols drum_no in
    let* s_col_letter := dict_item stockCols drum_no in
    let* q_col := run (column_index_from_string q_col_letter) in
    let* l_col := run (column_index_from_string l_col_letter) in
    let* s_col := run (column_index_from_string s_col_letter) in
    write_drum_slot ws_main row q_col l_col s_col new_qty new_loc.

(** ** The audit log appender *)

(** [for x in xs: acc = body(acc, x)] *)
Fixpoint for_fold {A S} (xs : list A) (acc : S) (body : S -> A -> Py S) : Py S :=
  match xs with
  | [] => ret acc
  | x :: xs' => let* acc' := body acc x in for_fold xs' acc' body
  end.

(** "시간" *)
Definition k_time : str := [49884; 44036].
(** "ID" *)
Definition k_id : str := lit "ID".
(** "품목코드" *)
Definition k_item_code : str := [54408; 47785; 53076; 46300].
(** "품번" *)
Definition k_part_no : str := [54408; 48264].
(** "품명" *)
Definition k_name : str := [54408; 47749].
(** "로트번호" *)
Definition k_lot_no : str := [47196; 53944; 48264; 54840].
(** "통번호" *)
Definition k_drum_no : str := [53685; 48264; 54840].
(** "변경 전 용량" *)
Definition k_qty_before : str := [48320; 44221; 32; 51204; 32; 50857; 47049].
(** "변경 후 용량" *)
Definition k_qty_after : str := [48320; 44221; 32; 54980; 32; 50857; 47049].
(** "변화량" *)
Definition k_delta : str := [48320; 54868; 47049].
(** "변경 전 위치" *)
Definition k_loc_before : str := [48320; 44221; 32; 51204; 32; 50948; 52824].
(** "변경 후 위치" *)
Definition k_loc_after : str := [48320; 44221; 32; 54980; 32; 50948; 52824].

(** The header map of [append_log_row]: header text to column, a later
    column replacing an earlier one of the same text. *)
Definition header_step `{PyRuntime} (ws_log : worksheet)
    (header_map : gmap str Z) (c : Z) : Py (gmap str Z) :=
  let* hc := ws_cell ws_log 1 c PNone in
  match value hc with
  | PNone => ret header_map
  | hv => ret (<[strip (py_str hv) := c]> header_map)
  end.

Definition read_headers `{PyRuntime} (ws_log : worksheet) (max_col : Z)
  : Py (gmap str Z) :=
  for_fold (range 1 (max_col + 1)) (∅ : gmap str Z) (header_step ws_log).

(** The style of row [src_row] copied to row [dst_row], column by column. *)
Definition copy_row_style (ws : worksheet) (src_row dst_row max_col : Z) : Py unit :=
  for_each (range 1 (max_col + 1)) (fun c =>
    let* src_cell := ws_cell ws src_row c PNone in
    let* dst_cell := ws_cell ws dst_row c PNone in
    set_cell ws dst_row c (Cell (value dst_cell) (cell_style src_cell))).

(** The dictionary [value_map] of [append_log_row], in the order written. *)
Definition value_map (log_row : gmap str pyval) : list (str * pyval) :=
  [ (k_time, dict_get log_row k_time);
    (k_id, dict_get log_row k_id);
    (k_item_code, dict_get log_row k_part_no);
    (k_part_no, dict_get log_row k_part_no);
    (k_name, dict_get log_row k_name);
    (k_lot_no, dict_get log_row k_lot_no);
    (k_drum_no, dict_get log_row k_drum_no);
    (k_qty_before, dict_get log_row k_qty_before);
    (k_qty_after, dict_get log_row k_qty_after);
    (k_delta, dict_get log_row k_delta);
    (k_loc_before, dict_get log_row k_loc_before);
    (k_loc_after, dict_get log_row k_loc_after) ].

(** [append_log_row(ws_log, log_row)] *)
Definition append_log_row `{PyRuntime} (ws_log : worksheet)
    (log_row : gmap str pyval) : Py unit :=
  let* max_col := get_max_column ws_log in
  let* header_map := read_headers ws_log max_col in
  let* last := get_max_row ws_log in
  let last := if last <? 1 then 1 else last in
  let new_r := last + 1 in
  let src_row := last in
  copy_row_style ws_log src_row new_r max_col ;;;
  for_each (value_map log_row) (fun '(hdr, val) =>
    match header_map !! hdr with
    | Some col => ws_cell ws_log new_r col val ;;; ret tt
    | None => ret tt
    end).

(** ** The row materializer *)

(** "제품라인" *)
Definition k_product_line : str := [51228; 54408; 46972; 51064].
(** "제조일자" *)
Definition k_mfg_date : str := [51228; 51312; 51068; 51088].
(** "전체통수" *)
Definition k_total_drums : str := [51204; 52404; 53685; 49688].

(** [ws[f"{col}{row}"]]: the cell at a coordinate written as text. *)
Definition ws_item `{PyRuntime} (ws : worksheet) (col : str) (row : Z) : Py (Z * cell) :=
  let* c := run (column_index_from_string col) in
  let* x := ws_cell ws row c PNone in
  ret (c, x).

(** [ws[f"{col}{row}"] = v] *)
Definition ws_setitem `{PyRuntime} (ws : worksheet) (col : str) (row : Z)
    (v : pyval) : Py unit :=
  let* it := ws_item ws col row in
  set_cell ws row it.1 (Cell v (cell_style it.2)).

Definition formula_cols : list str :=
  [lit "F"; lit "H"; lit "I"; lit "N"; lit "O"; lit "P"; lit "R"; lit "S";
   lit "T"; lit "U"; lit "V"].

Definition is_formula (v : pyval) : bool :=
  match v with
  | PStr s => startswith (lit "=") s
  | _ => false
  end.

(** [create_new_main_row(ws_main, part_no, lot_no, prod_name, meta_map,
    template_row)] *)
Definition create_new_main_row `{PyRuntime} (ws_main : worksheet)
    (part_no lot_no prod_name : pyval)
    (meta_map : gmap (str * str) (gmap str pyval)) (template_row : option Z)
  : Py Z :=
  let key := (strip (py_str part_no), strip (py_str lot_no)) in
  let meta := default (∅ : gmap str pyval) (meta_map !! key) in
  let* max_row := get_max_row ws_main in
  let new_row := max_row + 1 in
  match template_row with
  | Some t => extend_tables_for_new_row ws_main t new_row
  | None => ret tt
  end ;;;
  let base_row :=
    match template_row with
    | Some t => if t =? 0 then new_row - 1 else t
    | None => new_row - 1
    end in
  let* max_col := get_max_column ws_main in
  copy_row_style ws_main base_row new_row max_col ;;;
  ws_setitem ws_main (lit "B") new_row (PStr (strip (py_str part_no))) ;;;
  ws_setitem ws_main (lit "C") new_row
    (if truthy prod_name then prod_name
     else default (PStr []) (meta !! k_name)) ;;;
  ws_setitem ws_main (lit "D") new_row (PStr (strip (py_str lot_no))) ;;;
  ws_setitem ws_main (lit "E") new_row (default (PStr []) (meta !! k_product_line)) ;;;
  ws_setitem ws_main (lit "G") new_row (default PNone (meta !! k_mfg_date)) ;;;
  ws_setitem ws_main (lit "W") new_row (default PNone (meta !! k_total_drums)) ;;;
  match template_row with
  | Some t =>
      for_each formula_cols (fun col =>
        let* src := ws_item ws_main col t in
        let* dst := ws_item ws_main col new_row in
        let val := value src.2 in
        if is_formula val
        then set_cell ws_main new_row dst.1
               (Cell (adjust_formula_row val t new_row) (cell_style dst.2))
        else set_cell ws_main new_row dst.1 (Cell val (cell_style dst.2)))
  | None => ret tt
  end ;;;
  ret new_row.

(** ** The replay orchestrator *)

(** "메인" *)
Definition sheet_main : str := [47700; 51064].
(** "LOG" *)
Definition sheet_log : str := lit "LOG".

(** A [DataFrame] read from a CSV file: its column names and its rows,
    each a mapping from column name to value. *)
Record dataframe : Type := DataFrame {
  columns : list str;
  records : list (gmap str pyval)
}.

Definition required_cols : list str :=
  [k_time; k_part_no; k_name; k_lot_no; k_drum_no; k_qty_before; k_qty_after;
   k_delta; k_loc_before; k_loc_after].

(** The timestamps of column 1 of the log sheet, rows 2 to the last. *)
Definition log_time_step (ws_log : worksheet) (log_times : list datetime)
    (r : Z) : Py (list datetime) :=
  let* c := ws_cell ws_log r 1 PNone in
  match value c with
  | PDatetime t => ret (log_times ++ [t])
  | _ => ret log_times
  end.

Definition read_log_times (ws_log : worksheet) : Py (list datetime) :=
  let* max_row := get_max_row ws_log in
  for_fold (range 2 (max_row + 1)) [] (log_time_step ws_log).

(** [max(log_times) if log_times else datetime.min] *)
Definition watermark (log_times : list datetime) : datetime :=
  match log_times with
  | [] => datetime_min
  | t :: ts => fold_left N.max ts t
  end.

(** A row of the change log after [pd.to_datetime(..., errors="coerce")]:
    the time when it parsed ([None] is [NaT]) and the row. *)
Definition timed_row : Type := option datetime * gmap str pyval.

Definition convert_time `{PyRuntime} (row : gmap str pyval) : timed_row :=
  let t := to_datetime (dict_get row k_time) in
  (t, <[k_time := match t with Some t' => PDatetime t' | None => PNone end]> row).

(** [df["시간"] > last_time] for one row: false for [NaT]. *)
Definition is_after (last_time : datetime) (r : timed_row) : bool :=
  match r.1 with
  | Some t => (last_time <? t)%N
  | None => false
  end.

(** The order of [sort_values("시간")]: ascending, [NaT] last. *)
Definition time_le (a b : timed_row) : Prop :=
  match a.1, b.1 with
  | Some x, Some y => (x <= y)%N
  | _, None => True
  | None, Some _ => False
  end.

#[global] Instance time_le_dec : RelDecision time_le.
Proof.
  intros [[x|] ?] [[y|] ?]; unfold time_le; simpl;
    first [ apply N.le_dec | left; exact I | right; exact id ].
Defined.

(** [df_log[df_log["시간"] > last_time].sort_values("시간")] *)
Definition new_logs (last_time : datetime) (rows : list timed_row)
  : list timed_row :=
  merge_sort time_le (filter (fun r => is_after last_time r) rows).

(** The body of the replay loop for one record: the template row for the
    records that follow. *)
Definition replay_row `{PyRuntime} (ws_main ws_log : worksheet)
    (meta_map : gmap (str * str) (gmap str pyval)) (template_row : option Z)
    (row : gmap str pyval) : Py (option Z) :=
  let* v_part := dict_item row k_part_no in
  let part_no := strip (py_str v_part) in
  let* v_lot := dict_item row k_lot_no in
  let lot_no := strip (py_str v_lot) in
  let prod_name :=
    strip (py_str (py_or (default (PStr []) (row !! k_name)) (PStr []))) in
  let* v_drum := dict_item row k_drum_no in
  let* drum_no := run (py_int v_drum) in
  let* new_qty := dict_item row k_qty_after in
  let* v_loc := dict_item row k_loc_after in
  let new_loc := py_str v_loc in
  let* found := find_main_row ws_main (PStr part_no) (PStr lot_no) in
  let* located :=
    if found =? 0 then
      st_message (WriteNewLot part_no lot_no) ;;;
      let* created := create_new_main_row ws_main (PStr part_no) (PStr lot_no)
                        (PStr prod_name) meta_map template_row in
      ret (created, Some created)
    else ret (found, template_row) in
  apply_drum_update_to_main ws_main located.1 drum_no new_qty (PStr new_loc) ;;;
  append_log_row ws_log row ;;;
  ret located.2.

(** The replay loop: the number of records applied. *)
Definition replay_step `{PyRuntime} (ws_main ws_log : worksheet)
    (meta_map : gmap (str * str) (gmap str pyval)) (st : option Z * Z)
    (row : timed_row) : Py (option Z * Z) :=
  let* template_row' := replay_row ws_main ws_log meta_map st.1 row.2 in
  ret (template_row', st.2 + 1).

Definition replay `{PyRuntime} (ws_main ws_log : worksheet)
    (meta_map : gmap (str * str) (gmap str pyval)) (template_row : option Z)
    (logs : list timed_row) : Py Z :=
  let* st := for_fold logs (template_row, 0)
               (replay_step ws_main ws_log meta_map) in
  ret st.2.

(** The rows of the change log as the filter sees them: the [ID] column
    added when missing, the time converted. *)
Definition prepared_rows `{PyRuntime} (df_log : dataframe) : list timed_row :=
  let rows :=
    if bool_decide (k_id ∈ columns df_log) then records df_log
    else map (fun row => <[k_id := PNone]> row) (records df_log) in
  map convert_time rows.

(** [process_bulk_log_streamlit] from the loaded workbook on: the number
    of records applied. *)
Definition process_sheets `{PyRuntime}
    (meta_map : gmap (str * str) (gmap str pyval)) (df_log : dataframe) : Py Z :=
  let ws_main := WsMain in
  let ws_log := WsLog in
  let* template_row := get_template_row ws_main in
  let* log_times := read_log_times ws_log in
  let last_time := watermark log_times in
  if negb (forallb (fun col => bool_decide (col ∈ columns df_log)) required_cols)
  then raise ValueError
  else
    let logs := new_logs last_time (prepared_rows df_log) in
    match logs with
    | [] => st_message InfoNoNewLogs ;;; ret 0
    | _ :: _ => replay ws_main ws_log meta_map template_row logs
    end.

(** What a run ends with: the workbook saved and the number of records
    applied, or an exception; in both cases the messages shown. *)
Inductive run_result : Type :=
| Returned (out : gmap str sheet) (applied_count : Z) (shown : list message)
| Failed (e : exn) (shown : list message).

(** [wb.save(out)]: the workbook with its two sheets as the run left them. *)
Definition save (wb : gmap str sheet) (w : world) : gmap str sheet :=
  <[sheet_main := main_sheet w]> (<[sheet_log := log_sheet w]> wb).

(** [process_bulk_log_streamlit(excel_file, bulk_log_file, bulk_ext_file)],
    given the metadata index built from the extended file, the workbook
    loaded from the Excel file and the frame read from the log file. *)
Definition process_bulk_log_streamlit `{PyRuntime}
    (meta_map : gmap (str * str) (gmap str pyval)) (wb : gmap str sheet)
    (df_log : dataframe) : run_result :=
  match wb !! sheet_main, wb !! sheet_log with
  | Some m, Some l =>
      match process_sheets meta_map df_log (World m l []) with
      | Done n w => Returned (save wb w) n (console w)
      | Raised e w => Failed e (console w)
      end
  | _, _ => Failed ValueError []
  end.

(** ** A runtime for evaluating examples *)

(** [[sign] digits] as an integer. *)
Definition signed_digits (s : str) : option Z :=
  match s with
  | [] => None
  | c :: t =>
      if (c =? 45) && forallb is_digit t && negb (bool_decide (t = []))
      then Some (- int_of_digits t)
      else if forallb is_digit s then Some (int_of_digits s)
      else None
  end.

(** A runtime that agrees with CPython on the inputs of the examples
    below: text of ASCII and Hangul syllables (which have no case and are
    word characters), numbers written as decimal integers, times given as
    [datetime] values. *)
Definition example_runtime : PyRuntime := {|
  uni_upper := fun c => [c];
  uni_word := fun c => (44032 <=? c) && (c <=? 55203);
  str_of_float := fun f =>
    match f with
    | S754_zero false => lit "0.0"
    | S754_zero true => lit "-0.0"
    | S754_infinity false => lit "inf"
    | S754_infinity true => lit "-inf"
    | _ => lit "nan"
    end;
  str_of_datetime := fun t => str_of_int (Z.of_N t);
  float_of_str := fun s => option_map float_of_int (signed_digits (strip s));
  int_of_str := fun s => signed_digits (strip s);
  to_datetime := fun v =>
    match v with
    | PDatetime t => Some t
    | _ => None
    end
|}.

(** ** Vocabulary of the properties *)

(** Two sheets a reader cannot tell apart: the same tables, and the same
    value and style at every coordinate. *)
Definition same_content (sh sh' : sheet) : Prop :=
  tables sh' = tables sh
  /\ forall r c, value_at sh' r c = value_at sh r c
                 /\ style_at sh' r c = style_at sh r c.

(** Two states with sheets of the same content and the same messages. *)
Definition unchanged (w w' : world) : Prop :=
  same_content (main_sheet w) (main_sheet w')
  /\ same_content (log_sheet w) (log_sheet w')
  /\ console w' = console w.

(** A state with the same content and the same last row and column. *)
Definition kept (ws : worksheet) (w w' : world) : Prop :=
  unchanged w w'
  /\ max_row (sheet_of ws w') = max_row (sheet_of ws w)
  /\ max_column (sheet_of ws w') = max_column (sheet_of ws w).

(** A state reached by reading cells of the sheet [ws] up to its last row:
    the sheet has the same content and the same last row, the other sheet
    and the messages are the same. *)
Definition reads (ws : worksheet) (w w' : world) : Prop :=
  same_content (sheet_of ws w) (sheet_of ws w')
  /\ max_row (sheet_of ws w') = max_row (sheet_of ws w)
  /\ (forall ws', ws' <> ws -> sheet_of ws' w' = sheet_of ws' w)
  /\ console w' = console w.

(** A row whose item code (column B) and lot (column D), read as text and
    trimmed, are those looked for. *)
Definition row_matches `{PyRuntime} (sh : sheet) (part_no lot_no : pyval)
    (r : Z) : Prop :=
  cell_text (value_at sh r 2) = strip (py_str part_no)
  /\ cell_text (value_at sh r 4) = strip (py_str lot_no).

(** The largest column that [fuel] letters can name. *)
Fixpoint column_bound (fuel : nat) : Z :=
  match fuel with
  | O => 0
  | S fuel' => 26 * column_bound fuel' + 26
  end.

(** The table a successful loop body leaves. *)
Definition extended `{PyRuntime} (t n : Z) (tbl : table) : table :=
  match extend_table t n tbl with
  | inr tbl' => tbl'
  | inl _ => tbl
  end.

(** A table whose range reads as the bounds of a cell or a rectangle. *)
Definition decodable `{PyRuntime} (tbl : table) : Prop :=
  exists b, range_boundaries (ref tbl) = inr b.

(** The header text of a column of row 1: [str(hv).strip()], none for an
    empty cell. *)
Definition header_text `{PyRuntime} (sh : sheet) (c : Z) : option str :=
  match value_at sh 1 c with
  | PNone => None
  | hv => Some (strip (py_str hv))
  end.

(** The column the header map gives a name: the last column, from 1 to the
    last column of the sheet, whose header text is the name. *)
Definition header_column `{PyRuntime} (sh : sheet) (hdr : str) : option Z :=
  last (filter (fun c => header_text sh c = Some hdr) (range 1 (max_column sh + 1))).

Definition add_header `{PyRuntime} (sh : sheet) (hm : gmap str Z) (c : Z)
  : gmap str Z :=
  match header_text sh c with
  | Some t => <[t := c]> hm
  | None => hm
  end.

(** The sheet after the body of [copy_row_style] for column [c]. *)
Definition copy_style_at (src dst : Z) (sh : sheet) (c : Z) : sheet :=
  let sh1 := touch sh src c PNone in
  let sh2 := touch sh1 dst c PNone in
  put_cell sh2 dst c (Cell (value (cell_of sh1 dst c)) (cell_style (cell_of sh src c))).

(** The sheet after one step of the value loop of [append_log_row]. *)
Definition write_value (new_r : Z) (hm : gmap str Z) (sh : sheet)
    (e : str * pyval) : sheet :=
  match hm !! e.1 with
  | Some col => touch sh new_r col e.2
  | None => sh
  end.

(** What one entry does to the value read at a coordinate. *)
Definition write_step (new_r : Z) (hm : gmap str Z) (r k : Z) (acc : pyval)
    (e : str * pyval) : pyval :=
  if decide (r = new_r /\ hm !! e.1 = Some k)
  then match e.2 with PNone => acc | v => v end
  else acc.

(** The timestamps of column 1 of a sheet, rows 2 to the last, in order. *)
Definition time_at (sh : sheet) (r : Z) : option datetime :=
  match value_at sh r 1 with
  | PDatetime t => Some t
  | _ => None
  end.

Definition log_times (sh : sheet) : list datetime :=
  omap (time_at sh) (range 2 (max_row sh + 1)).


(** The contract of the formula rewriter in the words of the
    specification: every occurrence of one to three column letters
    followed by the source row and a word boundary keeps its letters and
    takes the destination row. Such an occurrence ends at a place where
    the text of the source row stands right after a letter [A]-[Z] and
    right before a word boundary, so the rewriting replaces the row text
    at each such place. [prev] is the character before the text. *)
Definition row_ref_here `{PyRuntime} (old : str) (prev : option Z) (s : str)
  : option str :=
  match old, prev with
  | _ :: _, Some p => if Regex.is_AZ p then Regex.row_then_boundary old prev s else None
  | _, _ => None
  end.

Lemma row_ref_here_shorter `{PyRuntime} (old : str) (prev : option Z) (s rest : str) :
  row_ref_here old prev s = Some rest -> (length rest < length s)%nat.
Proof.
  unfold row_ref_here, Regex.row_then_boundary.
  destruct old as [|d old]; [discriminate|].
  destruct prev as [p|]; [|discriminate].
  destruct (Regex.is_AZ p); [|discriminate].
  destruct (Regex.strip_literal (d :: old) s) as [r|] eqn:E; [|discriminate].
  destruct (Regex.word_boundary _ r); [|discriminate].
  intros [= <-]. apply Regex.strip_literal_app in E. subst s.
  rewrite length_app. simpl. lia.
Qed.

Equations? spec_rewrite `{PyRuntime} (old new : str) (prev : option Z) (s : str)
  : str by wf (length s) lt :=
  spec_rewrite old new prev [] := [];
  spec_rewrite old new prev (c :: t) with inspect (row_ref_here old prev (c :: t)) := {
    | exist _ (Some rest) E => new ++ spec_rewrite old new (last old) rest;
    | exist _ None _ => c :: spec_rewrite old new (Some c) t }.
Proof.
  pose proof (row_ref_here_shorter old prev (c :: t) rest E) as Hlt.
  simpl in Hlt. lia.
Qed.

(** A character of a group: a column letter or the dollar sign. *)
Definition group_char (c : Z) : Prop := Regex.is_AZ c = true \/ c = 36.

(** A character that no group holds. *)
Definition row_char (c : Z) : Prop := Regex.is_AZ c = false /\ c <> 36.

Definition no_letter (prev : option Z) : Prop :=
  match prev with Some p => Regex.is_AZ p = false | None => True end.

(** ** Vocabulary of the further properties *)

(** A call [ws.cell(row, col, value=v)] as data: the coordinate and the
    value passed. *)
Definition cell_write : Type := Z * Z * pyval.

Definition apply_write (sh : sheet) (x : cell_write) : sheet :=
  touch sh x.1.1 x.1.2 x.2.

(** The three calls of a drum-slot update whose quantity reads as [qty],
    in the order the source makes them. *)
Definition slot_writes `{PyRuntime} (row d : Z) (qty : float) (new_loc : pyval)
  : list cell_write :=
  let q_col := 21 + 3 * d in
  let l_col := 22 + 3 * d in
  let s_col := 23 + 3 * d in
  let loc_upper := upper (strip (py_str (py_or new_loc (PStr [])))) in
  (row, l_col, new_loc) ::
  (if bool_decide (loc_upper = loc_exhausted)
      || bool_decide (loc_upper = loc_disposed)
   then [(row, s_col, PInt 0); (row, q_col, PInt 0)]
   else if bool_decide (loc_upper = loc_outsourced)
   then [(row, s_col, PInt 0); (row, q_col, PFloat qty)]
   else [(row, q_col, PFloat qty);
         (row, s_col, PInt (if float_is_zero qty then 0 else 1))]).

(** The row the locator answers with on a sheet: the first row from 3 to
    the last whose item code and lot are those looked for, [0] for none. *)
Definition matching `{PyRuntime} (sh : sheet) (part_no lot_no : pyval) (r : Z)
  : bool :=
  bool_decide (cell_text (value_at sh r 2) = strip (py_str part_no))
  && bool_decide (cell_text (value_at sh r 4) = strip (py_str lot_no)).

Definition first_matching `{PyRuntime} (sh : sheet) (part_no lot_no : pyval)
    (rows : list Z) : Z :=
  default 0 (head (filter (fun r => matching sh part_no lot_no r) rows)).

Definition located `{PyRuntime} (sh : sheet) (part_no lot_no : pyval) : Z :=
  first_matching sh part_no lot_no (range 3 (max_row sh + 1)).

(** The sheet after [ws[coordinate] = v]: the cell takes the value and
    keeps its style. *)
Definition assign (sh : sheet) (row col : Z) (v : pyval) : sheet :=
  put_cell sh row col (Cell v (style_at sh row col)).

(** The sheet after the body of the formula loop of [create_new_main_row]
    for the column [c]. *)
Definition copy_formula_at `{PyRuntime} (t n : Z) (sh : sheet) (c : Z) : sheet :=
  assign (touch sh t c PNone) n c (adjust_formula_row (value_at sh t c) t n).

(** The columns [F], [H], [I], [N], [O], [P], [R], [S], [T], [U], [V]. *)
Definition formula_columns : list Z := [6; 8; 9; 14; 15; 16; 18; 19; 20; 21; 22].

(** The row whose style a new row takes. *)
Definition base_row (sh : sheet) (template_row : option Z) : Z :=
  match template_row with
  | Some t => t
  | None => max_row sh
  end.

(** The value [create_new_main_row] leaves in column [k] of the new row
    [n] of the sheet [sh]. *)
Definition new_row_value `{PyRuntime} (sh : sheet) (part_no lot_no prod_name : pyval)
    (meta : gmap str pyval) (template_row : option Z) (n k : Z) : pyval :=
  if decide (k = 2) then PStr (strip (py_str part_no))
  else if decide (k = 3) then
    (if truthy prod_name then prod_name else default (PStr []) (meta !! k_name))
  else if decide (k = 4) then PStr (strip (py_str lot_no))
  else if decide (k = 5) then default (PStr []) (meta !! k_product_line)
  else if decide (k = 7) then default PNone (meta !! k_mfg_date)
  else if decide (k = 23) then default PNone (meta !! k_total_drums)
  else if decide (k ∈ formula_columns) then
    match template_row with
    | Some t => adjust_formula_row (value_at sh t k) t n
    | None => PNone
    end
  else PNone.

(** The sheet [create_new_main_row] leaves, given the tables as the
    extender left them. *)
Definition created_sheet `{PyRuntime} (sh : sheet) (tbls : list table)
    (part_no lot_no prod_name : pyval) (meta : gmap str pyval)
    (template_row : option Z) : sheet :=
  let n := max_row sh + 1 in
  let sh1 := Sheet (cells sh) tbls in
  let sh2 := fold_left (copy_style_at (base_row sh template_row) n)
               (range 1 (max_column sh + 1)) sh1 in
  let sh3 := assign sh2 n 2 (PStr (strip (py_str part_no))) in
  let sh4 := assign sh3 n 3
               (if truthy prod_name then prod_name
                else default (PStr []) (meta !! k_name)) in
  let sh5 := assign sh4 n 4 (PStr (strip (py_str lot_no))) in
  let sh6 := assign sh5 n 5 (default (PStr []) (meta !! k_product_line)) in
  let sh7 := assign sh6 n 7 (default PNone (meta !! k_mfg_date)) in
  let sh8 := assign sh7 n 23 (default PNone (meta !! k_total_drums)) in
  match template_row with
  | Some t => fold_left (copy_formula_at t n) formula_columns sh8
  | None => sh8
  end.

(** A template row that is a row of the sheet, or none. *)
Definition template_within (sh : sheet) (template_row : option Z) : Prop :=
  match template_row with
  | Some t => 1 <= t <= max_row sh
  | None => True
  end.

(** The metadata of a lot in the index. *)
Definition meta_of `{PyRuntime} (meta_map : gmap (str * str) (gmap str pyval))
    (part_no lot_no : pyval) : gmap str pyval :=
  default ∅ (meta_map !! (strip (py_str part_no), strip (py_str lot_no))).

(** The state a computation ends in, returning or raising. *)
Definition state_of {A} (o : outcome A) : world :=
  match o with
  | Done _ w => w
  | Raised _ w => w
  end.

(** A computation that leaves every worksheet but [ws] as it is, whether
    it returns or raises. *)
Definition confined {A} (ws : worksheet) (m : Py A) : Prop :=
  forall w ws', ws' <> ws -> sheet_of ws' (state_of (m w)) = sheet_of ws' w.

(** What a run may do to the rows a ledger sheet had: it keeps them all,
    with their styles and with their values in the columns [A] to [W]. *)
Definition rows_kept (m m' : sheet) : Prop :=
  max_row m <= max_row m'
  /\ forall r k, r <= max_row m ->
       style_at m' r k = style_at m r k
       /\ (k <= 23 -> value_at m' r k = value_at m r k).

(** ** Reading a CSV file *)

(** What [pd.read_csv] makes of the content of a file is taken as given:
    the frame read with an encoding, and the frame read with the separator
    guessed ([sep=None, engine="python"]); [None] when the call raises. *)
Class CsvReader : Type := {
  read_csv : str -> list Z -> option dataframe;
  read_csv_sniff : list Z -> option dataframe
}.

Definition encodings : list str :=
  [lit "cp949"; lit "utf-8-sig"; lit "utf-8"; lit "ansi"; lit "utf-16"].

(** [df.columns.size > 0] *)
Definition has_columns (df : dataframe) : bool :=
  0 <? Z.of_nat (length (columns df)).

(** The loop over the encodings: the first frame read that has a column. *)
Fixpoint first_readable `{CsvReader} (encs : list str) (content : list Z)
  : option dataframe :=
  match encs with
  | [] => None
  | enc :: encs' =>
      match read_csv enc content with
      | Some df => if has_columns df then Some df else first_readable encs' content
      | None => first_readable encs' content
      end
  end.

(** [read_csv_flexible(uploaded_file)]; the file is [None] or its content. *)
Definition read_csv_flexible `{CsvReader} (uploaded_file : option (list Z))
  : exn + dataframe :=
  match uploaded_file with
  | None => inl ValueError
  | Some content =>
      match first_readable encodings content with
      | Some df => inr df
      | None =>
          match read_csv_sniff content with
          | Some df => if has_columns df then inr df else inl ValueError
          | None => inl ValueError
          end
      end
  end.

(** ** The drum extractor *)

(** Membership of a code point outside ASCII in the regex class [\d]. *)
Class UnicodeDigits : Type := { uni_decimal : Z -> bool }.

(** [\d] in a [str] pattern. *)
Definition is_decimal `{UnicodeDigits} (c : Z) : bool :=
  if c <? 128 then is_digit c else uni_decimal c.

(** "창고" *)
Definition loc_warehouse : str := [52285; 44256].
(** "층" *)
Definition ch_floor : Z := 52789.
(** "보관" *)
Definition kw_keep : str := [48372; 44288].

(** [norm_str(v)] *)
Definition norm_str `{PyRuntime} (v : pyval) : str :=
  match v with
  | PNone => []
  | PFloat S754_nan => []
  | _ => strip (py_str v)
  end.

(** ("외주", "폐기", "소진", "창고") *)
Definition specials : list str :=
  [loc_outsourced; loc_disposed; loc_exhausted; loc_warehouse].

(** The test of the loop over the special zones. *)
Definition is_special_text (s special : str) : bool :=
  bool_decide (s = special)
  || startswith (special ++ lit " ") s
  || startswith (special ++ lit "_") s
  || startswith (special ++ lit "-") s.

(** [re.fullmatch(r"\d+", s)] *)
Definition fullmatch_digits `{UnicodeDigits} (s : str) : bool :=
  negb (bool_decide (s = [])) && forallb is_decimal s.

(** [\d+층] matched at the head of the text: the text matched. The
    quantifier is greedy: more digits are tried before the floor sign. *)
Fixpoint match_digits_floor `{UnicodeDigits} (s : str) : option str :=
  match s with
  | c :: t =>
      if is_decimal c then
        match match_digits_floor t with
        | Some g => Some (c :: g)
        | None =>
            match t with
            | r :: _ => if r =? ch_floor then Some [c; ch_floor] else None
            | [] => None
            end
        end
      else None
  | [] => None
  end.

(** [re.search(r"(\d+층)", s)]: group 1 of the leftmost match. *)
Fixpoint search_floor `{UnicodeDigits} (s : str) : option str :=
  match match_digits_floor s with
  | Some g => Some g
  | None =>
      match s with
      | _ :: t => search_floor t
      | [] => None
      end
  end.

(** [to_floor_str(floor_raw)] *)
Definition to_floor_str `{PyRuntime} `{UnicodeDigits} (floor_raw : pyval) : str :=
  let s := norm_str floor_raw in
  if bool_decide (s = []) then []
  else
    match find (is_special_text s) specials with
    | Some special => special
    | None =>
        if fullmatch_digits s then s ++ [ch_floor]
        else
          match search_floor s with
          | Some g => g
          | None => []
          end
    end.

(** [(\s+보관)] at the head of the text: what follows it. No white-space
    character begins "보관", so the white space taken is the whole run. *)
Definition keep_again (s : str) : option str :=
  match span is_space s with
  | ([], _) => None
  | (_ :: _, r) => Regex.strip_literal kw_keep r
  end.

(** [(\s+보관)*], greedy: what follows the repetitions. *)
Fixpoint keep_repeats (fuel : nat) (s : str) : str :=
  match fuel with
  | O => s
  | S fuel' =>
      match keep_again s with
      | Some r => keep_repeats fuel' r
      | None => s
      end
  end.

(** [(보관)(\s+\1)+] at the head of the text: what follows the match. *)
Definition keep_run (s : str) : option str :=
  match Regex.strip_literal kw_keep s with
  | Some r1 =>
      match keep_again r1 with
      | Some r2 => Some (keep_repeats (length r2) r2)
      | None => None
      end
  | None => None
  end.

(** [re.sub(r"(보관)(\s+\1)+", r"\1", s)] over the text still to scan. *)
Fixpoint collapse_keep (fuel : nat) (s : str) : str :=
  match fuel with
  | O => s
  | S fuel' =>
      match s with
      | [] => []
      | c :: t =>
          match keep_run s with
          | Some rest => kw_keep ++ collapse_keep fuel' rest
          | None => c :: collapse_keep fuel' t
          end
      end
  end.

(** The cleaning of the detail cell: the text of the cell with repeated
    "보관" collapsed, none when it only says "보관" or repeats the floor. *)
Definition clean_detail `{PyRuntime} (floor : str) (detail_cell : pyval) : str :=
  let detail_val := norm_str detail_cell in
  let detail_val :=
    if bool_decide (detail_val <> [])
    then strip (collapse_keep (length detail_val) detail_val)
    else detail_val in
  let detail := norm_str (PStr detail_val) in
  if bool_decide (detail = []) || bool_decide (detail = kw_keep)
     || bool_decide (detail = floor ++ lit " " ++ kw_keep)
  then [] else detail.

(** The current location of a drum (the source from "1) 세부위치" to
    [current_loc]). *)
Definition drum_location `{PyRuntime} `{UnicodeDigits}
    (floor_raw detail_cell : pyval) : str :=
  let floor := to_floor_str floor_raw in
  let detail := clean_detail floor detail_cell in
  if bool_decide (floor ∈ specials) then floor
  else if bool_decide (floor = []) then detail
  else
    let detail :=
      if startswith floor detail then strip (drop (length floor) detail)
      else detail in
    let detail := if bool_decide (detail = []) then kw_keep else detail in
    floor ++ lit " " ++ detail.

(** The number in the count cell: [int(float(s_cnt))], [0] for an empty
    cell and when the conversion raises. *)
Definition drum_count `{PyRuntime} (cnt_raw : pyval) : Z :=
  let s_cnt := norm_str cnt_raw in
  if bool_decide (s_cnt = []) then 0
  else
    match py_float (PStr s_cnt) with
    | inr f =>
        match py_int (PFloat f) with
        | inr n => n
        | inl _ => 0
        end
    | inl _ => 0
    end.

(** [pd.isna(v)] *)
Definition is_na (v : pyval) : bool :=
  match v with
  | PNone => true
  | PFloat S754_nan => true
  | _ => false
  end.

(** [v == 0] *)
Definition equals_zero (v : pyval) : bool :=
  match v with
  | PBool b => negb b
  | PInt n => n =? 0
  | PFloat f => float_is_zero f
  | _ => false
  end.

(** A row of the extract: drum number, capacity and current location. *)
Definition drum_row : Type := Z * pyval * str.

(** The rows the extractor appends for one drum slot of a ledger row,
    given the capacity, floor and count cells of the slot and the value of
    its detail cell. *)
Definition drum_rows `{PyRuntime} `{UnicodeDigits} (drum_no : Z)
    (cap floor_raw cnt_raw detail_cell : pyval) : list drum_row :=
  let current_loc := drum_location floor_raw detail_cell in
  let n := drum_count cnt_raw in
  let n :=
    if bool_decide (current_loc ∈ [loc_outsourced; loc_disposed; loc_exhausted])
       && (n <=? 0)
    then 1 else n in
  let cap_empty := is_na cap || equals_zero cap in
  if (n <=? 0) && cap_empty && bool_decide (current_loc = []) then []
  else if n <=? 0 then []
  else replicate (Z.to_nat n) (drum_no, cap, current_loc).

(** A digit class with the Arabic-Indic digits beside the ASCII ones. *)
Definition example_digits : UnicodeDigits :=
  {| uni_decimal := fun c => (1632 <=? c) && (c <=? 1641) |}.

(** What the properties take from Unicode: outside ASCII, no decimal digit
    is a white-space character and none is a Hangul syllable. *)
Definition digits_apart `{UnicodeDigits} : Prop :=
  forall c, 128 <= c -> uni_decimal c = true ->
    is_space c = false /\ ~ (44032 <= c <= 55203).

(** ** Example inputs *)

(** A sheet with no cell and no table, and a run that starts on two of
    them. *)
Definition empty_sheet : sheet := Sheet ∅ [].

Definition empty_world : world := World empty_sheet empty_sheet [].

(** A ledger with one lot ("P1", "L1") in row 3 of the main sheet and a
    log sheet with its header row and one record at time 100. *)
Definition example_main : sheet :=
  touch (touch empty_sheet 3 2 (PStr (lit "P1"))) 3 4 (PStr (lit "L1")).

Definition example_log : sheet :=
  let headers := [k_time; k_id; k_item_code; k_name; k_lot_no; k_drum_no;
                  k_qty_after; k_loc_after] in
  let with_headers :=
    fold_left (fun sh ih => touch sh 1 (Z.of_nat ih.1 + 1) (PStr ih.2))
      (imap (fun i h => (i, h)) headers) empty_sheet in
  touch with_headers 2 1 (PDatetime 100%N).

Definition example_wb : gmap str sheet :=
  <[sheet_main := example_main]> (<[sheet_log := example_log]> ∅).

(** A change for drum 1 of the lot at the time [t]. *)
Definition example_record (t : datetime) (qty : Z) : gmap str pyval :=
  list_to_map [
    (k_time, PDatetime t); (k_part_no, PStr (lit "P1")); (k_name, PStr (lit "N1"));
    (k_lot_no, PStr (lit "L1")); (k_drum_no, PInt 1);
    (k_qty_before, PInt 9); (k_qty_after, PInt qty); (k_delta, PInt (qty - 9));
    (k_loc_before, PStr (lit "3F")); (k_loc_after, PStr (lit "4F"))].

(** A change log with a record before the watermark and one after it. *)
Definition example_frame : dataframe :=
  DataFrame required_cols [example_record 101%N 5; example_record 99%N 7].

(** * Part II. Properties *)

(** ** Worksheets and computations *)

Lemma sheet_of_with_sheet (ws : worksheet) (sh : sheet) (w : world) :
  sheet_of ws (with_sheet ws sh w) = sh.
Proof. now destruct ws. Qed.

Lemma sheet_of_with_other (ws ws' : worksheet) (sh : sheet) (w : world) :
  ws <> ws' -> sheet_of ws' (with_sheet ws sh w) = sheet_of ws' w.
Proof. destruct ws, ws'; simpl; congruence. Qed.

Lemma console_with_sheet (ws : worksheet) (sh : sheet) (w : world) :
  console (with_sheet ws sh w) = console w.
Proof. now destruct ws. Qed.

Lemma with_sheet_twice (ws : worksheet) (sh1 sh2 : sheet) (w : world) :
  with_sheet ws sh2 (with_sheet ws sh1 w) = with_sheet ws sh2 w.
Proof. now destruct ws. Qed.

Lemma value_at_cell_of (sh : sheet) (row col : Z) :
  value (cell_of sh row col) = value_at sh row col.
Proof. unfold cell_of, value_at. now destruct (cells sh !! (row, col)). Qed.

Lemma style_at_cell_of (sh : sheet) (row col : Z) :
  cell_style (cell_of sh row col) = style_at sh row col.
Proof. unfold cell_of, style_at. now destruct (cells sh !! (row, col)). Qed.

Lemma value_at_put (sh : sheet) (row col : Z) (c : cell) (r k : Z) :
  value_at (put_cell sh row col c) r k
  = if decide ((row, col) = (r, k)) then value c else value_at sh r k.
Proof.
  unfold value_at, put_cell. simpl. rewrite lookup_insert.
  now destruct (decide ((row, col) = (r, k))).
Qed.

Lemma style_at_put (sh : sheet) (row col : Z) (c : cell) (r k : Z) :
  style_at (put_cell sh row col c) r k
  = if decide ((row, col) = (r, k)) then cell_style c else style_at sh r k.
Proof.
  unfold style_at, put_cell. simpl. rewrite lookup_insert.
  now destruct (decide ((row, col) = (r, k))).
Qed.

Lemma value_assigned (sh : sheet) (row col : Z) (v : pyval) :
  value (assigned sh row col v)
  = match v with PNone => value_at sh row col | _ => v end.
Proof. destruct v; simpl; try reflexivity. apply value_at_cell_of. Qed.

Lemma style_assigned (sh : sheet) (row col : Z) (v : pyval) :
  cell_style (assigned sh row col v) = style_at sh row col.
Proof. destruct v; simpl; apply style_at_cell_of. Qed.

(** Asking for a cell changes the value read at its coordinate only when
    a value is passed, and no value anywhere else. *)
Lemma value_at_touch (sh : sheet) (row col : Z) (v : pyval) (r k : Z) :
  value_at (touch sh row col v) r k
  = if decide ((row, col) = (r, k))
    then match v with PNone => value_at sh r k | _ => v end
    else value_at sh r k.
Proof.
  unfold touch. rewrite value_at_put, value_assigned.
  destruct (decide ((row, col) = (r, k))) as [[= -> ->]|]; reflexivity.
Qed.

(** It changes no style and no table. *)
Lemma style_at_touch (sh : sheet) (row col : Z) (v : pyval) (r k : Z) :
  style_at (touch sh row col v) r k = style_at sh r k.
Proof.
  unfold touch. rewrite style_at_put, style_assigned.
  destruct (decide ((row, col) = (r, k))) as [[= -> ->]|]; reflexivity.
Qed.

Lemma tables_touch (sh : sheet) (row col : Z) (v : pyval) :
  tables (touch sh row col v) = tables sh.
Proof. reflexivity. Qed.

Lemma ws_cell_done (ws : worksheet) (row col : Z) (v : pyval) (w : world) :
  1 <= row -> 1 <= col ->
  ws_cell ws row col v w
  = Done (assigned (sheet_of ws w) row col v)
         (with_sheet ws (touch (sheet_of ws w) row col v) w).
Proof.
  intros Hr Hc. unfold ws_cell.
  destruct (Z.ltb_spec row 1); [lia|]. destruct (Z.ltb_spec col 1); [lia|].
  reflexivity.
Qed.

Lemma bind_done {A B} (m : Py A) (k : A -> Py B) (w w' : world) (a : A) :
  m w = Done a w' -> bind m k w = k a w'.
Proof. unfold bind. now intros ->. Qed.

Lemma bind_raised {A B} (m : Py A) (k : A -> Py B) (w w' : world) (e : exn) :
  m w = Raised e w' -> bind m k w = Raised e w'.
Proof. unfold bind. now intros ->. Qed.

(** ** The formula rewriter *)

(** Replacing a row by itself leaves every text as it is. *)
Lemma sub_same_row `{PyRuntime} (row s : str) : Regex.sub row row s = s.
Proof.
  funelim (Regex.sub row row s); simp sub; [reflexivity| |].
  - match goal with IH : Regex.sub _ _ ?r = ?r |- _ => rewrite IH end.
    match goal with E : Regex.match_here _ _ = Some _ |- _ =>
      pose proof (Regex.match_here_app _ _ _ _ E) as [E' _] end.
    symmetry. exact E'.
  - match goal with IH : Regex.sub _ _ ?r = ?r |- _ => now rewrite IH end.
Qed.

(** C10: [adjust_formula_row(v, r, r)] is [v], for every value [v] and
    every row [r]: rewriting a row to itself is the identity. *)
Theorem adjust_formula_row_same_row `{PyRuntime} (v : pyval) (r : Z) :
  adjust_formula_row v r r = v.
Proof.
  destruct v as [| b | n | f | s | t]; try reflexivity.
  unfold adjust_formula_row.
  destruct (startswith (lit "=") s); [|reflexivity].
  f_equal. apply sub_same_row.
Qed.

(** C4, as the specification states it, fails: the text with a leading
    space does not begin with [=], so it is returned as it is, and that is
    not the rewritten formula. *)
Lemma adjust_formula_row_spaced_unchanged :
  (forall R : PyRuntime,
     @adjust_formula_row R (PStr (lit " =($R418+[@X])-$T418 ")) 418 419
     = PStr (lit " =($R418+[@X])-$T418 "))
  /\ PStr (lit " =($R418+[@X])-$T418 ") <> PStr (lit "=($R419+[@X])-$T419").
Proof.
  split.
  - intros R. reflexivity.
  - intros E. inversion E.
Qed.

(** C4, amended: the text with the surrounding spaces is returned
    unchanged; the formula without them, which begins with [=], is
    rewritten from row 418 to row 419 with [[@X]] untouched. *)
Theorem adjust_formula_row_example `{PyRuntime} :
  adjust_formula_row (PStr (lit " =($R418+[@X])-$T418 ")) 418 419
    = PStr (lit " =($R418+[@X])-$T418 ")
  /\ adjust_formula_row (PStr (lit "=($R418+[@X])-$T418")) 418 419
    = PStr (lit "=($R419+[@X])-$T419").
Proof.
  split.
  - reflexivity.
  - vm_compute. reflexivity.
Qed.

(** C3: the pattern has no notion of brackets. A structured reference
    whose column name is letters followed by the source row is rewritten
    like a cell address: [adjust_formula_row("=[@R418]", 418, 419)] is
    ["=[@R419]"], and in ["=ABCD418"] the match starts inside the name. *)
Theorem adjust_formula_row_inside_brackets `{PyRuntime} :
  adjust_formula_row (PStr (lit "=[@R418]")) 418 419 = PStr (lit "=[@R419]")
  /\ adjust_formula_row (PStr (lit "=T[[#This Row],[AB418]]+$C418")) 418 419
     = PStr (lit "=T[[#This Row],[AB419]]+$C419")
  /\ adjust_formula_row (PStr (lit "=ABCD418")) 418 419 = PStr (lit "=ABCD419").
Proof.
  repeat split; vm_compute; reflexivity.
Qed.

(** ** The drum-slot updater *)

(** The columns of slot [d] are the three columns from [21 + 3 d] on:
    slot 1 is [X], [Y], [Z] and slot 20 is [CC], [CD], [CE]. *)
Lemma drum_columns `{PyRuntime} (d : Z) :
  1 <= d <= 20 ->
  exists ql ll sl,
    qtyCols !! d = Some ql /\ locCols !! d = Some ll /\ stockCols !! d = Some sl
    /\ column_index_from_string ql = inr (21 + 3 * d)
    /\ column_index_from_string ll = inr (22 + 3 * d)
    /\ column_index_from_string sl = inr (23 + 3 * d).
Proof.
  intros Hd.
  assert (Hcases : Exists (fun k => d = k) (seqZ 1 20)).
  { apply Exists_exists. exists d. split; [|reflexivity].
    apply elem_of_seqZ. lia. }
  vm_compute seqZ in Hcases.
  repeat (apply Exists_cons in Hcases as [->|Hcases];
          [ do 3 eexists; repeat split; vm_compute; reflexivity | ]).
  now apply Exists_nil in Hcases.
Qed.

Lemma apply_drum_update_in_range `{PyRuntime} (ws : worksheet)
    (row d : Z) (new_qty new_loc : pyval) (w : world) :
  1 <= d <= 20 ->
  apply_drum_update_to_main ws row d new_qty new_loc w
  = write_drum_slot ws row (21 + 3 * d) (22 + 3 * d) (23 + 3 * d) new_qty new_loc w.
Proof.
  intros Hd. destruct (drum_columns d Hd) as (ql & ll & sl & Eq & El & Es & Cq & Cl & Cs).
  unfold apply_drum_update_to_main, get_drum_col_letters.
  destruct (Z.ltb_spec d 1); [lia|]. destruct (Z.ltb_spec 20 d); [lia|].
  simpl orb. cbv iota.
  unfold dict_item, bind. rewrite Eq, El, Es. unfold ret.
  rewrite Cq, Cl, Cs. reflexivity.
Qed.

Lemma bind_ret {A B} (a : A) (k : A -> Py B) (w : world) :
  bind (ret a) k w = k a w.
Proof. reflexivity. Qed.

(** The text a location is matched by: a string is taken as it is. *)
Lemma loc_text_of_str `{PyRuntime} (s : str) :
  py_str (py_or (PStr s) (PStr [])) = s.
Proof. now destruct s. Qed.

Ltac cell_step :=
  match goal with
  | |- context [bind (ws_cell ?ws ?r ?c ?v) ?k ?w] =>
      rewrite (bind_done (ws_cell ws r c v) k w _ _
                 (ws_cell_done ws r c v w ltac:(lia) ltac:(lia)))
  end; rewrite ?sheet_of_with_sheet, ?with_sheet_twice.

Ltac pair_eqs :=
  repeat match goal with
         | E : (_, _) = (_, _) |- _ => apply pair_equal_spec in E as [? ?]
         end.




(** C7: for a slot number below 1 or above 20 the update returns with the
    warning shown and both sheets exactly as they were: no cell is
    created or written. *)
Theorem drum_update_out_of_range `{PyRuntime} (ws : worksheet) (w : world)
    (row drum_no : Z) (new_qty new_loc : pyval) :
  drum_no < 1 \/ 20 < drum_no ->
  apply_drum_update_to_main ws row drum_no new_qty new_loc w
  = Done tt (World (main_sheet w) (log_sheet w)
               (console w ++ [WarnDrumOutOfRange drum_no])).
Proof.
  intros Hd. unfold apply_drum_update_to_main, get_drum_col_letters.
  destruct (Z.ltb_spec drum_no 1) as [Hlo|Hlo];
    destruct (Z.ltb_spec 20 drum_no) as [Hhi|Hhi]; try reflexivity.
  lia.
Qed.

(** C7 at slot 21. *)
Lemma drum_update_out_of_range_witness :
  (21 < 1 \/ 20 < 21)
  /\ @apply_drum_update_to_main example_runtime WsMain 5 21 (PInt 3)
       (PStr [52; 52769]) empty_world
     = Done tt (World empty_sheet empty_sheet [WarnDrumOutOfRange 21]).
Proof.
  split; [right; lia|].
  apply (@drum_update_out_of_range example_runtime WsMain empty_world 5 21).
  right. lia.
Defined.




(** ** Reading leaves a sheet as it is *)

Lemma same_content_refl (sh : sheet) : same_content sh sh.
Proof. split; [reflexivity|]. intros r c. now split. Qed.

Lemma same_content_trans (a b c : sheet) :
  same_content a b -> same_content b c -> same_content a c.
Proof.
  intros [Ht Hv] [Ht' Hv']. split; [congruence|].
  intros r k. destruct (Hv' r k) as [-> ->]. apply Hv.
Qed.

Lemma unchanged_refl (w : world) : unchanged w w.
Proof. repeat split; apply same_content_refl. Qed.

Lemma unchanged_trans (a b c : world) :
  unchanged a b -> unchanged b c -> unchanged a c.
Proof.
  intros (Hm & Hl & Hc) (Hm' & Hl' & Hc').
  repeat split; try (eapply same_content_trans; eassumption); try apply Hm; congruence.
Qed.

Lemma same_content_touch (sh : sheet) (row col : Z) :
  same_content sh (touch sh row col PNone).
Proof.
  split; [reflexivity|]. intros r c. split.
  - rewrite value_at_touch. now destruct (decide _).
  - apply style_at_touch.
Qed.

Lemma unchanged_with_sheet (ws : worksheet) (sh : sheet) (w : world) :
  same_content (sheet_of ws w) sh -> unchanged w (with_sheet ws sh w).
Proof.
  intros Hs. destruct ws; simpl in *; repeat split;
    try apply Hs; try apply same_content_refl; intros; now split.
Qed.

Lemma unchanged_sheet_of (ws : worksheet) (w w' : world) :
  unchanged w w' -> same_content (sheet_of ws w) (sheet_of ws w').
Proof. intros (Hm & Hl & _). now destruct ws. Qed.


(** ** The row locator *)



Lemma fold_max_ge_1 (l : list Z) : 1 <= foldr Z.max 1 l.
Proof. induction l as [|x l IH]; simpl; lia. Qed.

Lemma fold_max_ge (l : list Z) (x : Z) : In x l -> x <= foldr Z.max 1 l.
Proof.
  induction l as [|y l IH]; simpl; [tauto|].
  intros [->|Hx]; [lia|]. specialize (IH Hx). lia.
Qed.

Lemma fold_max_in (l : list Z) : foldr Z.max 1 l = 1 \/ In (foldr Z.max 1 l) l.
Proof.
  induction l as [|y l IH]; simpl; [now left|].
  destruct (Z.max_spec y (foldr Z.max 1 l)) as [[_ ->]|[_ ->]].
  - destruct IH as [IH|IH]; [now left|right; now right].
  - right. now left.
Qed.

Lemma in_coords (p : Z * Z -> Z) (sh : sheet) (x : Z) :
  In x (map (fun kv => p kv.1) (map_to_list (cells sh)))
  <-> exists k c, cells sh !! k = Some c /\ p k = x.
Proof.
  rewrite in_map_iff. split.
  - intros ([k c] & <- & Hin). exists k, c. split; [|reflexivity].
    apply elem_of_map_to_list. now apply list_elem_of_In.
  - intros (k & c & Hk & <-). exists (k, c). split; [reflexivity|].
    apply list_elem_of_In. now apply elem_of_map_to_list.
Qed.

(** The largest coordinate is at least 1, bounds every cell, and is 1 or
    the coordinate of a cell; it is the only such number. *)
Lemma max_coord_spec (p : Z * Z -> Z) (sh : sheet) (m : Z) :
  m = max_coord p sh
  <-> 1 <= m
      /\ (forall k c, cells sh !! k = Some c -> p k <= m)
      /\ (m = 1 \/ exists k c, cells sh !! k = Some c /\ p k = m).
Proof.
  unfold max_coord.
  set (l := map (fun kv => p kv.1) (map_to_list (cells sh))).
  assert (Hub : forall k c, cells sh !! k = Some c -> p k <= foldr Z.max 1 l).
  { intros k c Hk. apply fold_max_ge. apply in_coords. eauto. }
  split.
  - intros ->. split; [apply fold_max_ge_1|]. split; [exact Hub|].
    destruct (fold_max_in l) as [E|Hin]; [now left|].
    right. now apply in_coords in Hin.
  - intros (H1 & Hall & Hex).
    pose proof (fold_max_ge_1 l) as G1.
    assert (foldr Z.max 1 l <= m).
    { destruct (fold_max_in l) as [E|Hin]; [lia|].
      apply in_coords in Hin as (k & c & Hk & Hp). rewrite <- Hp. eauto. }
    destruct Hex as [->|(k & c & Hk & Hp)]; [lia|].
    specialize (Hub k c Hk). lia.
Qed.

Lemma max_coord_ge_1 (p : Z * Z -> Z) (sh : sheet) : 1 <= max_coord p sh.
Proof. apply fold_max_ge_1. Qed.

Lemma max_coord_ub (p : Z * Z -> Z) (sh : sheet) (k : Z * Z) (c : cell) :
  cells sh !! k = Some c -> p k <= max_coord p sh.
Proof.
  intros Hk. destruct (proj1 (max_coord_spec p sh _) eq_refl) as (_ & Hub & _). eauto.
Qed.

(** Adding or replacing a cell raises the largest coordinate to its own. *)
Lemma max_coord_put (p : Z * Z -> Z) (sh : sheet) (row col : Z) (c : cell) :
  max_coord p (put_cell sh row col c) = Z.max (p (row, col)) (max_coord p sh).
Proof.
  symmetry. apply max_coord_spec.
  destruct (proj1 (max_coord_spec p sh _) eq_refl) as (H1 & Hub & Hex).
  split; [lia|]. split.
  - intros k x. unfold put_cell. simpl. rewrite lookup_insert.
    destruct (decide ((row, col) = k)) as [<-|Hne]; [lia|].
    intros Hk. specialize (Hub k x Hk). lia.
  - destruct (Z.max_spec (p (row, col)) (max_coord p sh)) as [[Hlt ->]|[Hge ->]].
    + destruct Hex as [E|(k & x & Hk & Hp)]; [now left|].
      right. destruct (decide ((row, col) = k)) as [<-|Hne].
      * exists (row, col), c. split; [|exact Hp].
        unfold put_cell. simpl. apply lookup_insert_eq.
      * exists k, x. split; [|exact Hp].
        unfold put_cell. simpl. now rewrite lookup_insert_ne.
    + right. exists (row, col), c. split; [|reflexivity].
      unfold put_cell. simpl. apply lookup_insert_eq.
Qed.

Lemma max_row_ge_1 (sh : sheet) : 1 <= max_row sh.
Proof. apply max_coord_ge_1. Qed.

Lemma max_row_touch (sh : sheet) (row col : Z) (v : pyval) :
  max_row (touch sh row col v) = Z.max row (max_row sh).
Proof. apply (max_coord_put fst). Qed.

Lemma max_column_touch (sh : sheet) (row col : Z) (v : pyval) :
  max_column (touch sh row col v) = Z.max col (max_column sh).
Proof. apply (max_coord_put snd). Qed.

(** Beyond the last row there is no cell: the value read is [None] and the
    style the default. *)
Lemma beyond_max_row (sh : sheet) (r c : Z) :
  max_row sh < r -> value_at sh r c = PNone /\ style_at sh r c = 0.
Proof.
  intros Hr. unfold value_at, style_at.
  destruct (cells sh !! (r, c)) as [x|] eqn:E; [|now split].
  pose proof (max_coord_ub fst sh (r, c) x E) as Hub. simpl in Hub.
  unfold max_row in Hr. lia.
Qed.


(** ** Column letters, decimal rows and ranges *)

Lemma horner_acc (d : Decimal.uint) (acc : positive) :
  fold_left (fun a c => a * 10 + (c - 48)) (uint_digits d) (Z.pos acc)
  = Z.pos (Pos.of_uint_acc d acc).
Proof.
  revert acc. induction d; intros acc; simpl; try reflexivity;
    match goal with
    | |- fold_left _ _ ?z = Z.pos (Pos.of_uint_acc _ ?p) =>
        replace z with (Z.pos p) by lia; apply IHd
    end.
Qed.

Lemma int_of_uint_digits (d : Decimal.uint) :
  int_of_digits (uint_digits d) = Z.of_N (Pos.of_uint d).
Proof.
  unfold int_of_digits. induction d; simpl; try reflexivity; try exact IHd;
    match goal with
    | |- fold_left _ _ ?z = Z.pos (Pos.of_uint_acc _ ?p) =>
        replace z with (Z.pos p) by lia; apply horner_acc
    end.
Qed.

(** Reading the decimal text of a natural number gives the number back. *)
Lemma int_of_digits_str_of_int (n : Z) :
  0 <= n -> int_of_digits (str_of_int n) = n.
Proof.
  intros Hn. unfold str_of_int. destruct n as [|p|p]; [reflexivity| |lia].
  simpl. rewrite int_of_uint_digits, Unsigned.of_to. reflexivity.
Qed.

Lemma uint_digits_are_digits (d : Decimal.uint) :
  forallb is_digit (uint_digits d) = true.
Proof. induction d; simpl; auto. Qed.

Lemma uint_digits_nil (d : Decimal.uint) : uint_digits d = [] -> d = Decimal.Nil.
Proof. destruct d; simpl; congruence. Qed.

(** The decimal text of a natural number: digits, at least one. *)
Lemma str_of_int_digits (n : Z) :
  0 <= n -> forallb is_digit (str_of_int n) = true /\ str_of_int n <> [].
Proof.
  intros Hn. unfold str_of_int. destruct n as [|p|p]; [now split| |lia].
  simpl. split; [apply uint_digits_are_digits|].
  intros E. apply uint_digits_nil in E. now apply Unsigned.to_uint_nonnil in E.
Qed.

Lemma int_of_digits_nonneg (ds : str) :
  forallb is_digit ds = true -> 0 <= int_of_digits ds.
Proof.
  unfold int_of_digits.
  assert (G : forall acc, 0 <= acc -> forallb is_digit ds = true ->
              0 <= fold_left (fun a c => a * 10 + (c - 48)) ds acc).
  { induction ds as [|c ds IH]; intros acc Hacc Hd; simpl in *; [exact Hacc|].
    apply andb_true_iff in Hd as [Hc Hd]. apply IH; [|exact Hd].
    unfold is_digit in Hc. lia. }
  apply G. lia.
Qed.

(** [span] on a run of characters of the class followed by a text that
    does not start with one. *)
Lemma span_app (p : Z -> bool) (l r : str) :
  forallb p l = true ->
  match r with [] => True | c :: _ => p c = false end ->
  span p (l ++ r) = (l, r).
Proof.
  intros Hl Hr. induction l as [|c l IH]; simpl in *.
  - destruct r as [|c r]; [reflexivity|]. simpl. now rewrite Hr.
  - apply andb_true_iff in Hl as [Hc Hl]. rewrite Hc, (IH Hl). reflexivity.
Qed.

Lemma span_all (p : Z -> bool) (s l r : str) :
  span p s = (l, r) -> s = l ++ r /\ forallb p l = true.
Proof.
  revert l r. induction s as [|c s IH]; intros l r; simpl.
  - intros [= <- <-]. now split.
  - destruct (p c) eqn:Hc.
    + destruct (span p s) as [a b]. intros [= <- <-].
      destruct (IH a b eq_refl) as [-> Ha]. simpl. now rewrite Hc.
    + intros [= <- <-]. now split.
Qed.

(** Upper-casing leaves a text of letters [A]-[Z] as it is. *)
Lemma upper_AZ `{PyRuntime} (s : str) :
  forallb Regex.is_AZ s = true -> upper s = s.
Proof.
  induction s as [|c s IH]; simpl; [reflexivity|].
  intros Hs. apply andb_true_iff in Hs as [Hc Hs].
  unfold upper in *. simpl. rewrite (IH Hs).
  unfold upper_char, Regex.is_AZ in *.
  destruct (Z.leb_spec 97 c); destruct (Z.leb_spec c 122);
    destruct (Z.ltb_spec c 128); simpl; try reflexivity; lia.
Qed.

Lemma column_number_snoc (ls : str) (c : Z) :
  column_number (ls ++ [c]) = column_number ls * 26 + (c - 64).
Proof. unfold column_number. now rewrite fold_left_app. Qed.

(** The loop of [get_column_letter] puts in front of [acc] the letters of
    [n]: at most [fuel] letters [A]-[Z] that read back as [n]. *)
Lemma column_letters_acc (fuel : nat) (n : Z) (acc : str) :
  0 <= n <= column_bound fuel ->
  exists ls,
    column_letters fuel n acc = ls ++ acc
    /\ forallb Regex.is_AZ ls = true
    /\ (length ls <= fuel)%nat
    /\ column_number ls = n
    /\ (1 <= n -> ls <> []).
Proof.
  revert n acc. induction fuel as [|fuel IH]; intros n acc Hn.
  - simpl in *. exists [].
    split; [reflexivity|]. split; [reflexivity|]. split; [reflexivity|].
    split; [unfold column_number; simpl; lia|intros; exfalso; lia].
  - cbn [column_letters column_bound] in *.
    destruct (Z.leb_spec n 0) as [H0|Hpos].
    { exists [].
      split; [reflexivity|]. split; [reflexivity|]. split; [simpl; lia|].
      split; [unfold column_number; simpl; lia|intros; exfalso; lia]. }
    pose proof (Z.div_mod n 26 ltac:(lia)) as Hdm.
    pose proof (Z.mod_pos_bound n 26 ltac:(lia)) as Hmod.
    cbv zeta. destruct (Z.eqb_spec (n mod 26) 0) as [Hr|Hr].
    + destruct (IH (n / 26 - 1) (90 :: acc) ltac:(lia))
        as (ls & E & Haz & Hlen & Hnum & _).
      exists (ls ++ [90]). rewrite E, <- app_assoc.
      split; [reflexivity|]. split; [|split; [|split]].
      * rewrite forallb_app, Haz. reflexivity.
      * rewrite length_app. simpl. lia.
      * rewrite column_number_snoc, Hnum. lia.
      * intros _. now destruct ls.
    + destruct (IH (n / 26) ((n mod 26 + 64) :: acc) ltac:(lia))
        as (ls & E & Haz & Hlen & Hnum & _).
      exists (ls ++ [n mod 26 + 64]). rewrite E, <- app_assoc.
      split; [reflexivity|]. split; [|split; [|split]].
      * rewrite forallb_app, Haz. simpl. unfold Regex.is_AZ.
        rewrite andb_true_r. lia.
      * rewrite length_app. simpl. lia.
      * rewrite column_number_snoc, Hnum. lia.
      * intros _. now destruct ls.
Qed.

Lemma column_letters_spec (n : Z) :
  1 <= n <= 18278 ->
  let ls := column_letters 3 n [] in
  forallb Regex.is_AZ ls = true /\ (1 <= length ls <= 3)%nat /\ column_number ls = n.
Proof.
  intros Hn ls.
  destruct (column_letters_acc 3 n []) as (ls' & E & Haz & Hlen & Hnum & Hne).
  { simpl. lia. }
  rewrite app_nil_r in E. subst ls. rewrite E.
  split; [exact Haz|]. split; [|exact Hnum].
  specialize (Hne ltac:(lia)). destruct ls'; [contradiction|simpl in *; lia].
Qed.

Lemma column_index_of_letters `{PyRuntime} (n : Z) :
  1 <= n <= 18278 ->
  column_index_from_string (column_letters 3 n []) = inr n.
Proof.
  intros Hn. destruct (column_letters_spec n Hn) as (Haz & Hlen & Hnum).
  unfold column_index_from_string. rewrite (upper_AZ _ Haz), Haz, Hnum.
  destruct (Z.leb_spec 1 (Z.of_nat (length (column_letters 3 n [])))); [|lia].
  destruct (Z.leb_spec (Z.of_nat (length (column_letters 3 n []))) 3); [|lia].
  reflexivity.
Qed.

(** A column number read from a name is one of the 18278 columns. *)
Lemma column_index_range `{PyRuntime} (s : str) (c : Z) :
  column_index_from_string s = inr c -> 1 <= c <= 18278.
Proof.
  unfold column_index_from_string.
  destruct (forallb Regex.is_AZ (upper s)) eqn:Haz; [|discriminate].
  destruct (Z.leb_spec 1 (Z.of_nat (length (upper s)))); [|discriminate].
  destruct (Z.leb_spec (Z.of_nat (length (upper s))) 3); [|discriminate].
  simpl. intros [= <-].
  destruct (upper s) as [|a [|b [|c [|d u]]]]; simpl in *; try lia;
    unfold Regex.is_AZ in Haz; unfold column_number; simpl; lia.
Qed.

Lemma skip_dollar_other (c : Z) (s : str) :
  c <> 36 -> skip_dollar (c :: s) = c :: s.
Proof. intros Hc. simpl. destruct (Z.eqb_spec c 36); [contradiction|reflexivity]. Qed.

Lemma parse_corner_valid `{PyRuntime} (s rest : str) (c r : Z) :
  parse_corner s = inr (c, r, rest) -> 1 <= c <= 18278 /\ 0 <= r.
Proof.
  unfold parse_corner.
  destruct (span is_letter (skip_dollar s)) as [ls s1].
  destruct (span is_digit (skip_dollar s1)) as [ds s2] eqn:Hd.
  destruct ds as [|d ds]; [discriminate|].
  destruct (column_index_from_string ls) as [e|col] eqn:Hc; [discriminate|].
  intros [= <- <- <-]. split; [now apply column_index_range in Hc|].
  apply span_all in Hd as [_ Hd]. now apply int_of_digits_nonneg.
Qed.

(** A corner printed as column letters and a decimal row is read back. *)
Lemma parse_corner_printed `{PyRuntime} (c r : Z) (rest : str) :
  1 <= c <= 18278 -> 0 <= r ->
  match rest with [] => True | x :: _ => x = 58 end ->
  parse_corner (column_letters 3 c [] ++ str_of_int r ++ rest) = inr (c, r, rest).
Proof.
  intros Hc Hr Hrest.
  destruct (column_letters_spec c Hc) as (Haz & Hlen & _).
  destruct (str_of_int_digits r Hr) as [Hdig Hne].
  pose proof (column_index_of_letters c Hc) as Hcol.
  pose proof (int_of_digits_str_of_int r Hr) as Hint.
  set (L := column_letters 3 c []) in *. set (D := str_of_int r) in *.
  destruct L as [|l0 L']; [simpl in Hlen; lia|].
  destruct D as [|d0 D']; [congruence|].
  simpl in Haz, Hdig.
  apply andb_true_iff in Haz as [Hl0 Haz]. apply andb_true_iff in Hdig as [Hd0 Hdig].
  unfold parse_corner. cbn [app].
  rewrite skip_dollar_other by (unfold Regex.is_AZ in Hl0; lia).
  change (l0 :: L' ++ d0 :: D' ++ rest) with ((l0 :: L') ++ (d0 :: D' ++ rest)).
  rewrite span_app.
  - rewrite skip_dollar_other by (unfold is_digit in Hd0; lia).
    change (d0 :: D' ++ rest) with ((d0 :: D') ++ rest).
    rewrite span_app.
    + rewrite Hcol, Hint. reflexivity.
    + simpl. now rewrite Hd0, Hdig.
    + destruct rest as [|x rest']; [exact I|]. subst x. reflexivity.
  - simpl. apply andb_true_iff. split.
    + unfold Regex.is_AZ, is_letter in *. lia.
    + clear -Haz. induction L' as [|x L' IH]; [reflexivity|]. simpl in *.
      apply andb_true_iff in Haz as [Hx Haz]. rewrite (IH Haz).
      unfold Regex.is_AZ, is_letter in *. rewrite andb_true_r. lia.
  - unfold is_digit, is_letter in *. lia.
Qed.

Lemma range_boundaries_valid `{PyRuntime} (s : str) (c1 r1 c2 r2 : Z) :
  range_boundaries s = inr (c1, r1, c2, r2) ->
  (1 <= c1 <= 18278 /\ 0 <= r1) /\ (1 <= c2 <= 18278 /\ 0 <= r2).
Proof.
  unfold range_boundaries.
  destruct (parse_corner s) as [e|[[a b] rest]] eqn:E1; [discriminate|].
  pose proof (parse_corner_valid _ _ _ _ E1) as V1.
  destruct rest as [|x rest'].
  - intros [= <- <- <- <-]. now split.
  - destruct (x =? 58); [|discriminate].
    destruct (parse_corner rest') as [e|[[a' b'] rest2]] eqn:E2; [discriminate|].
    pose proof (parse_corner_valid _ _ _ _ E2) as V2.
    destruct rest2; [|discriminate]. intros [= <- <- <- <-]. now split.
Qed.

(** The range printed by [extend_tables_for_new_row] is read back as the
    bounds it was printed from. *)
Lemma range_boundaries_printed `{PyRuntime} (c1 r1 c2 r2 : Z) :
  1 <= c1 <= 18278 -> 0 <= r1 -> 1 <= c2 <= 18278 -> 0 <= r2 ->
  range_boundaries (column_letters 3 c1 [] ++ str_of_int r1 ++ lit ":"
                    ++ column_letters 3 c2 [] ++ str_of_int r2)
  = inr (c1, r1, c2, r2).
Proof.
  intros Hc1 Hr1 Hc2 Hr2. unfold range_boundaries.
  rewrite parse_corner_printed by (try assumption; reflexivity).
  change (lit ":" ++ ?x) with (58 :: x). cbn [Z.eqb Pos.eqb].
  pose proof (parse_corner_printed c2 r2 [] Hc2 Hr2 I) as E2.
  rewrite app_nil_r in E2. rewrite E2. reflexivity.
Qed.

(** ** The table range extender *)

(** What the loop body does to a table whose range reads as the bounds
    [(c1, r1, c2, r2)]. *)
Lemma extend_table_spec `{PyRuntime} (t n : Z) (tbl : table) (c1 r1 c2 r2 : Z) :
  range_boundaries (ref tbl) = inr (c1, r1, c2, r2) ->
  exists tbl',
    extend_table t n tbl = inr tbl'
    /\ if decide ((r1 <= t <= r2) /\ r2 < n)
       then displayName tbl' = displayName tbl
            /\ range_boundaries (ref tbl') = inr (c1, r1, c2, n)
       else tbl' = tbl.
Proof.
  intros Hb. destruct (range_boundaries_valid _ _ _ _ _ Hb) as [[Hc1 Hr1] [Hc2 Hr2]].
  unfold extend_table. rewrite Hb.
  destruct (Z.leb_spec r1 t); destruct (Z.leb_spec t r2); simpl;
    try (exists tbl; split; [reflexivity|]; destruct (decide _); [lia|reflexivity]).
  destruct (Z.ltb_spec r2 n);
    [|exists tbl; split; [reflexivity|]; destruct (decide _); [lia|reflexivity]].
  unfold get_column_letter.
  destruct (Z.leb_spec 1 c1); [|lia]. destruct (Z.leb_spec c1 18278); [|lia].
  destruct (Z.leb_spec 1 c2); [|lia]. destruct (Z.leb_spec c2 18278); [|lia].
  simpl. eexists. split; [reflexivity|].
  destruct (decide _); [|lia]. simpl. split; [reflexivity|].
  apply range_boundaries_printed; lia.
Qed.

Lemma extend_table_decodable `{PyRuntime} (t n : Z) (tbl : table) :
  decodable tbl -> extend_table t n tbl = inr (extended t n tbl).
Proof.
  intros [[[[c1 r1] c2] r2] Hb].
  destruct (extend_table_spec t n tbl _ _ _ _ Hb) as (tbl' & E & _).
  unfold extended. now rewrite E.
Qed.

Lemma extend_at_done `{PyRuntime} (ws : worksheet) (t n : Z)
    (tbl : table) (todo done : list table) (w : world) :
  tables (sheet_of ws w) = done ++ tbl :: todo ->
  decodable tbl ->
  extend_at ws t n (length done) w
  = Done tt (with_sheet ws (Sheet (cells (sheet_of ws w))
                              ((done ++ [extended t n tbl]) ++ todo)) w).
Proof.
  intros Htb Hd. unfold extend_at, bind, get_tables, set_tables.
  rewrite Htb, lookup_app_r by lia. rewrite Nat.sub_diag. cbn [lookup list_lookup].
  rewrite (extend_table_decodable t n tbl Hd). cbn [run ret].
  rewrite insert_app_r_alt by lia. rewrite Nat.sub_diag.
  cbn [insert list_insert]. now rewrite <- app_assoc.
Qed.

(** The loop over the tables from index [length done] on: the tables
    already visited stay, the others are replaced one by one. *)
Lemma extend_tables_loop `{PyRuntime} (ws : worksheet) (t n : Z)
    (todo done : list table) (w : world) :
  tables (sheet_of ws w) = done ++ todo ->
  Forall decodable todo ->
  for_each (seq (length done) (length todo)) (extend_at ws t n) w
  = Done tt (with_sheet ws (Sheet (cells (sheet_of ws w))
                              (done ++ map (extended t n) todo)) w).
Proof.
  revert done w. induction todo as [|tbl todo IH]; intros done w Htb Hok.
  - simpl. rewrite app_nil_r in *. rewrite <- Htb.
    destruct ws, w as [[? ?] [? ?] ?]; reflexivity.
  - apply Forall_cons in Hok as [Hd Hok].
    cbn [length seq for_each].
    rewrite (bind_done _ _ _ _ _ (extend_at_done ws t n tbl todo done w Htb Hd)).
    replace (S (length done)) with (length (done ++ [extended t n tbl]))
      by (rewrite length_app; simpl; lia).
    rewrite IH.
    + rewrite sheet_of_with_sheet, with_sheet_twice. simpl.
      now rewrite <- app_assoc.
    + now rewrite sheet_of_with_sheet.
    + exact Hok.
Qed.

(** C5: on a sheet whose tables have ranges that read as cell rectangles,
    the extender returns and changes nothing but table ranges. A table
    with bounds [(c1, r1, c2, r2)] whose rows contain the template row
    ([r1 <= t <= r2]) and end before the new row ([r2 < n]) keeps its
    name and gets a range that reads as [(c1, r1, c2, n)]; every other
    table, in particular every table not containing the template row, is
    left as it is. *)
Theorem extend_tables_max_row `{PyRuntime} (ws : worksheet) (w : world) (t n : Z) :
  Forall decodable (tables (sheet_of ws w)) ->
  exists tbls',
    extend_tables_for_new_row ws t n w
    = Done tt (with_sheet ws (Sheet (cells (sheet_of ws w)) tbls') w)
    /\ length tbls' = length (tables (sheet_of ws w))
    /\ forall i tbl c1 r1 c2 r2,
         tables (sheet_of ws w) !! i = Some tbl ->
         range_boundaries (ref tbl) = inr (c1, r1, c2, r2) ->
         exists tbl',
           tbls' !! i = Some tbl'
           /\ if decide ((r1 <= t <= r2) /\ r2 < n)
              then displayName tbl' = displayName tbl
                   /\ range_boundaries (ref tbl') = inr (c1, r1, c2, n)
              else tbl' = tbl.
Proof.
  intros Hok. exists (map (extended t n) (tables (sheet_of ws w))).
  split; [|split].
  - apply (extend_tables_loop ws t n (tables (sheet_of ws w)) [] w eq_refl Hok).
  - apply length_map.
  - intros i tbl c1 r1 c2 r2 Hi Hb. exists (extended t n tbl). split.
    + rewrite list_lookup_fmap, Hi. reflexivity.
    + destruct (extend_table_spec t n tbl _ _ _ _ Hb) as (tbl' & E & Hspec).
      unfold extended. now rewrite E.
Qed.

(** C5 on a sheet with the table [F3:U418] and a table ending at row 300,
    for template row 418 and new row 419: the range of the first then
    reads as columns F to U, rows 3 to 419; the second stays. *)
Lemma extend_tables_max_row_witness :
  let sh := Sheet ∅ [Table (lit "T1") (lit "F3:U418");
                     Table (lit "T2") (lit "A3:C300")] in
  let w := World sh empty_sheet [] in
  Forall (@decodable example_runtime) (tables sh)
  /\ exists t1,
       @extend_tables_for_new_row example_runtime WsMain 418 419 w
       = Done tt (World (Sheet ∅ [t1; Table (lit "T2") (lit "A3:C300")])
                    empty_sheet [])
       /\ displayName t1 = lit "T1"
       /\ @range_boundaries example_runtime (ref t1) = inr (6, 3, 21, 419).
Proof.
  intros sh w.
  assert (Hok : Forall (@decodable example_runtime) (tables sh)).
  { repeat constructor; eexists; reflexivity. }
  split; [exact Hok|].
  destruct (@extend_tables_max_row example_runtime WsMain w 418 419 Hok)
    as (tbls' & E & Hlen & Hat).
  destruct tbls' as [|t1 [|t2 [|t3 tbls']]]; try discriminate Hlen.
  destruct (Hat 0%nat _ 6 3 21 418 eq_refl eq_refl) as (t1' & [= <-] & H1).
  destruct (Hat 1%nat _ 1 3 3 300 eq_refl eq_refl) as (t2' & [= <-] & H2).
  destruct (decide _) as [_|Hn] in H1; [|exfalso; apply Hn; lia].
  destruct (decide _) as [Hy|_] in H2; [exfalso; lia|].
  exists t1. rewrite E, H2. split; [reflexivity|]. exact H1.
Defined.

(** ** Loops that rewrite one sheet *)

Lemma with_sheet_same (ws : worksheet) (w : world) :
  with_sheet ws (sheet_of ws w) w = w.
Proof. destruct ws, w; reflexivity. Qed.

(** A loop whose body replaces the sheet by a function of it replaces the
    sheet by the fold of that function. *)
Lemma for_each_sheet {A} (ws : worksheet) (P : A -> Prop)
    (f : sheet -> A -> sheet) (body : A -> Py unit) (xs : list A) (w : world) :
  (forall x w, P x -> body x w = Done tt (with_sheet ws (f (sheet_of ws w) x) w)) ->
  Forall P xs ->
  for_each xs body w = Done tt (with_sheet ws (fold_left f xs (sheet_of ws w)) w).
Proof.
  intros Hbody. revert w. induction xs as [|x xs IH]; intros w Hxs.
  - simpl. now rewrite with_sheet_same.
  - apply Forall_cons in Hxs as [Hx Hxs]. cbn [for_each fold_left].
    rewrite (bind_done _ _ _ _ _ (Hbody x w Hx)), (IH _ Hxs).
    now rewrite sheet_of_with_sheet, with_sheet_twice.
Qed.

Lemma fold_left_pointwise {A B} (f g : A -> B -> A) (l : list B) (a : A) :
  (forall a b, f a b = g a b) -> fold_left f l a = fold_left g l a.
Proof.
  intros Hfg. revert a. induction l as [|b l IH]; intros a; simpl; [reflexivity|].
  now rewrite Hfg, IH.
Qed.

Lemma range_bounds (a b x : Z) : In x (range a b) <-> a <= x < b.
Proof.
  unfold range. rewrite <- list_elem_of_In, elem_of_seqZ. lia.
Qed.

Lemma range_Forall (a b : Z) (P : Z -> Prop) :
  (forall x, a <= x < b -> P x) -> Forall P (range a b).
Proof.
  intros HP. apply Forall_forall. intros x Hx. apply HP.
  apply range_bounds. now apply list_elem_of_In.
Qed.

(** ** The audit log appender *)

Lemma kept_refl (ws : worksheet) (w : world) : kept ws w w.
Proof. split; [apply unchanged_refl|now split]. Qed.

Lemma kept_trans (ws : worksheet) (a b c : world) :
  kept ws a b -> kept ws b c -> kept ws a c.
Proof.
  intros (U & R & C) (U' & R' & C').
  split; [eapply unchanged_trans; eassumption|]. split; congruence.
Qed.

(** Reading a cell within the extent of the sheet. *)
Lemma ws_cell_read_within (ws : worksheet) (row col : Z) (w : world) :
  1 <= row <= max_row (sheet_of ws w) ->
  1 <= col <= max_column (sheet_of ws w) ->
  exists w',
    ws_cell ws row col PNone w = Done (cell_of (sheet_of ws w) row col) w'
    /\ kept ws w w'.
Proof.
  intros Hr Hc. eexists. split; [apply ws_cell_done; lia|].
  split; [apply unchanged_with_sheet, same_content_touch|].
  rewrite sheet_of_with_sheet, max_row_touch, max_column_touch. lia.
Qed.

Lemma header_text_same `{PyRuntime} (sh sh' : sheet) (c : Z) :
  same_content sh sh' -> header_text sh' c = header_text sh c.
Proof. intros [_ Hv]. unfold header_text. now destruct (Hv 1 c) as [-> _]. Qed.

Lemma header_step_done `{PyRuntime} (ws : worksheet) (acc : gmap str Z)
    (c : Z) (w : world) :
  1 <= c <= max_column (sheet_of ws w) ->
  exists w',
    header_step ws acc c w = Done (add_header (sheet_of ws w) acc c) w'
    /\ kept ws w w'.
Proof.
  intros Hc. pose proof (max_row_ge_1 (sheet_of ws w)) as Hm.
  destruct (ws_cell_read_within ws 1 c w) as (w1 & E1 & K1); [lia|lia|].
  exists w1. split; [|exact K1].
  unfold header_step, bind. rewrite E1.
  unfold add_header, header_text. rewrite <- value_at_cell_of.
  destruct (value (cell_of (sheet_of ws w) 1 c)); reflexivity.
Qed.

(** The loop of [read_headers] folds [add_header] over the columns and
    leaves the sheets as they were. *)
Lemma read_headers_loop `{PyRuntime} (ws : worksheet) (cols : list Z)
    (acc : gmap str Z) (w : world) :
  Forall (fun c => 1 <= c <= max_column (sheet_of ws w)) cols ->
  exists w',
    for_fold cols acc (header_step ws) w
    = Done (fold_left (add_header (sheet_of ws w)) cols acc) w'
    /\ kept ws w w'.
Proof.
  revert acc w. induction cols as [|c cols IH]; intros acc w Hcols.
  - exists w. split; [reflexivity|apply kept_refl].
  - apply Forall_cons in Hcols as [Hc Hcols]. cbn [for_fold fold_left].
    destruct (header_step_done ws acc c w Hc) as (w1 & E1 & K1).
    rewrite (bind_done _ _ _ _ _ E1).
    pose proof K1 as (U1 & R1 & C1).
    destruct (IH (add_header (sheet_of ws w) acc c) w1) as (w2 & E2 & K2).
    { rewrite C1. exact Hcols. }
    exists w2. split.
    + rewrite E2. f_equal.
      apply fold_left_pointwise. intros hm k. unfold add_header.
      now rewrite (header_text_same _ _ k (unchanged_sheet_of ws _ _ U1)).
    + eapply kept_trans; eassumption.
Qed.

(** The header map read from the sheet is, name by name, the last column
    with that header text. *)
Lemma headers_fold_last `{PyRuntime} (sh : sheet) (cols : list Z) (hdr : str) :
  fold_left (add_header sh) cols ∅ !! hdr
  = last (filter (fun c => header_text sh c = Some hdr) cols).
Proof.
  induction cols as [|c cols IH] using rev_ind; [reflexivity|].
  rewrite fold_left_app, filter_app. simpl.
  unfold add_header at 1. rewrite filter_cons, filter_nil.
  destruct (header_text sh c) as [t|] eqn:Ht.
  - destruct (decide (Some t = Some hdr)) as [[= ->]|Hne].
    + rewrite lookup_insert_eq, last_snoc. reflexivity.
    + rewrite lookup_insert_ne by congruence. now rewrite app_nil_r.
  - destruct (decide (None = Some hdr)); [discriminate|]. now rewrite app_nil_r.
Qed.

Lemma read_headers_spec `{PyRuntime} (ws : worksheet) (w : world) :
  exists hm w',
    read_headers ws (max_column (sheet_of ws w)) w = Done hm w'
    /\ kept ws w w'
    /\ forall hdr, hm !! hdr = header_column (sheet_of ws w) hdr.
Proof.
  destruct (read_headers_loop ws (range 1 (max_column (sheet_of ws w) + 1)) ∅ w)
    as (w' & E & K).
  { apply Forall_forall. intros c Hc.
    apply list_elem_of_In, range_bounds in Hc. lia. }
  eexists _, w'. split; [exact E|]. split; [exact K|].
  intros hdr. apply headers_fold_last.
Qed.

(** A column the header map names lies on the sheet and has the name as
    its header text. *)
Lemma header_column_sound `{PyRuntime} (sh : sheet) (hdr : str) (c : Z) :
  header_column sh hdr = Some c ->
  1 <= c <= max_column sh /\ header_text sh c = Some hdr.
Proof.
  unfold header_column. intros Hl.
  assert (Hin : c ∈ filter (fun c => header_text sh c = Some hdr)
                       (range 1 (max_column sh + 1))).
  { apply last_Some in Hl as [l' ->]. apply elem_of_app. right. apply list_elem_of_singleton. reflexivity. }
  apply list_elem_of_filter in Hin as [Ht Hin].
  apply list_elem_of_In, range_bounds in Hin. split; [lia|exact Ht].
Qed.

Lemma copy_row_style_done (ws : worksheet) (src dst max_col : Z) (w : world) :
  1 <= src -> 1 <= dst ->
  copy_row_style ws src dst max_col w
  = Done tt (with_sheet ws (fold_left (copy_style_at src dst)
                              (range 1 (max_col + 1)) (sheet_of ws w)) w).
Proof.
  intros Hs Hd. unfold copy_row_style.
  apply (for_each_sheet ws (fun c => 1 <= c)).
  - intros c w0 Hc. do 2 cell_step.
    unfold set_cell. now rewrite sheet_of_with_sheet, with_sheet_twice.
  - apply range_Forall. intros x Hx. lia.
Qed.

Lemma copy_style_at_value (src dst : Z) (sh : sheet) (c r k : Z) :
  value_at (copy_style_at src dst sh c) r k = value_at sh r k.
Proof.
  unfold copy_style_at. rewrite value_at_put. cbn [value].
  rewrite value_at_cell_of, !value_at_touch.
  repeat case_decide; pair_eqs; subst; reflexivity.
Qed.

Lemma copy_style_at_style (src dst : Z) (sh : sheet) (c r k : Z) :
  style_at (copy_style_at src dst sh c) r k
  = if decide ((dst, c) = (r, k)) then style_at sh src c else style_at sh r k.
Proof.
  unfold copy_style_at. rewrite style_at_put. cbn [cell_style].
  rewrite style_at_cell_of, !style_at_touch. reflexivity.
Qed.

Lemma copy_style_at_max_row (src dst : Z) (sh : sheet) (c : Z) :
  max_row (copy_style_at src dst sh c) = Z.max dst (Z.max src (max_row sh)).
Proof.
  unfold copy_style_at. unfold max_row at 1. rewrite (max_coord_put fst).
  fold (max_row (touch (touch sh src c PNone) dst c PNone)).
  rewrite !max_row_touch. cbn [fst]. lia.
Qed.

Lemma copy_style_at_max_column (src dst : Z) (sh : sheet) (c : Z) :
  max_column (copy_style_at src dst sh c) = Z.max c (max_column sh).
Proof.
  unfold copy_style_at. unfold max_column at 1. rewrite (max_coord_put snd).
  fold (max_column (touch (touch sh src c PNone) dst c PNone)).
  rewrite !max_column_touch. cbn [snd]. lia.
Qed.

(** The loop of [copy_row_style] over the columns [cols], from a row to
    another row: no value and no table changes, and a style changes only
    in the destination row, where each column of [cols] takes the style
    of the source row. *)
Lemma copy_styles_spec (src dst : Z) (cols : list Z) (sh : sheet) :
  src <> dst ->
  let sh' := fold_left (copy_style_at src dst) cols sh in
  tables sh' = tables sh
  /\ (forall r k, value_at sh' r k = value_at sh r k)
  /\ (forall r k, style_at sh' r k
                  = if decide (r = dst /\ k ∈ cols) then style_at sh src k
                    else style_at sh r k)
  /\ (cols <> [] -> max_row sh' = Z.max dst (Z.max src (max_row sh)))
  /\ (Forall (fun c => c <= max_column sh) cols -> max_column sh' = max_column sh).
Proof.
  intros Hne. revert sh. induction cols as [|c cols IH]; intros sh; cbn zeta.
  - simpl. repeat split; try congruence.
    intros r k. destruct (decide _) as [[_ Hin]|]; [|reflexivity].
    now apply elem_of_nil in Hin.
  - cbn [fold_left].
    destruct (IH (copy_style_at src dst sh c)) as (Ht & Hv & Hs & Hr & Hc).
    split; [exact Ht|]. split; [|split; [|split]].
    + intros r k. now rewrite Hv, copy_style_at_value.
    + intros r k. rewrite Hs, !copy_style_at_style.
      destruct (decide (r = dst /\ k ∈ cols)) as [[-> Hin]|Hn].
      * destruct (decide ((dst, c) = (src, k))) as [[= ? ?]|_]; [congruence|].
        destruct (decide (dst = dst /\ k ∈ c :: cols)) as [_|Hn]; [reflexivity|].
        exfalso. apply Hn. split; [reflexivity|]. apply elem_of_cons. now right.
      * destruct (decide ((dst, c) = (r, k))) as [[= <- <-]|Hd].
        -- destruct (decide (dst = dst /\ c ∈ c :: cols)) as [_|Hn']; [reflexivity|].
           exfalso. apply Hn'. split; [reflexivity|]. apply elem_of_cons. now left.
        -- destruct (decide (r = dst /\ k ∈ c :: cols)) as [[-> Hin]|_]; [|reflexivity].
           apply elem_of_cons in Hin as [->|Hin]; [congruence|tauto].
    + intros _. destruct cols as [|c' cols'].
      * simpl. apply copy_style_at_max_row.
      * rewrite Hr by discriminate. rewrite copy_style_at_max_row. lia.
    + intros Hall. apply Forall_cons in Hall as [Hc0 Hall].
      rewrite Hc; rewrite copy_style_at_max_column; [lia|].
      eapply Forall_impl; [exact Hall|]. simpl. intros; lia.
Qed.

Lemma write_values_done (ws : worksheet) (new_r : Z) (hm : gmap str Z)
    (entries : list (str * pyval)) (w : world) :
  1 <= new_r ->
  (forall hdr c, hm !! hdr = Some c -> 1 <= c) ->
  for_each entries (fun '(hdr, val) =>
    match hm !! hdr with
    | Some col => ws_cell ws new_r col val ;;; ret tt
    | None => ret tt
    end) w
  = Done tt (with_sheet ws (fold_left (write_value new_r hm) entries
                              (sheet_of ws w)) w).
Proof.
  intros Hr Hhm. apply (for_each_sheet ws (fun _ => True)).
  - intros [hdr val] w0 _. unfold write_value. cbn [fst snd].
    destruct (hm !! hdr) as [col|] eqn:E.
    + specialize (Hhm hdr col E). cell_step. reflexivity.
    + now rewrite with_sheet_same.
  - apply Forall_forall. intros; exact I.
Qed.

Lemma write_values_spec (new_r : Z) (hm : gmap str Z)
    (entries : list (str * pyval)) (sh : sheet) :
  let sh' := fold_left (write_value new_r hm) entries sh in
  tables sh' = tables sh
  /\ (forall r k, style_at sh' r k = style_at sh r k)
  /\ (forall r k, value_at sh' r k
                  = fold_left (write_step new_r hm r k) entries (value_at sh r k))
  /\ max_row sh <= max_row sh' <= Z.max new_r (max_row sh).
Proof.
  revert sh. induction entries as [|e entries IH]; intros sh; cbn zeta.
  - simpl. repeat split; lia.
  - cbn [fold_left].
    destruct (IH (write_value new_r hm sh e)) as (Ht & Hs & Hv & Hm).
    assert (Hstep : tables (write_value new_r hm sh e) = tables sh
              /\ (forall r k, style_at (write_value new_r hm sh e) r k = style_at sh r k)
              /\ (forall r k, value_at (write_value new_r hm sh e) r k
                              = write_step new_r hm r k (value_at sh r k) e)
              /\ max_row sh <= max_row (write_value new_r hm sh e)
                 <= Z.max new_r (max_row sh)).
    { unfold write_value, write_step. destruct e as [h v]. cbn [fst snd].
      destruct (hm !! h) as [col|].
      - split; [reflexivity|]. split; [intros; apply style_at_touch|].
        split; [|rewrite max_row_touch; lia].
        intros r k. rewrite value_at_touch.
        destruct (decide ((new_r, col) = (r, k))) as [[= <- <-]|Hne].
        + destruct (decide _) as [_|Hn]; [now destruct v|]. exfalso. now apply Hn.
        + destruct (decide _) as [[-> [= ->]]|_]; [congruence|reflexivity].
      - split; [reflexivity|]. split; [reflexivity|]. split; [|lia].
        intros r k. destruct (decide _) as [[_ [=]]|_]. reflexivity. }
    destruct Hstep as (Ht1 & Hs1 & Hv1 & Hm1).
    split; [congruence|]. split; [|split].
    + intros r k. now rewrite Hs, Hs1.
    + intros r k. now rewrite Hv, Hv1.
    + lia.
Qed.

(** When every entry that lands in column [k] carries the value [val],
    the value read there is [val] if an entry lands there (or stays, for
    [None]), and stays if none does. *)
Lemma write_steps_unique (new_r : Z) (hm : gmap str Z) (k : Z) (val : pyval)
    (entries : list (str * pyval)) (acc : pyval) :
  (forall e, e ∈ entries -> hm !! e.1 = Some k -> e.2 = val) ->
  fold_left (write_step new_r hm new_r k) entries acc
  = if decide (Exists (fun e => hm !! e.1 = Some k) entries)
    then match val with PNone => acc | v => v end
    else acc.
Proof.
  revert acc. induction entries as [|e entries IH]; intros acc Hall.
  - cbn [fold_left]. case_decide as Hex; [|reflexivity]. now apply Exists_nil in Hex.
  - cbn [fold_left].
    rewrite IH by (intros e' He'; apply Hall; apply elem_of_cons; now right).
    unfold write_step.
    destruct (decide (new_r = new_r /\ hm !! e.1 = Some k)) as [[_ He]|Hn].
    + rewrite (Hall e (list_elem_of_here _ _) He).
      rewrite (decide_True (P := Exists _ (e :: entries))) by now left.
      case_decide; destruct val; reflexivity.
    + case_decide as Hex.
      * rewrite (decide_True (P := Exists _ (e :: entries))) by now right.
        reflexivity.
      * rewrite (decide_False (P := Exists _ (e :: entries))); [reflexivity|].
        intros Hex'. apply Exists_cons in Hex' as [He|Hex']; [|contradiction].
        apply Hn. now split.
Qed.

Lemma write_steps_other_row (new_r : Z) (hm : gmap str Z) (r k : Z)
    (entries : list (str * pyval)) (acc : pyval) :
  r <> new_r -> fold_left (write_step new_r hm r k) entries acc = acc.
Proof.
  intros Hr. revert acc. induction entries as [|e entries IH]; intros acc; [reflexivity|].
  cbn [fold_left]. rewrite IH. unfold write_step.
  destruct (decide _) as [[? _]|_]; [contradiction|reflexivity].
Qed.

(** The names of [value_map] are pairwise different: a name has one value. *)
Lemma value_map_functional (log_row : gmap str pyval) (hdr : str) (v1 v2 : pyval) :
  (hdr, v1) ∈ value_map log_row -> (hdr, v2) ∈ value_map log_row -> v1 = v2.
Proof.
  intros H1 H2.
  assert (Hnd : NoDup (value_map log_row).*1).
  { apply (bool_decide_unpack _). vm_compute. exact I. }
  apply (elem_of_list_to_map_1 (M := gmap str) _ _ _ Hnd) in H1, H2.
  congruence.
Qed.


(** ** The replay orchestrator *)

Lemma reads_refl (ws : worksheet) (w : world) : reads ws w w.
Proof. split; [apply same_content_refl|]. repeat split. Qed.

Lemma reads_trans (ws : worksheet) (a b c : world) :
  reads ws a b -> reads ws b c -> reads ws a c.
Proof.
  intros (S & R & O & C) (S' & R' & O' & C').
  split; [eapply same_content_trans; eassumption|].
  split; [congruence|]. split; [|congruence].
  intros ws' Hne. rewrite O', O by exact Hne. reflexivity.
Qed.

Lemma ws_cell_reads (ws : worksheet) (row col : Z) (w : world) :
  1 <= row <= max_row (sheet_of ws w) -> 1 <= col ->
  exists w',
    ws_cell ws row col PNone w = Done (cell_of (sheet_of ws w) row col) w'
    /\ reads ws w w'.
Proof.
  intros Hr Hc. eexists. split; [apply ws_cell_done; lia|].
  split; [rewrite sheet_of_with_sheet; apply same_content_touch|].
  split; [rewrite sheet_of_with_sheet, max_row_touch; lia|].
  split; [|apply console_with_sheet].
  intros ws' Hne. apply sheet_of_with_other. congruence.
Qed.



Lemma time_at_same (sh sh' : sheet) (r : Z) :
  same_content sh sh' -> time_at sh' r = time_at sh r.
Proof. intros [_ Hv]. unfold time_at. now destruct (Hv r 1) as [-> _]. Qed.

Lemma log_time_step_done (ws : worksheet) (acc : list datetime) (r : Z)
    (w : world) :
  1 <= r <= max_row (sheet_of ws w) ->
  exists w',
    log_time_step ws acc r w
    = Done (acc ++ option_list (time_at (sheet_of ws w) r)) w'
    /\ reads ws w w'.
Proof.
  intros Hr. destruct (ws_cell_reads ws r 1 w Hr ltac:(lia)) as (w1 & E1 & R1).
  exists w1. split; [|exact R1].
  unfold log_time_step, bind. rewrite E1.
  unfold time_at. rewrite <- value_at_cell_of.
  destruct (value (cell_of (sheet_of ws w) r 1)); simpl;
    rewrite ?app_nil_r; reflexivity.
Qed.

Lemma omap_cons_list {A B} (f : A -> option B) (x : A) (l : list A) :
  omap f (x :: l) = option_list (f x) ++ omap f l.
Proof. simpl. now destruct (f x). Qed.

Lemma omap_same_times (sh sh' : sheet) (rows : list Z) :
  same_content sh sh' -> omap (time_at sh') rows = omap (time_at sh) rows.
Proof.
  intros Hs. induction rows as [|r rows IH]; [reflexivity|].
  now rewrite !omap_cons_list, IH, (time_at_same _ _ r Hs).
Qed.

Lemma read_log_times_loop (ws : worksheet) (rows : list Z) (acc : list datetime)
    (w : world) :
  Forall (fun r => 1 <= r <= max_row (sheet_of ws w)) rows ->
  exists w',
    for_fold rows acc (log_time_step ws) w
    = Done (acc ++ omap (time_at (sheet_of ws w)) rows) w'
    /\ reads ws w w'.
Proof.
  revert acc w. induction rows as [|r rows IH]; intros acc w Hrows.
  - exists w. simpl. rewrite app_nil_r. split; [reflexivity|apply reads_refl].
  - apply Forall_cons in Hrows as [Hr Hrows]. cbn [for_fold].
    destruct (log_time_step_done ws acc r w Hr) as (w1 & E1 & R1).
    rewrite (bind_done _ _ _ _ _ E1).
    pose proof R1 as (S1 & M1 & _).
    destruct (IH (acc ++ option_list (time_at (sheet_of ws w) r)) w1)
      as (w2 & E2 & R2); [rewrite M1; exact Hrows|].
    exists w2. split; [|eapply reads_trans; eassumption].
    rewrite E2, (omap_same_times _ _ rows S1), omap_cons_list, app_assoc.
    reflexivity.
Qed.

Lemma read_log_times_reads (ws : worksheet) (w : world) :
  exists w',
    read_log_times ws w = Done (log_times (sheet_of ws w)) w' /\ reads ws w w'.
Proof.
  unfold read_log_times, bind, get_max_row.
  apply (read_log_times_loop ws _ [] w).
  apply range_Forall. intros r Hr. lia.
Qed.




Lemma time_le_total : Total time_le.
Proof.
  intros [[x|] ?] [[y|] ?]; unfold time_le; simpl; try tauto.
  destruct (N.le_ge_cases x y); [left|right]; lia.
Qed.

Lemma time_le_trans : Transitive time_le.
Proof.
  intros [[x|] ?] [[y|] ?] [[z|] ?]; unfold time_le; simpl; try tauto. lia.
Qed.

(** The records kept are those after the watermark, each once, in
    ascending order of time. *)
Lemma new_logs_spec (last_time : datetime) (rows : list timed_row) :
  new_logs last_time rows ≡ₚ filter (fun r => is_after last_time r) rows
  /\ (forall r, r ∈ new_logs last_time rows ->
        r ∈ rows /\ exists t, r.1 = Some t /\ (last_time < t)%N)
  /\ StronglySorted time_le (new_logs last_time rows).
Proof.
  unfold new_logs. split; [apply merge_sort_Permutation|]. split.
  - intros r Hr. rewrite merge_sort_Permutation in Hr.
    apply list_elem_of_filter in Hr as [Ha Hr]. split; [exact Hr|].
    destruct r as [[t|] row]; unfold is_after in Ha; simpl in Ha; [|contradiction].
    exists t. split; [reflexivity|]. apply Is_true_true, N.ltb_lt in Ha. exact Ha.
  - apply StronglySorted_merge_sort; [exact time_le_trans|exact time_le_total].
Qed.

Lemma replay_step_count `{PyRuntime} (ws_main ws_log : worksheet)
    (meta_map : gmap (str * str) (gmap str pyval)) (st st' : option Z * Z)
    (row : timed_row) (w w' : world) :
  replay_step ws_main ws_log meta_map st row w = Done st' w' -> st'.2 = st.2 + 1.
Proof.
  unfold replay_step, bind.
  destruct (replay_row ws_main ws_log meta_map st.1 row.2 w); [|discriminate].
  now intros [= <- _].
Qed.

(** A run of the replay loop that returns has applied every record. *)
Lemma replay_count `{PyRuntime} (ws_main ws_log : worksheet)
    (meta_map : gmap (str * str) (gmap str pyval)) (template_row : option Z)
    (logs : list timed_row) (w w' : world) (n : Z) :
  replay ws_main ws_log meta_map template_row logs w = Done n w' ->
  n = Z.of_nat (length logs).
Proof.
  unfold replay.
  assert (G : forall st st' w,
            for_fold logs st (replay_step ws_main ws_log meta_map) w = Done st' w' ->
            st'.2 = st.2 + Z.of_nat (length logs)).
  { induction logs as [|row logs IH]; intros st st' w0.
    - simpl. intros [= <- _]. lia.
    - cbn [for_fold]. unfold bind at 1.
      destruct (replay_step ws_main ws_log meta_map st row w0) as [st1 w1|] eqn:E1;
        [|discriminate].
      intros E2. apply IH in E2. apply replay_step_count in E1.
      rewrite E2, E1. simpl length. lia. }
  unfold bind.
  destruct (for_fold logs (template_row, 0) _ w) as [st w1|] eqn:E; [|discriminate].
  intros [= <- <-]. apply G in E. simpl in E. lia.
Qed.



(** The end-to-end scenario of the specification: the record at time 99
    is dropped and the record at time 101 applied; the count is 1, drum 1
    of the lot holds quantity 5.0 at "4F" with stock flag 1, and the log
    sheet gained row 3 with the time, the item code and the quantity of
    the record. *)
Example replay_end_to_end :
  exists out,
    @process_bulk_log_streamlit example_runtime ∅ example_wb example_frame
    = Returned out 1 []
    /\ exists m l,
         out !! sheet_main = Some m /\ out !! sheet_log = Some l
         /\ value_at m 3 24 = PFloat (float_of_int 5)
         /\ value_at m 3 25 = PStr (lit "4F")
         /\ value_at m 3 26 = PInt 1
         /\ max_row l = 3
         /\ value_at l 3 1 = PDatetime 101%N
         /\ value_at l 3 3 = PStr (lit "P1")
         /\ value_at l 3 7 = PInt 5.
Proof.
  destruct (@process_bulk_log_streamlit example_runtime ∅ example_wb example_frame)
    as [out n shown|e shown] eqn:E; vm_compute in E; [|discriminate E].
  injection E as <- <- <-.
  eexists. split; [reflexivity|].
  eexists _, _. split; [reflexivity|]. split; [reflexivity|].
  repeat split; vm_compute; reflexivity.
Qed.


(** The locator on a sheet with ("P1", "L1") in row 5 and ("P1", "L2") in
    row 9: ("P1", "L2") is found in row 9, ("P1", "L3") is not found. *)
Example find_main_row_example :
  let sh := touch (touch (touch (touch empty_sheet 5 2 (PStr (lit "P1")))
                            5 4 (PStr (lit "L1")))
                     9 2 (PStr (lit "P1")))
              9 4 (PStr (lit " L2 ")) in
  let w := World sh empty_sheet [] in
  (exists w', @find_main_row example_runtime WsMain (PStr (lit "P1"))
                (PStr (lit "L2")) w = Done 9 w')
  /\ (exists w', @find_main_row example_runtime WsMain (PStr (lit "P1"))
                   (PStr (lit "L3")) w = Done 0 w').
Proof.
  intros sh w. split.
  - destruct (@find_main_row example_runtime WsMain (PStr (lit "P1"))
                (PStr (lit "L2")) w) as [r w'|e w'] eqn:E;
      vm_compute in E; [|discriminate E].
    injection E as <- <-. eexists. reflexivity.
  - destruct (@find_main_row example_runtime WsMain (PStr (lit "P1"))
                (PStr (lit "L3")) w) as [r w'|e w'] eqn:E;
      vm_compute in E; [|discriminate E].
    injection E as <- <-. eexists. reflexivity.
Qed.

(** The extender on the table [F3:U418] for template row 418 and new row
    419: the range becomes [F3:U419]; a table ending at row 300 stays. *)
Example extend_tables_example :
  let sh := Sheet ∅ [Table (lit "T1") (lit "F3:U418");
                     Table (lit "T2") (lit "A3:C300")] in
  @extend_tables_for_new_row example_runtime WsMain 418 419
    (World sh empty_sheet [])
  = Done tt (World (Sheet ∅ [Table (lit "T1") (lit "F3:U419");
                             Table (lit "T2") (lit "A3:C300")])
               empty_sheet []).
Proof. intros sh. vm_compute. reflexivity. Qed.

(** ** The formula rewriter and its contract *)

Lemma sub_cons `{PyRuntime} (old new : str) (c : Z) (t : str) :
  Regex.sub old new (c :: t)
  = match Regex.match_here old (c :: t) with
    | Some (g, rest) => g ++ new ++ Regex.sub old new rest
    | None => c :: Regex.sub old new t
    end.
Proof.
  simp sub.
  generalize (inspect (Regex.match_here old (c :: t))).
  intros [[[g rest]|] E]; cbn [Regex.sub_unfold_clause_2];
    rewrite E; reflexivity.
Qed.

Lemma spec_rewrite_cons `{PyRuntime} (old new : str) (prev : option Z)
    (c : Z) (t : str) :
  spec_rewrite old new prev (c :: t)
  = match row_ref_here old prev (c :: t) with
    | Some rest => new ++ spec_rewrite old new (last old) rest
    | None => c :: spec_rewrite old new (Some c) t
    end.
Proof.
  simp spec_rewrite.
  generalize (inspect (row_ref_here old prev (c :: t))).
  intros [[rest|] E]; cbn [spec_rewrite_unfold_clause_2];
    rewrite E; reflexivity.
Qed.

Lemma letters_group (n : nat) (s ls r : str) :
  Regex.letters n s = Some (ls, r) -> Forall (fun c => Regex.is_AZ c = true) ls.
Proof.
  revert s ls r. induction n as [|n IH]; intros s ls r; simpl.
  - intros [= <- <-]. constructor.
  - destruct s as [|c t]; [discriminate|].
    destruct (Regex.is_AZ c) eqn:Ec; [|discriminate].
    destruct (Regex.letters n t) as [[ls' r']|] eqn:E; [|discriminate].
    intros [= <- <-]. constructor; [exact Ec|]. exact (IH _ _ _ E).
Qed.

(** What a match of [[A-Z]{n}{old_row}\b] is made of, for [n >= 1]. *)
Lemma letters_row_inv `{PyRuntime} (old : str) (n : nat) (s ls rest : str) :
  (1 <= n)%nat ->
  Regex.letters_row old n s = Some (ls, rest) ->
  exists r p, s = ls ++ r /\ Forall (fun c => Regex.is_AZ c = true) ls
    /\ last ls = Some p /\ Regex.is_AZ p = true
    /\ Regex.row_then_boundary old (Some p) r = Some rest.
Proof.
  intros Hn. unfold Regex.letters_row.
  destruct (Regex.letters n s) as [[ls' r]|] eqn:E; [|discriminate].
  destruct (Regex.row_then_boundary old (last ls') r) as [rest'|] eqn:E';
    [|discriminate].
  intros [= <- <-].
  pose proof (letters_group _ _ _ _ E) as Hg.
  destruct (Regex.letters_app _ _ _ _ E) as [-> Hlen].
  destruct (last ls') as [p|] eqn:El.
  - exists r, p. repeat split; try assumption.
    apply last_Some_elem_of in El.
    rewrite Forall_forall in Hg. now apply Hg.
  - apply last_None in El. subst ls'. simpl in Hlen. lia.
Qed.

Lemma cols_row_inv `{PyRuntime} (old s ls rest : str) :
  Regex.cols_row old s = Some (ls, rest) ->
  exists r p, s = ls ++ r /\ Forall (fun c => Regex.is_AZ c = true) ls
    /\ last ls = Some p /\ Regex.is_AZ p = true
    /\ Regex.row_then_boundary old (Some p) r = Some rest.
Proof.
  unfold Regex.cols_row.
  destruct (Regex.letters_row old 3 s) as [m|] eqn:E3.
  { intros [= ->]. apply letters_row_inv in E3; [exact E3|lia]. }
  destruct (Regex.letters_row old 2 s) as [m|] eqn:E2.
  { intros [= ->]. apply letters_row_inv in E2; [exact E2|lia]. }
  intros E1. apply letters_row_inv in E1; [exact E1|lia].
Qed.

(** A match is a group of letters, with or without a dollar sign before
    them, that ends in a letter, followed by the old row at a word
    boundary. *)
Lemma match_here_inv `{PyRuntime} (old s g rest : str) :
  Regex.match_here old s = Some (g, rest) ->
  exists r p, s = g ++ r /\ Forall group_char g
    /\ last g = Some p /\ Regex.is_AZ p = true
    /\ Regex.row_then_boundary old (Some p) r = Some rest.
Proof.
  assert (G : forall s ls rest, Regex.cols_row old s = Some (ls, rest) ->
    exists r p, s = ls ++ r /\ Forall group_char ls
      /\ last ls = Some p /\ Regex.is_AZ p = true
      /\ Regex.row_then_boundary old (Some p) r = Some rest).
  { intros s' ls rest' E. apply cols_row_inv in E as (r & p & ? & Hg & ?).
    exists r, p. split; [assumption|]. split; [|assumption].
    eapply Forall_impl; [exact Hg|]. intros c Hc. now left. }
  unfold Regex.match_here. destruct s as [|c t]; [apply G|].
  destruct (Z.eqb_spec c 36) as [->|Hc]; [|apply G].
  destruct (Regex.cols_row old t) as [[ls r]|] eqn:E; [|apply G].
  intros [= <- <-].
  apply G in E as (r' & p & -> & Hg & Hl & Hp & Hr).
  exists r', p. split; [reflexivity|].
  split; [constructor; [now right|exact Hg]|].
  split; [|now split].
  rewrite last_cons, Hl. reflexivity.
Qed.

(** Where no match starts at a letter, the old row at a word boundary
    does not follow that letter. *)
Lemma match_here_none_letter `{PyRuntime} (old : str) (c : Z) (t : str) :
  Regex.match_here old (c :: t) = None -> Regex.is_AZ c = true ->
  Regex.row_then_boundary old (Some c) t = None.
Proof.
  intros E Hc.
  assert (E' : Regex.cols_row old (c :: t) = None).
  { unfold Regex.match_here in E. destruct (c =? 36); [|exact E].
    destruct (Regex.cols_row old t) as [[ls r]|]; [discriminate|exact E]. }
  unfold Regex.cols_row in E'.
  destruct (Regex.letters_row old 3 (c :: t)); [discriminate E'|].
  destruct (Regex.letters_row old 2 (c :: t)); [discriminate E'|].
  unfold Regex.letters_row in E'. cbn [Regex.letters] in E'.
  rewrite Hc in E'. cbn [last] in E'.
  destruct (Regex.row_then_boundary old (Some c) t);
    [discriminate E'|reflexivity].
Qed.

Section Contract.

Context `{PyRuntime}.
Variables old new : str.
Hypothesis old_nonempty : old <> [].
Hypothesis old_row_chars : Forall row_char old.

Lemma strip_literal_group (c : Z) (s : str) :
  group_char c -> Regex.strip_literal old (c :: s) = None.
Proof.
  intros Hc. destruct old as [|d l] eqn:E; [contradiction|].
  simpl. destruct (Z.eqb_spec d c) as [->|]; [|reflexivity].
  apply Forall_cons in old_row_chars as [[Hd1 Hd2] _].
  destruct Hc; congruence.
Qed.

Lemma row_ref_here_group (prev : option Z) (c : Z) (s : str) :
  group_char c -> row_ref_here old prev (c :: s) = None.
Proof.
  intros Hc. unfold row_ref_here, Regex.row_then_boundary.
  rewrite (strip_literal_group c s Hc).
  destruct old; [reflexivity|]. destruct prev as [p|]; [|reflexivity].
  now destruct (Regex.is_AZ p).
Qed.

Lemma row_ref_here_no_letter (prev : option Z) (s : str) :
  no_letter prev -> row_ref_here old prev s = None.
Proof.
  unfold row_ref_here. destruct old; [reflexivity|].
  destruct prev as [p|]; [|reflexivity]. simpl. now intros ->.
Qed.

Lemma row_ref_here_letter (p : Z) (s : str) :
  Regex.is_AZ p = true ->
  row_ref_here old (Some p) s = Regex.row_then_boundary old (Some p) s.
Proof.
  intros Hp. unfold row_ref_here. destruct old; [contradiction|].
  now rewrite Hp.
Qed.

(** The rewriting passes over a group. *)
Lemma spec_rewrite_group (g s : str) (prev : option Z) :
  Forall group_char g ->
  spec_rewrite old new prev (g ++ s)
  = g ++ spec_rewrite old new
           (match last g with Some c => Some c | None => prev end) s.
Proof.
  intros Hg. revert prev. induction Hg as [|c g Hc Hg IH]; intros prev.
  - reflexivity.
  - simpl app. rewrite spec_rewrite_cons, row_ref_here_group by exact Hc.
    rewrite IH, last_cons. f_equal. f_equal. now destruct (last g).
Qed.

(** The character before the text matters only where the old row stands
    at the head of the text. *)
Lemma spec_rewrite_prev (p1 p2 : option Z) (s : str) :
  row_ref_here old p1 s = None -> row_ref_here old p2 s = None ->
  spec_rewrite old new p1 s = spec_rewrite old new p2 s.
Proof.
  destruct s as [|c t]; [reflexivity|]. intros E1 E2.
  now rewrite !spec_rewrite_cons, E1, E2.
Qed.

Lemma last_old_no_letter : no_letter (last old).
Proof.
  destruct (last old) as [d|] eqn:E; [|exact I]. simpl.
  apply last_Some_elem_of in E. rewrite Forall_forall in old_row_chars.
  now apply old_row_chars in E as [? _].
Qed.

Lemma sub_spec_rewrite_len (n : nat) (s : str) (prev : option Z) :
  (length s <= n)%nat -> no_letter prev ->
  Regex.sub old new s = spec_rewrite old new prev s.
Proof.
  revert s prev. induction n as [|n IH]; intros s prev Hlen Hprev.
  { destruct s; [reflexivity|simpl in Hlen; lia]. }
  destruct s as [|c t]; [reflexivity|].
  rewrite sub_cons.
  destruct (Regex.match_here old (c :: t)) as [[g rest]|] eqn:E.
  - pose proof (Regex.match_here_shorter _ _ _ _ E) as Hlt.
    apply match_here_inv in E as (r & p & Es & Hg & Hl & Hp & Hr).
    rewrite Es, spec_rewrite_group, Hl by exact Hg.
    f_equal.
    assert (Er : exists d r', r = d :: r').
    { unfold Regex.row_then_boundary in Hr.
      destruct (Regex.strip_literal old r) as [r0|] eqn:E'; [|discriminate].
      apply Regex.strip_literal_app in E'. subst r.
      destruct (old ++ r0) as [|d r'] eqn:Eo; [|now exists d, r'].
      apply app_eq_nil in Eo as [Eo _]. contradiction. }
    destruct Er as (d & r' & ->).
    rewrite spec_rewrite_cons, row_ref_here_letter, Hr by exact Hp.
    f_equal. apply IH; [simpl in Hlen, Hlt; lia|apply last_old_no_letter].
  - rewrite spec_rewrite_cons, row_ref_here_no_letter by exact Hprev.
    f_equal. simpl in Hlen.
    destruct (Regex.is_AZ c) eqn:Hc.
    + rewrite (IH t None) by (simpl; trivial; lia).
      apply spec_rewrite_prev; [now apply row_ref_here_no_letter|].
      rewrite row_ref_here_letter by exact Hc.
      now apply match_here_none_letter.
    + apply IH; [lia|exact Hc].
Qed.

End Contract.

Lemma uint_digits_row_chars (d : Decimal.uint) : Forall row_char (uint_digits d).
Proof.
  induction d; simpl; constructor; try assumption; split; (reflexivity || lia).
Qed.

(** The decimal text of an integer is not empty and holds no column letter
    and no dollar sign. *)
Lemma str_of_int_row_chars (n : Z) :
  str_of_int n <> [] /\ Forall row_char (str_of_int n).
Proof.
  unfold str_of_int. destruct n as [|p|p]; simpl.
  - split; [discriminate|]. constructor; [|constructor].
    split; [reflexivity|lia].
  - split; [|apply uint_digits_row_chars].
    intros E. apply uint_digits_nil in E. now apply Unsigned.to_uint_nonnil in E.
  - split; [discriminate|]. constructor; [|apply uint_digits_row_chars].
    split; [reflexivity|lia].
Qed.

(** The rewriter meets the first half of its contract on every formula,
    every source row and every destination row: the text it returns is the
    formula with the source row replaced by the destination row at each
    place where the source row stands right after a column letter and
    right before a word boundary, and with every other character kept. *)
Theorem adjust_formula_row_contract `{PyRuntime} (s : str) (old_row new_row : Z) :
  adjust_formula_row (PStr s) old_row new_row
  = if startswith (lit "=") s
    then PStr (spec_rewrite (str_of_int old_row) (str_of_int new_row) None s)
    else PStr s.
Proof.
  unfold adjust_formula_row.
  destruct (startswith (lit "=") s); [|reflexivity].
  destruct (str_of_int_row_chars old_row) as [Hne Hall].
  f_equal. now apply (sub_spec_rewrite_len _ _ Hne Hall (length s)).
Qed.

(** The contract read on a text: the row is replaced after one letter and
    after four, not after a digit, not before a further digit and not
    where no letter stands before it. *)
Example spec_rewrite_example :
  @spec_rewrite example_runtime (lit "418") (lit "419") None
    (lit "=A418+ABCD418+$B$418+B4180+1418+418")
  = lit "=A419+ABCD419+$B$418+B4180+1418+418".
Proof. vm_compute. reflexivity. Qed.

(** ** The template row *)

Lemma cell_text_same `{PyRuntime} (sh sh' : sheet) (r c : Z) :
  same_content sh sh' ->
  cell_text (value_at sh' r c) = cell_text (value_at sh r c).
Proof. intros [_ Hc]. now destruct (Hc r c) as [-> _]. Qed.

(** The scan of the rows [a + n - 1] down to [a]. *)
Lemma get_template_row_loop_scan `{PyRuntime} (ws : worksheet) (n : nat) (a : Z)
    (w : world) :
  1 <= a -> a + Z.of_nat n - 1 <= max_row (sheet_of ws w) ->
  exists t w',
    get_template_row_loop ws (reverse (seqZ a (Z.of_nat n))) w = Done t w'
    /\ reads ws w w'
    /\ match t with
       | Some r =>
           a <= r < a + Z.of_nat n
           /\ cell_text (value_at (sheet_of ws w) r 4) <> []
           /\ forall x, r < x < a + Z.of_nat n ->
                cell_text (value_at (sheet_of ws w) x 4) = []
       | None =>
           forall x, a <= x < a + Z.of_nat n ->
             cell_text (value_at (sheet_of ws w) x 4) = []
       end.
Proof.
  intros Ha. revert w. induction n as [|n IH]; intros w Hmax.
  - exists None, w. split; [reflexivity|]. split; [apply reads_refl|].
    intros x Hx. lia.
  - rewrite seqZ_S, reverse_app. cbn [reverse rev_append app].
    change (rev_append [] ?l) with l.
    cbn [get_template_row_loop].
    destruct (ws_cell_reads ws (a + Z.of_nat n) 4 w ltac:(lia) ltac:(lia))
      as (w1 & E1 & R1).
    rewrite (bind_done _ _ _ _ _ E1). rewrite value_at_cell_of.
    destruct (decide (cell_text (value_at (sheet_of ws w) (a + Z.of_nat n) 4) <> []))
      as [Hne|He].
    + rewrite (bool_decide_eq_true_2 _ Hne).
      exists (Some (a + Z.of_nat n)), w1. split; [reflexivity|].
      split; [exact R1|]. split; [lia|]. split; [exact Hne|]. intros x Hx. lia.
    + rewrite (bool_decide_eq_false_2 _ He).
      assert (He' : cell_text (value_at (sheet_of ws w) (a + Z.of_nat n) 4) = []).
      { destruct (cell_text _); [reflexivity|]. exfalso. apply He. discriminate. }
      pose proof R1 as (S1 & M1 & _).
      destruct (IH w1 ltac:(rewrite M1; lia)) as (t & w2 & E2 & R2 & Ht).
      exists t, w2. split; [exact E2|].
      split; [eapply reads_trans; eassumption|].
      destruct t as [r|].
      * destruct Ht as (Hr & Hne & Hafter). split; [lia|].
        rewrite (cell_text_same _ _ _ _ S1) in Hne. split; [exact Hne|].
        intros x Hx. destruct (decide (x = a + Z.of_nat n)) as [->|Hx'];
          [exact He'|].
        rewrite <- (cell_text_same _ _ _ _ S1). apply Hafter. lia.
      * intros x Hx. destruct (decide (x = a + Z.of_nat n)) as [->|Hx'];
          [exact He'|].
        rewrite <- (cell_text_same _ _ _ _ S1). apply Ht. lia.
Qed.

(** The template row is the last row, from row 3 on, whose lot (column D)
    is not blank; there is none exactly when every such row has a blank
    lot. The scan only reads the sheet. *)
Theorem get_template_row_last_lot `{PyRuntime} (ws : worksheet) (w : world) :
  let sh := sheet_of ws w in
  exists t w',
    get_template_row ws w = Done t w'
    /\ reads ws w w'
    /\ match t with
       | Some r =>
           3 <= r <= max_row sh
           /\ cell_text (value_at sh r 4) <> []
           /\ forall x, r < x <= max_row sh -> cell_text (value_at sh x 4) = []
       | None =>
           forall x, 3 <= x <= max_row sh -> cell_text (value_at sh x 4) = []
       end.
Proof.
  intros sh. unfold get_template_row, bind, get_max_row. fold sh.
  unfold range_down.
  destruct (Z_le_gt_dec 3 (max_row sh)) as [Hge|Hlt].
  - replace (2 + 1) with 3 by lia.
    replace (max_row sh - 2) with (Z.of_nat (Z.to_nat (max_row sh - 2))) by lia.
    destruct (get_template_row_loop_scan ws (Z.to_nat (max_row sh - 2)) 3 w
                ltac:(lia) ltac:(fold sh; lia)) as (t & w' & E & R & Ht).
    exists t, w'. split; [exact E|]. split; [exact R|]. fold sh in Ht.
    destruct t as [r|].
    + destruct Ht as (Hr & Hne & Hafter). split; [lia|]. split; [exact Hne|].
      intros x Hx. apply Hafter. lia.
    + intros x Hx. apply Ht. lia.
  - rewrite seqZ_nil by lia. exists None, w. split; [reflexivity|].
    split; [apply reads_refl|]. intros x Hx. lia.
Qed.

(** ** Drum-slot updates composed *)

Lemma sheet_eq (sh sh' : sheet) :
  tables sh = tables sh' -> (forall k, cells sh !! k = cells sh' !! k) -> sh = sh'.
Proof.
  destruct sh as [c t], sh' as [c' t']. simpl. intros -> Hc. f_equal.
  now apply map_eq.
Qed.

Lemma lookup_touch (sh : sheet) (row col : Z) (v : pyval) (k : Z * Z) :
  cells (touch sh row col v) !! k
  = if decide ((row, col) = k) then Some (assigned sh row col v)
    else cells sh !! k.
Proof.
  unfold touch, put_cell. simpl. rewrite lookup_insert.
  now destruct (decide ((row, col) = k)).
Qed.

Lemma assigned_touch_other (sh : sheet) (r c r' c' : Z) (v v' : pyval) :
  (r, c) <> (r', c') ->
  assigned (touch sh r c v) r' c' v' = assigned sh r' c' v'.
Proof.
  intros Hne. unfold assigned, cell_of. rewrite lookup_touch.
  now rewrite decide_False by exact Hne.
Qed.

Lemma assigned_touch_same (sh : sheet) (r c : Z) (v : pyval) :
  assigned (touch sh r c v) r c v = assigned sh r c v.
Proof.
  unfold assigned at 1, cell_of. rewrite lookup_touch, decide_True by reflexivity.
  simpl. destruct v; try reflexivity; unfold assigned; simpl; try reflexivity.
Qed.

(** Calls at two different coordinates can be made in either order. *)
Lemma touch_comm (sh : sheet) (r c r' c' : Z) (v v' : pyval) :
  (r, c) <> (r', c') ->
  touch (touch sh r c v) r' c' v' = touch (touch sh r' c' v') r c v.
Proof.
  intros Hne. apply sheet_eq; [reflexivity|]. intros k.
  rewrite !lookup_touch.
  rewrite assigned_touch_other by exact Hne.
  rewrite assigned_touch_other by congruence.
  destruct (decide ((r', c') = k)) as [<-|]; [|reflexivity].
  now rewrite decide_False by exact Hne.
Qed.

(** The same call made twice is the call made once. *)
Lemma touch_touch (sh : sheet) (r c : Z) (v : pyval) :
  touch (touch sh r c v) r c v = touch sh r c v.
Proof.
  apply sheet_eq; [reflexivity|]. intros k.
  rewrite !lookup_touch, assigned_touch_same.
  now destruct (decide ((r, c) = k)).
Qed.

Lemma apply_write_comm (sh : sheet) (x y : cell_write) :
  x.1 <> y.1 -> apply_write (apply_write sh x) y = apply_write (apply_write sh y) x.
Proof.
  destruct x as [[r c] v], y as [[r' c'] v']. simpl. apply touch_comm.
Qed.

Lemma apply_writes_comm_one (l : list cell_write) (sh : sheet) (x : cell_write) :
  Forall (fun y => x.1 <> y.1) l ->
  fold_left apply_write l (apply_write sh x)
  = apply_write (fold_left apply_write l sh) x.
Proof.
  revert sh. induction l as [|y l IH]; intros sh Hl; [reflexivity|].
  apply Forall_cons in Hl as [Hy Hl]. cbn [fold_left].
  rewrite apply_write_comm by exact Hy. now apply IH.
Qed.

(** Two runs of calls that share no coordinate can be made in either
    order. *)
Lemma apply_writes_comm (l1 l2 : list cell_write) (sh : sheet) :
  Forall (fun x => Forall (fun y => x.1 <> y.1) l2) l1 ->
  fold_left apply_write l2 (fold_left apply_write l1 sh)
  = fold_left apply_write l1 (fold_left apply_write l2 sh).
Proof.
  revert sh. induction l1 as [|x l1 IH]; intros sh Hl; [reflexivity|].
  apply Forall_cons in Hl as [Hx Hl]. cbn [fold_left].
  rewrite IH by exact Hl. f_equal. now apply apply_writes_comm_one.
Qed.

(** A call of a run without a repeated coordinate changes nothing when it
    is made again after the run. *)
Lemma apply_write_absorbed (l : list cell_write) (sh : sheet) (x : cell_write) :
  x ∈ l -> NoDup l.*1 ->
  apply_write (fold_left apply_write l sh) x = fold_left apply_write l sh.
Proof.
  revert sh. induction l as [|y l IH]; intros sh Hx Hnd.
  - now apply elem_of_nil in Hx.
  - cbn [fmap list_fmap] in Hnd. apply NoDup_cons in Hnd as [Hy Hnd].
    cbn [fold_left]. apply elem_of_cons in Hx as [->|Hx].
    + rewrite <- apply_writes_comm_one.
      * f_equal. destruct y as [[r c] v]. apply touch_touch.
      * apply Forall_forall. intros z Hz Heq. apply Hy.
        rewrite Heq. apply list_elem_of_fmap. now exists z.
    + now apply IH.
Qed.

Lemma apply_writes_twice (l : list cell_write) (sh : sheet) :
  NoDup l.*1 ->
  fold_left apply_write l (fold_left apply_write l sh) = fold_left apply_write l sh.
Proof.
  intros Hnd. set (S := fold_left apply_write l sh).
  assert (G : forall l', (forall x, x ∈ l' -> x ∈ l) -> fold_left apply_write l' S = S).
  { induction l' as [|x l' IH]; intros Hsub; [reflexivity|].
    cbn [fold_left]. unfold S at 1.
    rewrite apply_write_absorbed; [|apply Hsub; left|exact Hnd].
    apply IH. intros z Hz. apply Hsub. now right. }
  now apply G.
Qed.

Lemma NoDup_three {A} (a b c : A) :
  a <> b -> a <> c -> b <> c -> NoDup [a; b; c].
Proof.
  intros Hab Hac Hbc. repeat constructor; rewrite ?elem_of_cons, ?elem_of_nil;
    intuition congruence.
Qed.

Lemma slot_writes_NoDup `{PyRuntime} (row d : Z) (qty : float) (new_loc : pyval) :
  NoDup (slot_writes row d qty new_loc).*1.
Proof.
  unfold slot_writes. cbv zeta.
  destruct (_ || _); [|destruct (bool_decide _)]; cbn [fmap list_fmap fst];
    apply NoDup_three; intros E; pair_eqs; lia.
Qed.

Lemma write_drum_slot_run `{PyRuntime} (ws : worksheet) (row d : Z)
    (new_qty new_loc : pyval) (w : world) :
  1 <= row -> 1 <= d <= 20 ->
  apply_drum_update_to_main ws row d new_qty new_loc w
  = match py_float (py_or new_qty (PInt 0)) with
    | inr qty =>
        Done tt (with_sheet ws (fold_left apply_write
                                  (slot_writes row d qty new_loc) (sheet_of ws w)) w)
    | inl e =>
        Raised e (with_sheet ws (touch (sheet_of ws w) row (22 + 3 * d) new_loc) w)
    end.
Proof.
  intros Hrow Hd. rewrite apply_drum_update_in_range by exact Hd.
  unfold write_drum_slot. cell_step.
  destruct (py_float (py_or new_qty (PInt 0))) as [e|qty]; [reflexivity|].
  unfold run. rewrite bind_ret. unfold slot_writes. cbv zeta.
  destruct (_ || _); [|destruct (bool_decide _)]; do 2 cell_step; reflexivity.
Qed.

Lemma drum_update_row_below `{PyRuntime} (ws : worksheet) (row d : Z)
    (new_qty new_loc : pyval) (w : world) :
  row < 1 -> 1 <= d <= 20 ->
  apply_drum_update_to_main ws row d new_qty new_loc w = Raised ValueError w.
Proof.
  intros Hrow Hd. rewrite apply_drum_update_in_range by exact Hd.
  unfold write_drum_slot, bind, ws_cell.
  destruct (Z.ltb_spec row 1); [reflexivity|lia].
Qed.

(** A drum-slot update made twice leaves what it left the first time: the
    second run returns in the state the first one reached. *)
Theorem drum_update_idempotent `{PyRuntime} (ws : worksheet) (w w1 : world)
    (row drum_no : Z) (new_qty new_loc : pyval) :
  1 <= drum_no <= 20 ->
  apply_drum_update_to_main ws row drum_no new_qty new_loc w = Done tt w1 ->
  apply_drum_update_to_main ws row drum_no new_qty new_loc w1 = Done tt w1.
Proof.
  intros Hd E.
  destruct (Z_lt_ge_dec row 1) as [Hlt|Hrow].
  { rewrite drum_update_row_below in E by assumption. discriminate E. }
  rewrite write_drum_slot_run in E |- * by lia.
  destruct (py_float (py_or new_qty (PInt 0))) as [e|qty]; [discriminate E|].
  assert (E' : w1 = with_sheet ws (fold_left apply_write
                 (slot_writes row drum_no qty new_loc) (sheet_of ws w)) w)
    by congruence.
  rewrite E' at 1 2. rewrite sheet_of_with_sheet, with_sheet_twice.
  rewrite apply_writes_twice by apply slot_writes_NoDup. now rewrite E'.
Qed.

(** Updates of two different slots, or of slots of two different rows,
    can be replayed in either order: when one order returns, the other
    returns in the same state. *)
Theorem drum_updates_commute `{PyRuntime} (ws : worksheet) (w w' : world)
    (row1 d1 : Z) (qty1 loc1 : pyval) (row2 d2 : Z) (qty2 loc2 : pyval) :
  1 <= d1 <= 20 -> 1 <= d2 <= 20 -> (row1, d1) <> (row2, d2) ->
  (apply_drum_update_to_main ws row1 d1 qty1 loc1 ;;;
   apply_drum_update_to_main ws row2 d2 qty2 loc2) w = Done tt w' ->
  (apply_drum_update_to_main ws row2 d2 qty2 loc2 ;;;
   apply_drum_update_to_main ws row1 d1 qty1 loc1) w = Done tt w'.
Proof.
  intros Hd1 Hd2 Hne E. unfold bind in *.
  destruct (Z_lt_ge_dec row1 1) as [Hlt|Hrow1].
  { rewrite drum_update_row_below in E by assumption. discriminate E. }
  rewrite (write_drum_slot_run ws row1) in E by lia.
  destruct (py_float (py_or qty1 (PInt 0))) as [e|q1] eqn:E1; [discriminate E|].
  destruct (Z_lt_ge_dec row2 1) as [Hlt|Hrow2].
  { rewrite drum_update_row_below in E by assumption. discriminate E. }
  rewrite (write_drum_slot_run ws row2) in E |- * by lia.
  destruct (py_float (py_or qty2 (PInt 0))) as [e|q2] eqn:E2; [discriminate E|].
  rewrite (write_drum_slot_run ws row1) by lia. rewrite E1.
  rewrite !sheet_of_with_sheet, !with_sheet_twice in E |- *.
  rewrite <- E. do 2 f_equal.
  apply apply_writes_comm.
  apply Forall_forall. intros x Hx. apply Forall_forall. intros y Hy.
  unfold slot_writes in Hx, Hy. cbv zeta in Hx, Hy.
  assert (Kx : x.1.1 = row2 /\ 21 + 3 * d2 <= x.1.2 <= 23 + 3 * d2).
  { destruct (_ || _) in Hx; [|destruct (bool_decide _) in Hx];
      repeat (apply elem_of_cons in Hx as [->|Hx]; [simpl; lia|]);
      now apply elem_of_nil in Hx. }
  assert (Ky : y.1.1 = row1 /\ 21 + 3 * d1 <= y.1.2 <= 23 + 3 * d1).
  { destruct (_ || _) in Hy; [|destruct (bool_decide _) in Hy];
      repeat (apply elem_of_cons in Hy as [->|Hy]; [simpl; lia|]);
      now apply elem_of_nil in Hy. }
  intros Heq. apply Hne.
  destruct x as [[rx cx] vx], y as [[ry cy] vy]. simpl in *.
  injection Heq as -> ->. f_equal; lia.
Qed.

(** ** The locator as a function of the sheet *)

Lemma first_matching_cons `{PyRuntime} (sh : sheet) (p l : pyval) (r : Z)
    (rows : list Z) :
  first_matching sh p l (r :: rows)
  = if matching sh p l r then r else first_matching sh p l rows.
Proof.
  unfold first_matching. rewrite filter_cons.
  destruct (matching sh p l r); simpl; reflexivity.
Qed.

Lemma matching_same `{PyRuntime} (sh sh' : sheet) (p l : pyval) (r : Z) :
  value_at sh' r 2 = value_at sh r 2 -> value_at sh' r 4 = value_at sh r 4 ->
  matching sh' p l r = matching sh p l r.
Proof. unfold matching. now intros -> ->. Qed.

Lemma first_matching_same `{PyRuntime} (sh sh' : sheet) (p l : pyval)
    (rows : list Z) :
  Forall (fun r => value_at sh' r 2 = value_at sh r 2
                   /\ value_at sh' r 4 = value_at sh r 4) rows ->
  first_matching sh' p l rows = first_matching sh p l rows.
Proof.
  induction 1 as [|r rows [H2 H4] _ IH]; [reflexivity|].
  now rewrite !first_matching_cons, IH, (matching_same sh sh') by assumption.
Qed.

Lemma find_main_row_loop_located `{PyRuntime} (ws : worksheet) (p l : pyval)
    (rows : list Z) (w : world) :
  Forall (fun r => 1 <= r <= max_row (sheet_of ws w)) rows ->
  exists w',
    find_main_row_loop ws p l rows w
    = Done (first_matching (sheet_of ws w) p l rows) w'
    /\ reads ws w w'.
Proof.
  revert w. induction rows as [|r rows IH]; intros w Hrows.
  - exists w. split; [reflexivity|apply reads_refl].
  - apply Forall_cons in Hrows as [Hr Hrows]. cbn [find_main_row_loop].
    destruct (ws_cell_reads ws r 2 w Hr ltac:(lia)) as (w1 & E1 & R1).
    rewrite (bind_done _ _ _ _ _ E1).
    pose proof R1 as (S1 & M1 & _).
    destruct (ws_cell_reads ws r 4 w1 ltac:(rewrite M1; exact Hr) ltac:(lia))
      as (w2 & E2 & R2).
    rewrite (bind_done _ _ _ _ _ E2).
    pose proof (reads_trans _ _ _ _ R1 R2) as R12.
    pose proof R12 as (S2 & M2 & _).
    rewrite !value_at_cell_of, first_matching_cons.
    destruct S1 as [_ Hv1]. destruct (Hv1 r 4) as [-> _].
    fold (matching (sheet_of ws w) p l r).
    destruct (matching (sheet_of ws w) p l r).
    + exists w2. split; [reflexivity|exact R12].
    + destruct (IH w2) as (w3 & E3 & R3).
      { rewrite M2. exact Hrows. }
      exists w3. split; [|eapply reads_trans; eassumption].
      rewrite E3. f_equal. apply first_matching_same.
      apply Forall_forall. intros x _. destruct S2 as [_ Hv2].
      split; apply Hv2.
Qed.

(** The locator returns, only reads the sheet, and answers with the first
    matching row. *)
Lemma find_main_row_located `{PyRuntime} (ws : worksheet) (p l : pyval) (w : world) :
  exists w',
    find_main_row ws p l w = Done (located (sheet_of ws w) p l) w'
    /\ reads ws w w'.
Proof.
  unfold find_main_row, bind, get_max_row. apply find_main_row_loop_located.
  apply range_Forall. intros r Hr. lia.
Qed.

Lemma located_same `{PyRuntime} (sh sh' : sheet) (p l : pyval) :
  max_row sh' = max_row sh ->
  (forall r, value_at sh' r 2 = value_at sh r 2
             /\ value_at sh' r 4 = value_at sh r 4) ->
  located sh' p l = located sh p l.
Proof.
  intros Hm Hv. unfold located. rewrite Hm. apply first_matching_same.
  apply Forall_forall. intros r _. apply Hv.
Qed.

Lemma apply_writes_value_other (l : list cell_write) (sh : sheet) (r c : Z) :
  Forall (fun x => x.1 <> (r, c)) l ->
  value_at (fold_left apply_write l sh) r c = value_at sh r c.
Proof.
  revert sh. induction l as [|x l IH]; intros sh Hl; [reflexivity|].
  apply Forall_cons in Hl as [Hx Hl]. cbn [fold_left]. rewrite IH by exact Hl.
  destruct x as [[r' c'] v]. unfold apply_write. simpl in *.
  rewrite value_at_touch. now rewrite decide_False by exact Hx.
Qed.

Lemma apply_writes_style (l : list cell_write) (sh : sheet) (r c : Z) :
  style_at (fold_left apply_write l sh) r c = style_at sh r c.
Proof.
  revert sh. induction l as [|x l IH]; intros sh; [reflexivity|].
  cbn [fold_left]. rewrite IH. apply style_at_touch.
Qed.

Lemma apply_writes_tables (l : list cell_write) (sh : sheet) :
  tables (fold_left apply_write l sh) = tables sh.
Proof.
  revert sh. induction l as [|x l IH]; intros sh; [reflexivity|].
  cbn [fold_left]. now rewrite IH.
Qed.

Lemma apply_writes_max_row (l : list cell_write) (sh : sheet) :
  Forall (fun x => x.1.1 <= max_row sh) l ->
  max_row (fold_left apply_write l sh) = max_row sh.
Proof.
  revert sh. induction l as [|x l IH]; intros sh Hl; [reflexivity|].
  apply Forall_cons in Hl as [Hx Hl]. cbn [fold_left].
  assert (E : max_row (apply_write sh x) = max_row sh).
  { unfold apply_write. rewrite max_row_touch. lia. }
  rewrite IH; [exact E|]. now rewrite E.
Qed.

Lemma slot_writes_where `{PyRuntime} (row d : Z) (qty : float) (new_loc : pyval) :
  Forall (fun x => x.1.1 = row /\ 21 + 3 * d <= x.1.2 <= 23 + 3 * d)
    (slot_writes row d qty new_loc).
Proof.
  unfold slot_writes. cbv zeta.
  destruct (_ || _); [|destruct (bool_decide _)];
    repeat (constructor; [simpl; lia|]); constructor.
Qed.

(** A drum-slot update of a row of the sheet moves no lot and hides none:
    after it the locator answers every request with the row it answered
    with before. *)
Theorem drum_update_keeps_rows `{PyRuntime} (ws : worksheet) (w w1 : world)
    (row drum_no : Z) (new_qty new_loc part_no lot_no : pyval) :
  1 <= row <= max_row (sheet_of ws w) ->
  apply_drum_update_to_main ws row drum_no new_qty new_loc w = Done tt w1 ->
  forall r w',
    find_main_row ws part_no lot_no w = Done r w' ->
    exists w1', find_main_row ws part_no lot_no w1 = Done r w1'.
Proof.
  intros Hrow E r w' Ef.
  destruct (find_main_row_located ws part_no lot_no w) as (w0 & E0 & _).
  destruct (find_main_row_located ws part_no lot_no w1) as (w1' & E1 & _).
  exists w1'. rewrite E1. f_equal.
  assert (r = located (sheet_of ws w) part_no lot_no) as -> by congruence.
  destruct (decide (1 <= drum_no <= 20)) as [Hd|Hd].
  - rewrite write_drum_slot_run in E by lia.
    destruct (py_float (py_or new_qty (PInt 0))) as [e|qty]; [discriminate E|].
    assert (E' : w1 = with_sheet ws (fold_left apply_write
                   (slot_writes row drum_no qty new_loc) (sheet_of ws w)) w)
      by congruence.
    rewrite E', sheet_of_with_sheet.
    pose proof (slot_writes_where row drum_no qty new_loc) as Hw.
    apply located_same.
    + apply apply_writes_max_row. eapply Forall_impl; [exact Hw|].
      simpl. intros x [-> _]. lia.
    + intros x. split; apply apply_writes_value_other;
        (eapply Forall_impl; [exact Hw|]); simpl; intros [[rx cx] vx]; simpl;
        intros [_ Hc] [= _ ->]; lia.
  - unfold apply_drum_update_to_main, get_drum_col_letters in E.
    assert (Hb : (drum_no <? 1) || (20 <? drum_no) = true).
    { destruct (Z.ltb_spec drum_no 1); [reflexivity|].
      destruct (Z.ltb_spec 20 drum_no); [reflexivity|lia]. }
    rewrite Hb in E. unfold st_message in E.
    assert (E' : w1 = World (main_sheet w) (log_sheet w)
                        (console w ++ [WarnDrumOutOfRange drum_no])) by congruence.
    rewrite E'. now destruct ws.
Qed.

(** ** The row materializer *)

Lemma value_at_assign (sh : sheet) (row col : Z) (v : pyval) (r k : Z) :
  value_at (assign sh row col v) r k
  = if decide ((row, col) = (r, k)) then v else value_at sh r k.
Proof. unfold assign. now rewrite value_at_put. Qed.

Lemma style_at_assign (sh : sheet) (row col : Z) (v : pyval) (r k : Z) :
  style_at (assign sh row col v) r k = style_at sh r k.
Proof.
  unfold assign. rewrite style_at_put. cbn [cell_style].
  destruct (decide ((row, col) = (r, k))) as [[= -> ->]|]; reflexivity.
Qed.

Lemma max_row_assign (sh : sheet) (row col : Z) (v : pyval) :
  max_row (assign sh row col v) = Z.max row (max_row sh).
Proof. unfold assign. unfold max_row at 1. now rewrite (max_coord_put fst). Qed.

Lemma max_column_assign (sh : sheet) (row col : Z) (v : pyval) :
  max_column (assign sh row col v) = Z.max col (max_column sh).
Proof. unfold assign. unfold max_column at 1. now rewrite (max_coord_put snd). Qed.

Lemma put_cell_touch (sh : sheet) (row col : Z) (v : pyval) (c : cell) :
  put_cell (touch sh row col v) row col c = put_cell sh row col c.
Proof.
  unfold touch, put_cell. simpl. f_equal. apply insert_insert_eq.
Qed.

(** [ws[f"{col}{row}"] = v] for a column name and a row from 1 on. *)
Lemma ws_setitem_done `{PyRuntime} (ws : worksheet) (col : str) (c row : Z)
    (v : pyval) (w : world) :
  column_index_from_string col = inr c -> 1 <= row ->
  ws_setitem ws col row v w
  = Done tt (with_sheet ws (assign (sheet_of ws w) row c v) w).
Proof.
  intros Hc Hrow. pose proof (column_index_range _ _ Hc) as Hr.
  unfold ws_setitem, ws_item. rewrite Hc. unfold run, bind, ret.
  rewrite (ws_cell_done ws row c PNone w ltac:(lia) ltac:(lia)).
  unfold set_cell. cbn [fst snd].
  rewrite sheet_of_with_sheet, with_sheet_twice, put_cell_touch.
  unfold assign. now rewrite style_assigned.
Qed.

Lemma formula_cols_columns `{PyRuntime} :
  Forall2 (fun col c => column_index_from_string col = inr c)
    formula_cols formula_columns.
Proof. repeat constructor. Qed.

Lemma fold_left_Forall2 {A B S} (R : A -> B -> Prop) (f : S -> A -> S)
    (g : S -> B -> S) (l1 : list A) (l2 : list B) (s : S) :
  (forall a b s, R a b -> f s a = g s b) ->
  Forall2 R l1 l2 -> fold_left f l1 s = fold_left g l2 s.
Proof.
  intros Hfg Hl. revert s. induction Hl as [|a b l1 l2 Hab _ IH]; intros s;
    [reflexivity|].
  cbn [fold_left]. rewrite (Hfg a b s Hab). apply IH.
Qed.

(** The formula loop of [create_new_main_row] from the template row [t]
    to the new row [n]. *)
Lemma copy_formulas_done `{PyRuntime} (ws : worksheet) (t n : Z) (w : world) :
  1 <= t -> 1 <= n ->
  for_each formula_cols (fun col =>
    let* src := ws_item ws col t in
    let* dst := ws_item ws col n in
    if is_formula (value src.2)
    then set_cell ws n dst.1
           (Cell (adjust_formula_row (value src.2) t n) (cell_style dst.2))
    else set_cell ws n dst.1 (Cell (value src.2) (cell_style dst.2))) w
  = Done tt (with_sheet ws (fold_left (copy_formula_at t n) formula_columns
                              (sheet_of ws w)) w).
Proof.
  intros Ht Hn.
  rewrite <- (fold_left_Forall2
               (fun col c => column_index_from_string col = inr c)
               (fun sh col => match column_index_from_string col with
                              | inr c => copy_formula_at t n sh c
                              | inl _ => sh
                              end) (copy_formula_at t n) _ _ _
               ltac:(intros a b s Hab; cbv beta; now rewrite Hab) formula_cols_columns).
  apply (for_each_sheet ws (fun col => exists c, column_index_from_string col = inr c)).
  - intros col w0 [c Hc]. pose proof (column_index_range _ _ Hc) as Hr.
    rewrite Hc. unfold ws_item. rewrite Hc. unfold run, bind, ret.
    rewrite (ws_cell_done ws t c PNone w0 ltac:(lia) ltac:(lia)).
    rewrite (ws_cell_done ws n c PNone _ ltac:(lia) ltac:(lia)).
    rewrite sheet_of_with_sheet, with_sheet_twice. cbn [fst snd].
    assert (E : forall v, set_cell ws n c
                  (Cell v (cell_style (assigned (touch (sheet_of ws w0) t c PNone) n c PNone)))
                  (with_sheet ws (touch (touch (sheet_of ws w0) t c PNone) n c PNone) w0)
                = Done tt (with_sheet ws
                    (assign (touch (sheet_of ws w0) t c PNone) n c v) w0)).
    { intros v. unfold set_cell.
      rewrite sheet_of_with_sheet, with_sheet_twice, put_cell_touch.
      unfold assign. now rewrite style_assigned. }
    rewrite value_assigned.
    unfold copy_formula_at.
    destruct (is_formula (value_at (sheet_of ws w0) t c)) eqn:Ef; rewrite E.
    + reflexivity.
    + do 3 f_equal. unfold is_formula in Ef. unfold adjust_formula_row.
      destruct (value_at (sheet_of ws w0) t c); try reflexivity. now rewrite Ef.
  - eapply Forall2_Forall_l; [exact formula_cols_columns|].
    apply Forall_forall. intros c _ col Hc. now exists c.
Qed.

(** A run of the table extender that returns has changed tables only. *)
Lemma extend_tables_cells `{PyRuntime} (ws : worksheet) (t n : Z) (w w' : world) :
  extend_tables_for_new_row ws t n w = Done tt w' ->
  exists tbls, w' = with_sheet ws (Sheet (cells (sheet_of ws w)) tbls) w.
Proof.
  unfold extend_tables_for_new_row, bind, get_tables.
  generalize (seq 0 (length (tables (sheet_of ws w)))). intros idx.
  assert (G : forall w0, (exists tbls, w0 = with_sheet ws (Sheet (cells (sheet_of ws w)) tbls) w) ->
            for_each idx (extend_at ws t n) w0 = Done tt w' ->
            exists tbls, w' = with_sheet ws (Sheet (cells (sheet_of ws w)) tbls) w).
  { induction idx as [|i idx IH]; intros w0 Hw0.
    - simpl. unfold ret. intros [= <-]. exact Hw0.
    - cbn [for_each]. unfold bind at 1.
      destruct (extend_at ws t n i w0) as [[] w1|] eqn:E1; [|discriminate].
      apply IH. destruct Hw0 as [tbls ->].
      unfold extend_at, bind, get_tables in E1.
      rewrite sheet_of_with_sheet in E1. cbn [tables cells] in E1.
      destruct (tbls !! i) as [tbl|]; [|injection E1 as <-; now exists tbls].
      destruct (extend_table t n tbl) as [e|tbl']; [discriminate E1|].
      simpl in E1. unfold set_tables in E1.
      rewrite sheet_of_with_sheet, with_sheet_twice in E1. cbn [cells] in E1.
      injection E1 as <-. now eexists. }
  apply G. exists (tables (sheet_of ws w)).
  rewrite <- (with_sheet_same ws w) at 1. f_equal. now destruct (sheet_of ws w).
Qed.

Lemma base_row_some (sh : sheet) (t : Z) :
  1 <= t ->
  (if t =? 0 then max_row sh + 1 - 1 else t) = base_row sh (Some t).
Proof. intros Ht. destruct (Z.eqb_spec t 0); [lia|reflexivity]. Qed.

(** [create_new_main_row] once the tables are extended: the row is the
    last row plus one and the sheet is [created_sheet]. *)
Lemma create_new_main_row_run `{PyRuntime} (ws : worksheet) (w : world)
    (part_no lot_no prod_name : pyval)
    (meta_map : gmap (str * str) (gmap str pyval)) (t : option Z)
    (tbls : list table) :
  let sh := sheet_of ws w in
  template_within sh t ->
  match t with
  | Some r => extend_tables_for_new_row ws r (max_row sh + 1) w
              = Done tt (with_sheet ws (Sheet (cells sh) tbls) w)
  | None => tbls = tables sh
  end ->
  create_new_main_row ws part_no lot_no prod_name meta_map t w
  = Done (max_row sh + 1)
      (with_sheet ws (created_sheet sh tbls part_no lot_no prod_name
                        (meta_of meta_map part_no lot_no) t) w).
Proof.
  intros sh Ht Hext.
  pose proof (max_row_ge_1 sh) as Hmr.
  unfold create_new_main_row. unfold bind at 1, get_max_row at 1. fold sh.
  set (n := max_row sh + 1).
  set (w1 := with_sheet ws (Sheet (cells sh) tbls) w).
  assert (E1 : match t with
               | Some r => extend_tables_for_new_row ws r n
               | None => ret tt
               end w = Done tt w1).
  { destruct t as [r|]; [exact Hext|]. subst tbls w1. unfold ret. f_equal.
    rewrite <- (with_sheet_same ws w) at 1. f_equal. unfold sh.
    now destruct (sheet_of ws w). }
  rewrite (bind_done _ _ _ _ _ E1).
  unfold bind at 1, get_max_column at 1.
  assert (Hsh1 : sheet_of ws w1 = Sheet (cells sh) tbls)
    by apply sheet_of_with_sheet.
  rewrite Hsh1. change (max_column (Sheet (cells sh) tbls)) with (max_column sh).
  assert (Hbase : match t with
                  | Some t0 => if t0 =? 0 then n - 1 else t0
                  | None => n - 1
                  end = base_row sh t).
  { destruct t as [r|]; simpl in *; [apply base_row_some; lia|unfold n; lia]. }
  rewrite Hbase.
  assert (Hb1 : 1 <= base_row sh t).
  { destruct t as [r|]; simpl in *; lia. }
  rewrite (bind_done _ _ _ _ _
             (copy_row_style_done ws (base_row sh t) n (max_column sh) w1
                Hb1 ltac:(unfold n; lia))).
  rewrite Hsh1. unfold w1. rewrite with_sheet_twice.
  assert (Hn : 1 <= n) by (unfold n; lia).
  rewrite (bind_done _ _ _ _ _ (ws_setitem_done ws (lit "B") 2 n _ _ eq_refl Hn)).
  rewrite sheet_of_with_sheet, with_sheet_twice.
  rewrite (bind_done _ _ _ _ _ (ws_setitem_done ws (lit "C") 3 n _ _ eq_refl Hn)).
  rewrite sheet_of_with_sheet, with_sheet_twice.
  rewrite (bind_done _ _ _ _ _ (ws_setitem_done ws (lit "D") 4 n _ _ eq_refl Hn)).
  rewrite sheet_of_with_sheet, with_sheet_twice.
  rewrite (bind_done _ _ _ _ _ (ws_setitem_done ws (lit "E") 5 n _ _ eq_refl Hn)).
  rewrite sheet_of_with_sheet, with_sheet_twice.
  rewrite (bind_done _ _ _ _ _ (ws_setitem_done ws (lit "G") 7 n _ _ eq_refl Hn)).
  rewrite sheet_of_with_sheet, with_sheet_twice.
  rewrite (bind_done _ _ _ _ _ (ws_setitem_done ws (lit "W") 23 n _ _ eq_refl Hn)).
  rewrite sheet_of_with_sheet, with_sheet_twice.
  unfold created_sheet. fold sh n. unfold meta_of.
  destruct t as [r|].
  - simpl in Ht. cbv beta iota.
    rewrite (bind_done _ _ _ _ _
               (copy_formulas_done ws r n _ ltac:(lia) Hn)).
    rewrite sheet_of_with_sheet, with_sheet_twice. reflexivity.
  - reflexivity.
Qed.

Lemma value_at_copy_formula `{PyRuntime} (t n : Z) (sh : sheet) (c r k : Z) :
  value_at (copy_formula_at t n sh c) r k
  = if decide ((n, c) = (r, k)) then adjust_formula_row (value_at sh t c) t n
    else value_at sh r k.
Proof.
  unfold copy_formula_at. rewrite value_at_assign, value_at_touch.
  now destruct (decide ((t, c) = (r, k))).
Qed.

Lemma style_at_copy_formula `{PyRuntime} (t n : Z) (sh : sheet) (c r k : Z) :
  style_at (copy_formula_at t n sh c) r k = style_at sh r k.
Proof. unfold copy_formula_at. now rewrite style_at_assign, style_at_touch. Qed.

Lemma max_row_copy_formula `{PyRuntime} (t n : Z) (sh : sheet) (c : Z) :
  max_row (copy_formula_at t n sh c) = Z.max n (Z.max t (max_row sh)).
Proof. unfold copy_formula_at. now rewrite max_row_assign, max_row_touch. Qed.

(** The formula loop over the columns [cols]: each of them takes, in the
    new row, the value of the template row with the row number of its
    cell addresses rewritten; nothing else changes. *)
Lemma copy_formulas_spec `{PyRuntime} (t n : Z) (cols : list Z) (sh : sheet) :
  t <> n ->
  let sh' := fold_left (copy_formula_at t n) cols sh in
  tables sh' = tables sh
  /\ (forall r k, style_at sh' r k = style_at sh r k)
  /\ (forall r k, value_at sh' r k
                  = if decide (r = n /\ k ∈ cols)
                    then adjust_formula_row (value_at sh t k) t n
                    else value_at sh r k)
  /\ (cols <> [] -> max_row sh' = Z.max n (Z.max t (max_row sh))).
Proof.
  intros Hne. revert sh. induction cols as [|c cols IH]; intros sh; cbn zeta.
  - simpl. repeat split; try congruence.
    intros r k. destruct (decide _) as [[_ Hin]|]; [|reflexivity].
    now apply elem_of_nil in Hin.
  - cbn [fold_left].
    destruct (IH (copy_formula_at t n sh c)) as (Ht & Hs & Hv & Hr).
    split; [exact Ht|]. split; [|split].
    + intros r k. now rewrite Hs, style_at_copy_formula.
    + intros r k. rewrite Hv, !value_at_copy_formula.
      rewrite (decide_False (P := (n, c) = (t, k))) by congruence.
      destruct (decide (r = n /\ k ∈ cols)) as [[-> Hin]|Hn].
      * rewrite decide_True; [reflexivity|].
        split; [reflexivity|]. apply elem_of_cons. now right.
      * destruct (decide ((n, c) = (r, k))) as [[= <- <-]|Hd].
        -- rewrite decide_True; [reflexivity|].
           split; [reflexivity|]. apply elem_of_cons. now left.
        -- rewrite decide_False; [reflexivity|].
           intros [-> Hin]. apply elem_of_cons in Hin as [->|Hin]; [congruence|tauto].
    + intros _. destruct cols as [|c' cols'].
      * simpl. apply max_row_copy_formula.
      * rewrite Hr by discriminate. rewrite max_row_copy_formula. lia.
Qed.

Lemma decide_pair_right {A} (n a k : Z) (x y : A) :
  (if decide ((n, a) = (n, k)) then x else y) = if decide (k = a) then x else y.
Proof.
  destruct (decide ((n, a) = (n, k))) as [[= <-]|Hne].
  - now rewrite decide_True.
  - rewrite decide_False; [reflexivity|]. intros ->. now apply Hne.
Qed.

Lemma not_formula_column (k : Z) :
  k = 2 \/ k = 3 \/ k = 4 \/ k = 5 \/ k = 7 \/ k = 23 -> k ∉ formula_columns.
Proof.
  intros Hk Hin. unfold formula_columns in Hin.
  repeat (apply elem_of_cons in Hin as [->|Hin]; [lia|]).
  now apply elem_of_nil in Hin.
Qed.

(** What the sheet [create_new_main_row] leaves is made of. *)
Lemma created_sheet_effects `{PyRuntime} (sh : sheet) (tbls : list table)
    (part_no lot_no prod_name : pyval) (meta : gmap str pyval) (t : option Z) :
  template_within sh t ->
  let n := max_row sh + 1 in
  let sh' := created_sheet sh tbls part_no lot_no prod_name meta t in
  tables sh' = tbls
  /\ max_row sh' = n
  /\ (forall r k, value_at sh' r k
                  = if decide (r = n)
                    then new_row_value sh part_no lot_no prod_name meta t n k
                    else value_at sh r k)
  /\ (forall r k, style_at sh' r k
                  = if decide (r = n /\ 1 <= k <= max_column sh)
                    then style_at sh (base_row sh t) k
                    else style_at sh r k).
Proof.
  intros Ht n sh'. unfold created_sheet in sh'. fold n in sh'.
  pose proof (max_row_ge_1 sh) as Hmr.
  pose proof (max_coord_ge_1 snd sh) as Hmc. fold (max_column sh) in Hmc.
  set (base := base_row sh t) in *.
  assert (Hbase : 1 <= base <= max_row sh).
  { unfold base. destruct t as [r|]; simpl in *; lia. }
  set (sh1 := Sheet (cells sh) tbls) in *.
  set (cols := range 1 (max_column sh + 1)) in *.
  set (sh2 := fold_left (copy_style_at base n) cols sh1) in *.
  destruct (copy_styles_spec base n cols sh1 ltac:(unfold n; lia))
    as (Ht2 & Hv2 & Hs2 & Hr2 & _). fold sh2 in Ht2, Hv2, Hs2, Hr2.
  assert (Hcols : cols <> []).
  { unfold cols, range. rewrite seqZ_cons by lia. discriminate. }
  specialize (Hr2 Hcols).
  change (max_row sh1) with (max_row sh) in Hr2.
  set (sh8 := assign (assign (assign (assign (assign (assign sh2
                n 2 (PStr (strip (py_str part_no))))
                n 3 (if truthy prod_name then prod_name
                     else default (PStr []) (meta !! k_name)))
                n 4 (PStr (strip (py_str lot_no))))
                n 5 (default (PStr []) (meta !! k_product_line)))
                n 7 (default PNone (meta !! k_mfg_date)))
                n 23 (default PNone (meta !! k_total_drums))) in *.
  assert (T8 : tables sh8 = tbls) by exact Ht2.
  assert (R8 : max_row sh8 = n).
  { unfold sh8. rewrite !max_row_assign, Hr2. lia. }
  assert (S8 : forall r k, style_at sh8 r k
                 = if decide (r = n /\ 1 <= k <= max_column sh)
                   then style_at sh base k else style_at sh r k).
  { intros r k. unfold sh8. rewrite !style_at_assign, Hs2.
    change (style_at sh1) with (style_at sh).
    destruct (decide (r = n /\ k ∈ cols)) as [[-> Hin]|Hn].
    - apply list_elem_of_In, range_bounds in Hin.
      rewrite decide_True; [reflexivity|]. split; [reflexivity|lia].
    - rewrite decide_False; [reflexivity|]. intros [-> Hk]. apply Hn.
      split; [reflexivity|]. apply list_elem_of_In, range_bounds. lia. }
  assert (Hblank : forall k, value_at sh n k = PNone).
  { intros k. apply beyond_max_row. unfold n. lia. }
  assert (V8 : forall r k, value_at sh8 r k
                 = if decide (r = n)
                   then new_row_value sh part_no lot_no prod_name meta None n k
                   else value_at sh r k).
  { intros r k. unfold sh8. rewrite !value_at_assign, Hv2.
    change (value_at sh1) with (value_at sh). unfold new_row_value.
    destruct (decide (r = n)) as [->|Hr].
    - rewrite !decide_pair_right, Hblank.
      repeat (case_decide; try lia; try reflexivity).
    - repeat (rewrite decide_False by congruence). reflexivity. }
  destruct t as [r0|]; unfold sh'.
  - simpl in Ht.
    destruct (copy_formulas_spec r0 n formula_columns sh8 ltac:(unfold n; lia))
      as (Tf & Sf & Vf & Rf).
    split; [congruence|]. split; [|split].
    + rewrite Rf by discriminate. rewrite R8. lia.
    + intros r k. rewrite Vf, !V8.
      rewrite (decide_False (P := r0 = n)) by (unfold n; lia).
      unfold new_row_value.
      destruct (decide (r = n)) as [->|Hr].
      * destruct (decide (k ∈ formula_columns)) as [Hin|Hout].
        -- rewrite decide_True by now split.
           repeat (case_decide;
                   [exfalso; eapply not_formula_column; [|exact Hin]; lia|]).
           reflexivity.
        -- rewrite decide_False by tauto.
           repeat (case_decide; [reflexivity|]). reflexivity.
      * rewrite decide_False by tauto. reflexivity.
    + intros r k. rewrite Sf. apply S8.
  - split; [exact T8|]. split; [exact R8|]. split; [exact V8|exact S8].
Qed.


(** A run of [create_new_main_row] that returns has made the sheet
    [created_sheet] for some tables. *)
Lemma create_new_main_row_done `{PyRuntime} (ws : worksheet) (w w1 : world)
    (part_no lot_no prod_name : pyval)
    (meta_map : gmap (str * str) (gmap str pyval)) (t : option Z) (n : Z) :
  let sh := sheet_of ws w in
  template_within sh t ->
  create_new_main_row ws part_no lot_no prod_name meta_map t w = Done n w1 ->
  n = max_row sh + 1
  /\ exists tbls,
       w1 = with_sheet ws (created_sheet sh tbls part_no lot_no prod_name
                             (meta_of meta_map part_no lot_no) t) w.
Proof.
  intros sh Ht E.
  assert (Hrun : exists tbls,
            match t with
            | Some r => extend_tables_for_new_row ws r (max_row sh + 1) w
                        = Done tt (with_sheet ws (Sheet (cells sh) tbls) w)
            | None => tbls = tables sh
            end).
  { destruct t as [r|]; [|now eexists].
    destruct (extend_tables_for_new_row ws r (max_row sh + 1) w) as [[] w0|e w0] eqn:Ee.
    - apply extend_tables_cells in Ee as [tbls ->]. now exists tbls.
    - exfalso. unfold create_new_main_row in E.
      unfold bind at 1, get_max_row at 1 in E. fold sh in E.
      rewrite (bind_raised _ _ _ _ _ Ee) in E. discriminate E. }
  destruct Hrun as [tbls Hext].
  rewrite (create_new_main_row_run ws w part_no lot_no prod_name meta_map t
             tbls Ht Hext) in E.
  fold sh in E. split; [congruence|]. exists tbls. congruence.
Qed.

(** *** Trimming *)

Lemma lstrip_fixed (s : str) :
  match s with [] => True | c :: _ => is_space c = false end -> lstrip s = s.
Proof. destruct s as [|c t]; [reflexivity|]. simpl. now intros ->. Qed.

Lemma lstrip_head (s : str) :
  match lstrip s with [] => True | c :: _ => is_space c = false end.
Proof.
  induction s as [|c t IH]; [exact I|]. simpl.
  destruct (is_space c) eqn:E; [exact IH|exact E].
Qed.

Lemma lstrip_idem (s : str) : lstrip (lstrip s) = lstrip s.
Proof. apply lstrip_fixed, lstrip_head. Qed.

Lemma lstrip_suffix (s : str) : exists p, s = p ++ lstrip s.
Proof.
  induction s as [|c t [p IH]]; [now exists []|]. simpl.
  destruct (is_space c).
  - exists (c :: p). simpl. now f_equal.
  - now exists [].
Qed.

Lemma rstrip_prefix (s : str) : exists p, s = rstrip s ++ p.
Proof.
  unfold rstrip. destruct (lstrip_suffix (rev s)) as [p Hp].
  exists (rev p). rewrite <- rev_app_distr, <- Hp. symmetry. apply rev_involutive.
Qed.

(** Trimming a trimmed text changes nothing. *)
Lemma strip_idem (s : str) : strip (strip s) = strip s.
Proof.
  unfold strip. set (a := lstrip s).
  assert (Hl : lstrip (rstrip a) = rstrip a).
  { apply lstrip_fixed. destruct (rstrip_prefix a) as [p Hp].
    pose proof (lstrip_head s) as Hh. fold a in Hh.
    destruct (rstrip a) as [|c b]; [exact I|]. rewrite Hp in Hh. exact Hh. }
  rewrite Hl. unfold rstrip. now rewrite rev_involutive, lstrip_idem.
Qed.

Lemma cell_text_stripped `{PyRuntime} (s : str) :
  cell_text (PStr (strip s)) = strip s.
Proof. unfold cell_text. rewrite loc_text_of_str. apply strip_idem. Qed.

Lemma first_matching_app `{PyRuntime} (sh : sheet) (p l : pyval) (l1 l2 : list Z) :
  Forall (fun r => matching sh p l r = false) l1 ->
  first_matching sh p l (l1 ++ l2) = first_matching sh p l l2.
Proof.
  induction 1 as [|r l1 Hr _ IH]; [reflexivity|].
  simpl app. now rewrite first_matching_cons, Hr.
Qed.

Lemma matching_row_matches `{PyRuntime} (sh : sheet) (p l : pyval) (r : Z) :
  matching sh p l r = true <-> row_matches sh p l r.
Proof.
  unfold matching, row_matches.
  rewrite andb_true_iff, !bool_decide_eq_true. reflexivity.
Qed.

(** On the sheet a creation leaves, the locator answers with the new row
    for the item code and lot of the creation, when no row matched them
    before and the sheet had two rows or more. *)
Lemma created_located `{PyRuntime} (sh : sheet) (tbls : list table)
    (p l name : pyval) (meta : gmap str pyval) (t : option Z) :
  template_within sh t ->
  2 <= max_row sh ->
  (forall x, 3 <= x <= max_row sh -> matching sh p l x = false) ->
  located (created_sheet sh tbls p l name meta t) p l = max_row sh + 1.
Proof.
  intros Ht Hrows Hnone.
  destruct (created_sheet_effects sh tbls p l name meta t Ht) as (_ & R & V & _).
  set (n := max_row sh + 1) in *.
  set (sh' := created_sheet sh tbls p l name meta t) in *.
  unfold located. rewrite R.
  assert (Hsplit : range 3 (n + 1) = range 3 n ++ [n]).
  { unfold range. replace (n + 1 - 3) with (Z.of_nat (S (Z.to_nat (n - 3))))
      by (unfold n; lia).
    rewrite seqZ_S. f_equal; [f_equal; lia|]. f_equal. lia. }
  rewrite Hsplit, first_matching_app.
  - rewrite first_matching_cons.
    assert (Hm : matching sh' p l n = true).
    { apply matching_row_matches. unfold row_matches. rewrite !V.
      rewrite !decide_True by reflexivity. unfold new_row_value.
      rewrite decide_True by reflexivity.
      rewrite (decide_False (P := 4 = 2)) by lia.
      rewrite (decide_False (P := 4 = 3)) by lia.
      rewrite decide_True by reflexivity.
      split; apply cell_text_stripped. }
    now rewrite Hm.
  - apply Forall_forall. intros x Hx.
    apply list_elem_of_In, range_bounds in Hx.
    rewrite <- (Hnone x ltac:(unfold n in Hx; lia)).
    apply matching_same; rewrite V; now rewrite decide_False by lia.
Qed.

(** A lot made by [create_new_main_row] on a sheet of two rows or more is
    found by the locator in the row that was made for it, when the
    locator did not find it before. *)
Theorem create_then_find `{PyRuntime} (ws : worksheet) (w w1 : world)
    (part_no lot_no prod_name : pyval)
    (meta_map : gmap (str * str) (gmap str pyval)) (t : option Z) (n : Z) :
  let sh := sheet_of ws w in
  template_within sh t ->
  2 <= max_row sh ->
  (forall x, 3 <= x <= max_row sh -> ~ row_matches sh part_no lot_no x) ->
  create_new_main_row ws part_no lot_no prod_name meta_map t w = Done n w1 ->
  exists w2, find_main_row ws part_no lot_no w1 = Done n w2.
Proof.
  intros sh Ht Hrows Hnone E.
  apply create_new_main_row_done in E as [-> [tbls ->]]; [|exact Ht].
  fold sh.
  destruct (find_main_row_located ws part_no lot_no
              (with_sheet ws (created_sheet sh tbls part_no lot_no prod_name
                                (meta_of meta_map part_no lot_no) t) w))
    as (w2 & E2 & _).
  exists w2. rewrite E2. f_equal. rewrite sheet_of_with_sheet.
  apply created_located; [exact Ht|exact Hrows|].
  intros x Hx. destruct (matching sh part_no lot_no x) eqn:Em; [|reflexivity].
  exfalso. apply (Hnone x Hx). now apply matching_row_matches.
Qed.

(** On a sheet whose last row is row 1 the new row is row 2, where the
    locator, which starts at row 3, never looks: after the creation every
    request is still answered with 0. *)
Theorem create_in_row_two `{PyRuntime} (ws : worksheet) (w w1 : world)
    (part_no lot_no prod_name : pyval)
    (meta_map : gmap (str * str) (gmap str pyval)) (t : option Z) (n : Z) :
  template_within (sheet_of ws w) t ->
  max_row (sheet_of ws w) = 1 ->
  create_new_main_row ws part_no lot_no prod_name meta_map t w = Done n w1 ->
  n = 2
  /\ forall p l, exists w2, find_main_row ws p l w1 = Done 0 w2.
Proof.
  intros Ht Hrow E.
  apply create_new_main_row_done in E as [-> [tbls ->]]; [|exact Ht].
  split; [lia|]. intros p l.
  destruct (find_main_row_located ws p l
              (with_sheet ws (created_sheet (sheet_of ws w) tbls part_no lot_no
                                prod_name (meta_of meta_map part_no lot_no) t) w))
    as (w2 & E2 & _).
  exists w2. rewrite E2. f_equal. rewrite sheet_of_with_sheet.
  destruct (created_sheet_effects (sheet_of ws w) tbls part_no lot_no prod_name
              (meta_of meta_map part_no lot_no) t Ht) as (_ & R & _).
  unfold located. rewrite R, Hrow. reflexivity.
Qed.

(** ** Worksheets apart *)

Lemma confined_ret {A} (ws : worksheet) (a : A) : confined ws (ret a).
Proof. intros w ws' _. reflexivity. Qed.

Lemma confined_raise {A} (ws : worksheet) (e : exn) : confined ws (@raise A e).
Proof. intros w ws' _. reflexivity. Qed.

Lemma confined_bind {A B} (ws : worksheet) (m : Py A) (k : A -> Py B) :
  confined ws m -> (forall a, confined ws (k a)) -> confined ws (bind m k).
Proof.
  intros Hm Hk w ws' Hne. unfold bind. specialize (Hm w ws' Hne).
  destruct (m w) as [a w1|e w1]; simpl in *; [|exact Hm].
  rewrite (Hk a w1 ws' Hne). exact Hm.
Qed.

Lemma confined_run {A} (ws : worksheet) (r : exn + A) : confined ws (run r).
Proof. destruct r; [apply confined_raise|apply confined_ret]. Qed.

Lemma confined_for_each {A} (ws : worksheet) (xs : list A) (body : A -> Py unit) :
  (forall x, confined ws (body x)) -> confined ws (for_each xs body).
Proof.
  intros Hb. induction xs as [|x xs IH]; [apply confined_ret|].
  cbn [for_each]. apply confined_bind; [apply Hb|intros _; exact IH].
Qed.

Lemma confined_for_fold {A S} (ws : worksheet) (xs : list A) (acc : S)
    (body : S -> A -> Py S) :
  (forall s x, confined ws (body s x)) -> confined ws (for_fold xs acc body).
Proof.
  intros Hb. revert acc. induction xs as [|x xs IH]; intros acc;
    [apply confined_ret|].
  cbn [for_fold]. apply confined_bind; [apply Hb|intros a; apply IH].
Qed.

Lemma confined_with_sheet {A} (ws : worksheet) (f : world -> A) (g : world -> sheet) :
  confined ws (fun w => Done (f w) (with_sheet ws (g w) w)).
Proof. intros w ws' Hne. simpl. apply sheet_of_with_other. congruence. Qed.

Lemma confined_set_cell (ws : worksheet) (row col : Z) (c : cell) :
  confined ws (set_cell ws row col c).
Proof. intros w ws' Hne. simpl. apply sheet_of_with_other. congruence. Qed.

Lemma confined_ws_cell (ws : worksheet) (row col : Z) (v : pyval) :
  confined ws (ws_cell ws row col v).
Proof.
  unfold ws_cell. destruct (_ || _); [apply confined_raise|].
  intros w ws' Hne. simpl. apply sheet_of_with_other. congruence.
Qed.

Lemma confined_get_max_row (ws : worksheet) : confined ws (get_max_row ws).
Proof. intros w ws' _. reflexivity. Qed.

Lemma confined_get_max_column (ws : worksheet) : confined ws (get_max_column ws).
Proof. intros w ws' _. reflexivity. Qed.

Lemma confined_get_tables (ws : worksheet) : confined ws (get_tables ws).
Proof. intros w ws' _. reflexivity. Qed.

Lemma confined_set_tables (ws : worksheet) (tbls : list table) :
  confined ws (set_tables ws tbls).
Proof. intros w ws' Hne. simpl. apply sheet_of_with_other. congruence. Qed.

Lemma confined_st_message (ws : worksheet) (m : message) :
  confined ws (st_message m).
Proof. intros w ws' _. now destruct ws'. Qed.

Lemma confined_dict_item {K A} `{Countable K} (ws : worksheet) (d : gmap K A) (k : K) :
  confined ws (dict_item d k).
Proof. unfold dict_item. destruct (d !! k); [apply confined_ret|apply confined_raise]. Qed.

Ltac confine :=
  repeat first
    [ apply confined_ret | apply confined_raise | apply confined_run
    | apply confined_ws_cell | apply confined_set_cell
    | apply confined_get_max_row | apply confined_get_max_column
    | apply confined_get_tables | apply confined_set_tables
    | apply confined_st_message | apply confined_dict_item
    | apply confined_for_each; intros
    | apply confined_for_fold; intros
    | apply confined_bind; [|intros]
    | match goal with
      | |- confined _ (match ?x with _ => _ end) => destruct x
      | |- confined _ (if ?b then _ else _) => destruct b
      | |- confined _ (let '(_, _) := ?x in _) => destruct x
      end ].

Lemma confined_find_main_row `{PyRuntime} (ws : worksheet) (p l : pyval) :
  confined ws (find_main_row ws p l).
Proof.
  unfold find_main_row. confine.
  match goal with |- confined _ (find_main_row_loop _ _ _ ?rows) =>
    generalize rows end.
  intros rows. induction rows as [|r rows IH]; cbn [find_main_row_loop]; confine.
  exact IH.
Qed.

Lemma confined_get_template_row `{PyRuntime} (ws : worksheet) :
  confined ws (get_template_row ws).
Proof.
  unfold get_template_row. confine.
  match goal with |- confined _ (get_template_row_loop _ ?rows) =>
    generalize rows end.
  intros rows. induction rows as [|r rows IH]; cbn [get_template_row_loop]; confine.
  exact IH.
Qed.

Lemma confined_extend_tables `{PyRuntime} (ws : worksheet) (t n : Z) :
  confined ws (extend_tables_for_new_row ws t n).
Proof. unfold extend_tables_for_new_row, extend_at. confine. Qed.

Lemma confined_apply_drum_update `{PyRuntime} (ws : worksheet) (row d : Z)
    (q loc : pyval) :
  confined ws (apply_drum_update_to_main ws row d q loc).
Proof.
  unfold apply_drum_update_to_main, get_drum_col_letters, write_drum_slot. confine.
Qed.

Lemma confined_copy_row_style (ws : worksheet) (src dst max_col : Z) :
  confined ws (copy_row_style ws src dst max_col).
Proof. unfold copy_row_style. confine. Qed.

Lemma confined_append_log_row `{PyRuntime} (ws : worksheet) (row : gmap str pyval) :
  confined ws (append_log_row ws row).
Proof.
  unfold append_log_row, read_headers, header_step. confine.
Qed.

Lemma confined_create_new_main_row `{PyRuntime} (ws : worksheet)
    (p l name : pyval) (meta_map : gmap (str * str) (gmap str pyval))
    (t : option Z) :
  confined ws (create_new_main_row ws p l name meta_map t).
Proof.
  unfold create_new_main_row, ws_setitem, ws_item. confine;
    try apply confined_extend_tables; try apply confined_copy_row_style.
Qed.

Lemma confined_read_log_times (ws : worksheet) : confined ws (read_log_times ws).
Proof. unfold read_log_times, log_time_step. confine. Qed.

(** ** The audit log row by row *)

Lemma write_values_max_column (new_r : Z) (hm : gmap str Z)
    (entries : list (str * pyval)) (sh : sheet) :
  (forall hdr c, hm !! hdr = Some c -> c <= max_column sh) ->
  max_column (fold_left (write_value new_r hm) entries sh) = max_column sh.
Proof.
  intros Hhm. revert sh Hhm. induction entries as [|e entries IH]; intros sh Hhm;
    [reflexivity|].
  cbn [fold_left].
  assert (E : max_column (write_value new_r hm sh e) = max_column sh).
  { unfold write_value. destruct (hm !! e.1) as [col|] eqn:Ec; [|reflexivity].
    rewrite max_column_touch. specialize (Hhm _ _ Ec). lia. }
  rewrite IH; [exact E|]. intros hdr c Hc. rewrite E. eauto.
Qed.

(** [append_log_row] returns, and the sheet it leaves has one row more,
    with the fields of the record under their headers; it has the same
    columns, tables and former rows. *)
Lemma append_log_row_run `{PyRuntime} (ws : worksheet) (w : world)
    (log_row : gmap str pyval) :
  let sh := sheet_of ws w in
  let new_r := max_row sh + 1 in
  exists w',
    append_log_row ws log_row w = Done tt w'
    /\ max_row (sheet_of ws w') = new_r
    /\ max_column (sheet_of ws w') = max_column sh
    /\ tables (sheet_of ws w') = tables sh
    /\ (forall r c, r <> new_r ->
          value_at (sheet_of ws w') r c = value_at sh r c
          /\ style_at (sheet_of ws w') r c = style_at sh r c)
    /\ (forall hdr val c,
          (hdr, val) ∈ value_map log_row -> header_column sh hdr = Some c ->
          value_at (sheet_of ws w') new_r c = val).
Proof.
  intros sh new_r.
  destruct (read_headers_spec ws w) as (hm & w1 & E1 & (U1 & R1 & C1) & Hhm).
  fold sh in E1, R1, C1, Hhm.
  pose proof (max_row_ge_1 sh) as Hlast.
  pose proof (max_coord_ge_1 snd sh) as Hmc. fold (max_column sh) in Hmc.
  set (cols := range 1 (max_column sh + 1)).
  set (sh1 := sheet_of ws w1) in *.
  set (sh2 := fold_left (copy_style_at (max_row sh) new_r) cols sh1).
  set (sh3 := fold_left (write_value new_r hm) (value_map log_row) sh2).
  assert (Hpos : forall hdr c, hm !! hdr = Some c -> 1 <= c <= max_column sh).
  { intros hdr c Hc. rewrite Hhm in Hc. apply header_column_sound in Hc. lia. }
  assert (E : append_log_row ws log_row w = Done tt (with_sheet ws sh3 w1)).
  { unfold append_log_row. unfold bind at 1, get_max_column at 1. fold sh.
    rewrite (bind_done _ _ _ _ _ E1).
    unfold bind at 1, get_max_row at 1. fold sh1. rewrite R1.
    destruct (Z.ltb_spec (max_row sh) 1) as [|_]; [lia|].
    rewrite (bind_done _ _ _ _ _
               (copy_row_style_done ws (max_row sh) new_r (max_column sh) w1
                  Hlast ltac:(unfold new_r; lia))).
    fold sh1 cols sh2.
    rewrite (write_values_done ws new_r hm (value_map log_row) _
               ltac:(unfold new_r; lia) ltac:(intros hdr c Hc; apply Hpos in Hc; lia)).
    now rewrite sheet_of_with_sheet, with_sheet_twice. }
  exists (with_sheet ws sh3 w1). split; [exact E|].
  rewrite sheet_of_with_sheet.
  pose proof (unchanged_sheet_of ws _ _ U1) as [Ht1 Hc1]. fold sh sh1 in Ht1, Hc1.
  destruct (copy_styles_spec (max_row sh) new_r cols sh1 ltac:(unfold new_r; lia))
    as (Ht2 & Hv2 & Hs2 & Hr2 & Hm2). fold sh2 in Ht2, Hv2, Hs2, Hr2, Hm2.
  destruct (write_values_spec new_r hm (value_map log_row) sh2)
    as (Ht3 & Hs3 & Hv3 & Hr3). fold sh3 in Ht3, Hs3, Hv3, Hr3.
  assert (Hcols : cols <> []).
  { unfold cols, range. rewrite seqZ_cons by lia. discriminate. }
  specialize (Hr2 Hcols). rewrite R1 in Hr2.
  assert (Hm2' : max_column sh2 = max_column sh).
  { rewrite Hm2, C1; [reflexivity|]. rewrite C1.
    apply Forall_forall. intros c Hc. apply list_elem_of_In, range_bounds in Hc. lia. }
  assert (Hblank : forall c, value_at sh2 new_r c = PNone).
  { intros c. rewrite Hv2. destruct (Hc1 new_r c) as [-> _].
    apply beyond_max_row. unfold new_r. lia. }
  split; [unfold new_r in *; lia|].
  split; [|split; [congruence|split]].
  - unfold sh3. rewrite write_values_max_column; [exact Hm2'|].
    intros hdr c Hc. rewrite Hm2'. apply Hpos in Hc. lia.
  - intros r c Hr. split.
    + rewrite Hv3, write_steps_other_row by exact Hr. rewrite Hv2. apply Hc1.
    + rewrite Hs3, Hs2. rewrite decide_False by tauto. apply Hc1.
  - intros hdr val c Hin Hcol.
    rewrite Hv3, Hblank, (write_steps_unique new_r hm c val).
    + rewrite decide_True; [now destruct val|].
      apply Exists_exists. exists (hdr, val). split; [exact Hin|].
      simpl. now rewrite Hhm.
    + intros [h v] He Hc. simpl in *.
      rewrite Hhm in Hc. apply header_column_sound in Hc as [_ Hh].
      apply header_column_sound in Hcol as [_ Hh'].
      assert (h = hdr) as -> by congruence.
      eapply value_map_functional; eassumption.
Qed.

(** A sheet with the same first row and the same last column has the same
    header map. *)
Lemma header_column_same `{PyRuntime} (sh sh' : sheet) (hdr : str) :
  max_column sh' = max_column sh ->
  (forall c, value_at sh' 1 c = value_at sh 1 c) ->
  header_column sh' hdr = header_column sh hdr.
Proof.
  intros Hm Hv. unfold header_column. rewrite Hm. f_equal.
  apply list_filter_iff. intros c. unfold header_text. now rewrite Hv.
Qed.

(** ** The replay loop *)

Lemma rows_kept_refl (m : sheet) : rows_kept m m.
Proof. split; [lia|]. intros r k _. split; reflexivity. Qed.

Lemma rows_kept_trans (a b c : sheet) :
  rows_kept a b -> rows_kept b c -> rows_kept a c.
Proof.
  intros [Hab Kab] [Hbc Kbc]. split; [lia|]. intros r k Hr.
  destruct (Kab r k Hr) as [Sab Vab].
  destruct (Kbc r k ltac:(lia)) as [Sbc Vbc].
  split; [congruence|]. intros Hk. rewrite Vbc, Vab by exact Hk. reflexivity.
Qed.

Lemma rows_kept_reads (ws : worksheet) (w w' : world) :
  reads ws w w' -> rows_kept (sheet_of ws w) (sheet_of ws w').
Proof.
  intros ([_ Hc] & Hm & _). split; [lia|]. intros r k _.
  destruct (Hc r k) as [-> ->]. split; reflexivity.
Qed.

Lemma template_within_mono (m m' : sheet) (t : option Z) :
  max_row m <= max_row m' -> template_within m t -> template_within m' t.
Proof. destruct t as [r|]; simpl; [lia|trivial]. Qed.

Lemma apply_writes_max_row_ge (l : list cell_write) (sh : sheet) :
  max_row sh <= max_row (fold_left apply_write l sh).
Proof.
  revert sh. induction l as [|x l IH]; intros sh; [simpl; lia|].
  cbn [fold_left]. etransitivity; [|apply IH].
  unfold apply_write. rewrite max_row_touch. lia.
Qed.

(** A drum-slot update that returns keeps every row of the sheet, with
    its styles and its columns [A] to [W]. *)
Lemma drum_update_rows_kept `{PyRuntime} (ws : worksheet) (w w' : world)
    (row d : Z) (q loc : pyval) :
  apply_drum_update_to_main ws row d q loc w = Done tt w' ->
  rows_kept (sheet_of ws w) (sheet_of ws w').
Proof.
  intros E. destruct (decide (1 <= d <= 20)) as [Hd|Hd].
  - destruct (Z_lt_ge_dec row 1) as [Hlt|Hrow].
    { rewrite drum_update_row_below in E by assumption. discriminate E. }
    rewrite write_drum_slot_run in E by lia.
    destruct (py_float (py_or q (PInt 0))) as [e|qty]; [discriminate E|].
    assert (E' : w' = with_sheet ws (fold_left apply_write
                   (slot_writes row d qty loc) (sheet_of ws w)) w) by congruence.
    rewrite E', sheet_of_with_sheet. split; [apply apply_writes_max_row_ge|].
    intros r k _. split; [apply apply_writes_style|]. intros Hk.
    apply apply_writes_value_other.
    eapply Forall_impl; [apply slot_writes_where|].
    simpl. intros [[rx cx] vx]. simpl. intros [_ Hc] [= _ ->]. lia.
  - unfold apply_drum_update_to_main, get_drum_col_letters in E.
    assert (Hb : (d <? 1) || (20 <? d) = true).
    { destruct (Z.ltb_spec d 1); [reflexivity|].
      destruct (Z.ltb_spec 20 d); [reflexivity|lia]. }
    rewrite Hb in E. unfold st_message in E.
    assert (E' : w' = World (main_sheet w) (log_sheet w)
                        (console w ++ [WarnDrumOutOfRange d])) by congruence.
    rewrite E'. destruct ws; apply rows_kept_refl.
Qed.

Lemma created_rows_kept `{PyRuntime} (sh : sheet) (tbls : list table)
    (p l name : pyval) (meta : gmap str pyval) (t : option Z) :
  template_within sh t ->
  rows_kept sh (created_sheet sh tbls p l name meta t).
Proof.
  intros Ht.
  destruct (created_sheet_effects sh tbls p l name meta t Ht) as (_ & R & V & S).
  split; [lia|]. intros r k Hr. rewrite V, S.
  rewrite !decide_False by lia. split; reflexivity.
Qed.

(** The locator answers with 0 or with a row that matches. *)
Lemma first_matching_in `{PyRuntime} (sh : sheet) (p l : pyval) (rows : list Z) :
  first_matching sh p l rows = 0
  \/ (first_matching sh p l rows ∈ rows
      /\ matching sh p l (first_matching sh p l rows) = true).
Proof.
  induction rows as [|r rows IH]; [now left|].
  rewrite first_matching_cons. destruct (matching sh p l r) eqn:Em.
  - right. split; [left|exact Em].
  - destruct IH as [IH|[IH Hm]]; [now left|right]. split; [now right|exact Hm].
Qed.

Lemma located_bounds `{PyRuntime} (sh : sheet) (p l : pyval) :
  located sh p l <> 0 ->
  3 <= located sh p l <= max_row sh /\ matching sh p l (located sh p l) = true.
Proof.
  intros Hne. unfold located in *.
  destruct (first_matching_in sh p l (range 3 (max_row sh + 1))) as [E|[Hin Hm]];
    [contradiction|].
  apply list_elem_of_In, range_bounds in Hin. split; [lia|exact Hm].
Qed.

Lemma located_zero `{PyRuntime} (sh : sheet) (p l : pyval) :
  located sh p l = 0 ->
  forall x, 3 <= x <= max_row sh -> matching sh p l x = false.
Proof.
  unfold located. intros E x Hx.
  assert (Hin : In x (range 3 (max_row sh + 1))) by (apply range_bounds; lia).
  assert (Hpos : Forall (fun r => r <> 0) (range 3 (max_row sh + 1)))
    by (apply range_Forall; intros; lia).
  revert E Hin Hpos. generalize (range 3 (max_row sh + 1)). intros rows.
  induction rows as [|r rows IH]; intros E Hin Hpos; [destruct Hin|].
  rewrite first_matching_cons in E. apply Forall_cons in Hpos as [Hr Hpos].
  destruct (matching sh p l r) eqn:Em; [contradiction|].
  destruct Hin as [->|Hin]; [exact Em|now apply IH].
Qed.

Lemma first_matching_app_hit `{PyRuntime} (sh : sheet) (p l : pyval)
    (l1 l2 : list Z) :
  first_matching sh p l l1 <> 0 ->
  first_matching sh p l (l1 ++ l2) = first_matching sh p l l1.
Proof.
  induction l1 as [|r l1 IH]; intros Hne; [now contradiction Hne|].
  simpl app. rewrite !first_matching_cons in *.
  destruct (matching sh p l r); [reflexivity|now apply IH].
Qed.

(** A lot the locator finds stays where it is found when the rows of the
    sheet are kept. *)
Lemma located_kept `{PyRuntime} (m m' : sheet) (p l : pyval) :
  rows_kept m m' -> located m p l <> 0 -> located m' p l = located m p l.
Proof.
  intros [Hle K] Hne. pose proof (located_bounds m p l Hne) as [Hb _].
  unfold located in *.
  assert (Hsplit : range 3 (max_row m' + 1)
                   = range 3 (max_row m + 1)
                     ++ range (max_row m + 1) (max_row m' + 1)).
  { unfold range.
    replace (max_row m' + 1 - 3)
      with ((max_row m + 1 - 3) + (max_row m' + 1 - (max_row m + 1))) by lia.
    rewrite seqZ_app by lia. do 2 f_equal; lia. }
  assert (Hsame : first_matching m' p l (range 3 (max_row m + 1))
                  = first_matching m p l (range 3 (max_row m + 1))).
  { apply first_matching_same, range_Forall. intros r Hr.
    destruct (K r 2 ltac:(lia)) as [_ H2]. destruct (K r 4 ltac:(lia)) as [_ H4].
    split; [apply H2|apply H4]; lia. }
  rewrite Hsplit, first_matching_app_hit; rewrite Hsame; [reflexivity|exact Hne].
Qed.

Lemma dict_item_done {K A} `{Countable K} (d : gmap K A) (k : K) (a : A)
    (w w' : world) :
  dict_item d k w = Done a w' -> w' = w /\ d !! k = Some a.
Proof.
  unfold dict_item. destruct (d !! k); [|discriminate].
  unfold ret. intros [= -> ->]. now split.
Qed.

Lemma run_done {A} (r : exn + A) (a : A) (w w' : world) :
  run r w = Done a w' -> w' = w /\ r = inr a.
Proof. destruct r; [discriminate|]. unfold run, ret. intros [= -> ->]. now split. Qed.

Lemma replay_tail_inv `{PyRuntime} (row_no drum_no : Z) (new_qty loc : pyval)
    (row : gmap str pyval) (t1 t' : option Z) (w2 w' : world) :
  match apply_drum_update_to_main WsMain row_no drum_no new_qty loc w2 with
  | Done _ w3 =>
      match append_log_row WsLog row w3 with
      | Done _ w4 => ret t1 w4
      | Raised e w4 => Raised e w4
      end
  | Raised e w3 => Raised e w3
  end = Done t' w' ->
  t' = t1
  /\ exists wa,
       append_log_row WsLog row wa = Done tt w'
       /\ log_sheet wa = log_sheet w2
       /\ rows_kept (main_sheet w2) (main_sheet wa).
Proof.
  intros E.
  destruct (apply_drum_update_to_main WsMain row_no drum_no new_qty loc w2)
    as [[] w3|] eqn:Ea; [|discriminate].
  destruct (append_log_row WsLog row w3) as [[] w4|] eqn:Eap; [|discriminate].
  unfold ret in E. split; [congruence|]. assert (w4 = w') as -> by congruence.
  exists w3. split; [exact Eap|].
  pose proof (confined_apply_drum_update WsMain row_no drum_no new_qty loc
                w2 WsLog ltac:(discriminate)) as Hl.
  rewrite Ea in Hl. cbn [state_of sheet_of] in Hl.
  pose proof (drum_update_rows_kept _ _ _ _ _ _ _ Ea) as Ka. cbn [sheet_of] in Ka.
  split; assumption.
Qed.

(** One record replayed: what came before the append kept the rows of the
    ledger and did not touch the log sheet. *)
Lemma replay_row_inv `{PyRuntime} (meta_map : gmap (str * str) (gmap str pyval))
    (t t' : option Z) (row : gmap str pyval) (w w' : world) :
  template_within (main_sheet w) t ->
  replay_row WsMain WsLog meta_map t row w = Done t' w' ->
  exists wa,
    append_log_row WsLog row wa = Done tt w'
    /\ log_sheet wa = log_sheet w
    /\ rows_kept (main_sheet w) (main_sheet wa)
    /\ template_within (main_sheet wa) t'
    /\ (2 <= max_row (main_sheet w) ->
        forall vp vl, row !! k_part_no = Some vp -> row !! k_lot_no = Some vl ->
          located (main_sheet wa) (PStr (strip (py_str vp)))
            (PStr (strip (py_str vl))) <> 0).
Proof.
  intros Ht E. unfold replay_row, bind in E.
  destruct (dict_item row k_part_no w) as [v_part w1|] eqn:E1; [|discriminate].
  apply dict_item_done in E1 as [-> Hpart].
  destruct (dict_item row k_lot_no w) as [v_lot w1|] eqn:E1; [|discriminate].
  apply dict_item_done in E1 as [-> Hlot].
  destruct (dict_item row k_drum_no w) as [v_drum w1|] eqn:E1; [|discriminate].
  apply dict_item_done in E1 as [-> _].
  destruct (run (py_int v_drum) w) as [drum_no w1|] eqn:E1; [|discriminate].
  apply run_done in E1 as [-> _].
  destruct (dict_item row k_qty_after w) as [new_qty w1|] eqn:E1; [|discriminate].
  apply dict_item_done in E1 as [-> _].
  destruct (dict_item row k_loc_after w) as [v_loc w1|] eqn:E1; [|discriminate].
  apply dict_item_done in E1 as [-> _].
  set (p := PStr (strip (py_str v_part))) in *.
  set (l := PStr (strip (py_str v_lot))) in *.
  destruct (find_main_row_located WsMain p l w) as (wf & Ef & Rf).
  rewrite Ef in E.
  pose proof (rows_kept_reads _ _ _ Rf) as Kf. cbn [sheet_of] in Kf.
  pose proof Rf as (_ & Mf & Of & _). cbn [sheet_of] in Mf.
  specialize (Of WsLog ltac:(discriminate)). cbn [sheet_of] in Of.
  destruct (located (sheet_of WsMain w) p l =? 0) eqn:Ez.
  - unfold st_message in E.
    set (w0 := World (main_sheet wf) (log_sheet wf)
                 (console wf ++ [WriteNewLot (strip (py_str v_part))
                                   (strip (py_str v_lot))])) in *.
    set (name := PStr (strip (py_str (py_or (default (PStr []) (row !! k_name))
                                        (PStr []))))) in *.
    destruct (create_new_main_row WsMain p l name meta_map t w0)
      as [n w3|] eqn:Ec; [|discriminate].
    unfold ret at 1 in E. cbn [fst snd] in E.
    assert (Ht0 : template_within (sheet_of WsMain w0) t).
    { cbn [sheet_of main_sheet w0]. eapply template_within_mono; [|exact Ht]. lia. }
    pose proof (create_new_main_row_done _ _ _ _ _ _ _ _ _ Ht0 Ec)
      as [Hn [tbls Hw3]].
    destruct (created_sheet_effects (sheet_of WsMain w0) tbls p l name
                (meta_of meta_map p l) t Ht0) as (_ & R & _).
    pose proof (created_rows_kept (sheet_of WsMain w0) tbls p l name
                (meta_of meta_map p l) t Ht0) as Kc.
    apply replay_tail_inv in E as (-> & wa & Eap & La & Ka).
    exists wa. split; [exact Eap|].
    rewrite Hw3 in La, Ka.
    cbn [with_sheet log_sheet main_sheet sheet_of w0] in La, Ka, R, Kc, Hn.
    split; [now rewrite La|].
    split; [eapply rows_kept_trans; [exact Kf|];
            eapply rows_kept_trans; [exact Kc|exact Ka]|].
    split.
    { unfold template_within. destruct Ka as [Ka _]. rewrite R in Ka.
      pose proof (max_row_ge_1 (main_sheet wf)). lia. }
    intros Hrows vp vl Hvp Hvl.
    assert (vp = v_part) as -> by congruence.
    assert (vl = v_lot) as -> by congruence. fold p l.
    apply Z.eqb_eq in Ez. cbn [sheet_of] in Ez.
    assert (Hnew : located (created_sheet (main_sheet wf) tbls p l name
                              (meta_of meta_map p l) t) p l
                   = max_row (main_sheet wf) + 1).
    { apply created_located; [exact Ht0|lia|]. intros x Hx.
      rewrite <- (located_zero (main_sheet w) p l Ez x ltac:(lia)).
      destruct Rf as ([_ Hc] & _). cbn [sheet_of] in Hc.
      apply matching_same; apply Hc. }
    rewrite (located_kept _ _ p l Ka); rewrite Hnew;
      pose proof (max_row_ge_1 (main_sheet wf)); lia.
  - unfold ret at 1 in E. cbn [fst snd] in E.
    apply replay_tail_inv in E as (-> & wa & Eap & La & Ka).
    exists wa. split; [exact Eap|]. split; [congruence|].
    split; [eapply rows_kept_trans; eassumption|].
    split; [eapply template_within_mono; [|exact Ht]; destruct Ka as [Ka _]; lia|].
    intros _ vp vl Hvp Hvl.
    assert (vp = v_part) as -> by congruence.
    assert (vl = v_lot) as -> by congruence. fold p l.
    apply Z.eqb_neq in Ez. cbn [sheet_of] in Ez.
    rewrite (located_kept (main_sheet w) (main_sheet wa) p l); [exact Ez| |exact Ez].
    eapply rows_kept_trans; eassumption.
Qed.

(** The replay loop over the records [logs]: the rows of the ledger are
    kept; the log sheet gains one row per record, in order, each with the
    fields of its record under their headers, and keeps its columns,
    tables and former rows. *)
Lemma replay_loop_inv `{PyRuntime} (meta_map : gmap (str * str) (gmap str pyval))
    (logs : list timed_row) (st st' : option Z * Z) (w w' : world) :
  template_within (main_sheet w) st.1 ->
  for_fold logs st (replay_step WsMain WsLog meta_map) w = Done st' w' ->
  let l := log_sheet w in
  let l' := log_sheet w' in
  rows_kept (main_sheet w) (main_sheet w')
  /\ max_row l' = max_row l + Z.of_nat (length logs)
  /\ max_column l' = max_column l
  /\ tables l' = tables l
  /\ (forall r c, r <= max_row l ->
        value_at l' r c = value_at l r c /\ style_at l' r c = style_at l r c)
  /\ (forall i row hdr val c,
        logs !! i = Some row -> (hdr, val) ∈ value_map row.2 ->
        header_column l hdr = Some c ->
        value_at l' (max_row l + 1 + Z.of_nat i) c = val)
  /\ (2 <= max_row (main_sheet w) ->
      forall row vp vl, row ∈ logs ->
        row.2 !! k_part_no = Some vp -> row.2 !! k_lot_no = Some vl ->
        located (main_sheet w') (PStr (strip (py_str vp)))
          (PStr (strip (py_str vl))) <> 0).
Proof.
  revert st w. induction logs as [|row logs IH]; intros st w Ht E; cbn zeta.
  - simpl in E. unfold ret in E. injection E as _ <-.
    split; [apply rows_kept_refl|]. split; [simpl; lia|].
    do 3 (split; [reflexivity || (intros; split; reflexivity)|]).
    split; [intros i row' hdr val c Hi; discriminate Hi|].
    intros _ row vp vl Hin. now apply elem_of_nil in Hin.
  - cbn [for_fold] in E. unfold bind at 1 in E.
    destruct (replay_step WsMain WsLog meta_map st row w) as [st1 w1|] eqn:E1;
      [|discriminate].
    unfold replay_step, bind in E1.
    destruct (replay_row WsMain WsLog meta_map st.1 row.2 w) as [t1 w1'|] eqn:Er;
      [|discriminate].
    unfold ret in E1. injection E1 as <- <-.
    destruct (replay_row_inv _ _ _ _ _ _ Ht Er) as (wa & Eap & La & Ka & Ta & Pa).
    destruct (append_log_row_run WsLog wa row.2)
      as (w1 & Eap' & R1 & C1 & T1 & V1 & F1).
    assert (w1 = w1') as <- by congruence.
    cbn [sheet_of] in R1, C1, T1, V1, F1. rewrite La in R1, C1, T1, V1, F1.
    pose proof (confined_append_log_row WsLog row.2 wa WsMain ltac:(discriminate))
      as Hm.
    rewrite Eap in Hm. cbn [state_of sheet_of] in Hm.
    destruct (IH (t1, st.2 + 1) w1 ltac:(simpl; now rewrite Hm) E)
      as (K' & R' & C' & T' & V' & F' & P').
    pose proof (max_row_ge_1 (log_sheet w)) as Hge.
    split; [eapply rows_kept_trans; [exact Ka|]; now rewrite <- Hm|].
    split; [rewrite R', R1; simpl length; lia|].
    split; [congruence|]. split; [congruence|]. split; [|split].
    + intros r c Hr. destruct (V' r c ltac:(lia)) as [-> ->].
      apply V1. lia.
    + intros i row' hdr val c Hi Hin Hc. destruct i as [|i].
      * injection Hi as <-.
        destruct (V' (max_row (log_sheet w) + 1) c ltac:(lia)) as [Hv _].
        replace (max_row (log_sheet w) + 1 + Z.of_nat 0)
          with (max_row (log_sheet w) + 1) by lia.
        rewrite Hv. eapply F1; eassumption.
      * simpl in Hi.
        replace (max_row (log_sheet w) + 1 + Z.of_nat (S i))
          with (max_row (log_sheet w1) + 1 + Z.of_nat i) by lia.
        eapply F'; [exact Hi|exact Hin|].
        rewrite <- Hc. apply header_column_same; [exact C1|].
        intros k. apply V1. lia.
    + intros Hrows row' vp vl Hin Hvp Hvl.
      assert (Hrows1 : 2 <= max_row (main_sheet w1))
        by (rewrite Hm; destruct Ka as [Ka _]; lia).
      apply elem_of_cons in Hin as [->|Hin].
      * rewrite (located_kept (main_sheet w1) (main_sheet w') _ _ K');
          rewrite Hm; now apply Pa.
      * now apply (P' Hrows1 row' vp vl).
Qed.

(** ** The run as a whole *)

Lemma read_log_times_columns (ws : worksheet) (rows : list Z)
    (acc ts : list datetime) (w w' : world) :
  for_fold rows acc (log_time_step ws) w = Done ts w' ->
  max_column (sheet_of ws w') = max_column (sheet_of ws w).
Proof.
  revert acc w. induction rows as [|r rows IH]; intros acc w E.
  - simpl in E. unfold ret in E. now injection E as _ <-.
  - cbn [for_fold] in E. unfold bind at 1 in E.
    destruct (log_time_step ws acc r w) as [acc1 w1|] eqn:E1; [|discriminate].
    apply IH in E. rewrite E. clear E IH.
    unfold log_time_step in E1.
    destruct (Z_lt_ge_dec r 1) as [Hlt|Hge].
    { unfold bind, ws_cell in E1. destruct (Z.ltb_spec r 1); [discriminate E1|lia]. }
    rewrite (bind_done _ _ _ _ _ (ws_cell_done ws r 1 PNone w ltac:(lia) ltac:(lia)))
      in E1.
    assert (Hw : w1 = with_sheet ws (touch (sheet_of ws w) r 1 PNone) w).
    { destruct (value (assigned (sheet_of ws w) r 1 PNone));
        unfold ret in E1; congruence. }
    rewrite Hw, sheet_of_with_sheet, max_column_touch.
    pose proof (max_coord_ge_1 snd (sheet_of ws w)). unfold max_column. lia.
Qed.

Lemma get_template_row_within `{PyRuntime} (ws : worksheet) (w : world) :
  exists t w',
    get_template_row ws w = Done t w' /\ reads ws w w'
    /\ template_within (sheet_of ws w') t.
Proof.
  unfold get_template_row, bind, get_max_row, range_down.
  set (sh := sheet_of ws w).
  destruct (Z_le_gt_dec 3 (max_row sh)) as [Hge|Hlt].
  - replace (2 + 1) with 3 by lia.
    replace (max_row sh - 2) with (Z.of_nat (Z.to_nat (max_row sh - 2))) by lia.
    destruct (get_template_row_loop_scan ws (Z.to_nat (max_row sh - 2)) 3 w
                ltac:(lia) ltac:(fold sh; lia)) as (t & w' & E & R & Ht).
    exists t, w'. split; [exact E|]. split; [exact R|].
    destruct R as (_ & Mr & _). fold sh in Ht, Mr.
    destruct t as [r|]; simpl; [rewrite Mr; lia|exact I].
  - rewrite seqZ_nil by lia. exists None, w. split; [reflexivity|].
    split; [apply reads_refl|exact I].
Qed.

Lemma required_cols_check (df_log : dataframe) :
  forallb (fun col => bool_decide (col ∈ columns df_log)) required_cols = true
  <-> forall col, col ∈ required_cols -> col ∈ columns df_log.
Proof.
  rewrite forallb_forall. split.
  - intros Hc col Hin. apply list_elem_of_In in Hin.
    now apply Hc, bool_decide_eq_true in Hin.
  - intros Hc col Hin. apply bool_decide_eq_true, Hc. now apply list_elem_of_In.
Qed.

(** The run up to the replay loop: both sheets are read and keep their
    content and their bounds. *)
Lemma process_run `{PyRuntime} (meta_map : gmap (str * str) (gmap str pyval))
    (wb : gmap str sheet) (df_log : dataframe) (m l : sheet) :
  wb !! sheet_main = Some m ->
  wb !! sheet_log = Some l ->
  let logs := new_logs (watermark (log_times l)) (prepared_rows df_log) in
  exists t w2,
    template_within (main_sheet w2) t
    /\ same_content m (main_sheet w2)
    /\ max_row (main_sheet w2) = max_row m
    /\ same_content l (log_sheet w2)
    /\ max_row (log_sheet w2) = max_row l
    /\ max_column (log_sheet w2) = max_column l
    /\ console w2 = []
    /\ process_bulk_log_streamlit meta_map wb df_log
       = if forallb (fun col => bool_decide (col ∈ columns df_log)) required_cols
         then match logs with
              | [] => Returned (save wb w2) 0 [InfoNoNewLogs]
              | _ :: _ =>
                  match replay WsMain WsLog meta_map t logs w2 with
                  | Done n w' => Returned (save wb w') n (console w')
                  | Raised e w' => Failed e (console w')
                  end
              end
         else Failed ValueError [].
Proof.
  intros Hm Hl logs. set (w0 := World m l []).
  destruct (get_template_row_within WsMain w0) as (t & w1 & E1 & R1 & T1).
  destruct (read_log_times_reads WsLog w1) as (w2 & E2 & R2).
  pose proof E2 as C2. unfold read_log_times, bind, get_max_row in C2.
  apply read_log_times_columns in C2.
  destruct R1 as (Sm1 & Mm1 & O1 & K1). destruct R2 as (Sl2 & Ml2 & O2 & K2).
  pose proof (O1 WsLog ltac:(discriminate)) as Hlog1.
  pose proof (O2 WsMain ltac:(discriminate)) as Hmain2.
  cbn [sheet_of w0 main_sheet log_sheet console] in *.
  exists t, w2. rewrite Hmain2, Ml2, C2, Hlog1, K2, K1.
  split; [exact T1|]. split; [exact Sm1|]. split; [exact Mm1|].
  split; [now rewrite Hlog1 in Sl2|]. do 3 (split; [reflexivity|]).
  unfold process_bulk_log_streamlit. rewrite Hm, Hl. fold w0.
  unfold process_sheets. rewrite (bind_done _ _ _ _ _ E1), (bind_done _ _ _ _ _ E2).
  cbn [sheet_of]. rewrite Hlog1. fold logs.
  destruct (forallb _ required_cols); cbn [negb].
  - destruct logs; [|reflexivity].
    unfold bind, st_message, ret. now rewrite K2, K1.
  - unfold raise. now rewrite K2, K1.
Qed.

Lemma lookup_save_main (wb : gmap str sheet) (w : world) :
  save wb w !! sheet_main = Some (main_sheet w).
Proof. unfold save. apply lookup_insert_eq. Qed.

Lemma lookup_save_log (wb : gmap str sheet) (w : world) :
  save wb w !! sheet_log = Some (log_sheet w).
Proof.
  unfold save. rewrite lookup_insert_ne by discriminate. apply lookup_insert_eq.
Qed.


(** The run refuses a workbook without the sheet "메인" or the sheet "LOG",
    and a change log without one of the required columns: it raises
    [ValueError], shows nothing and returns no workbook. *)
Theorem process_refuses `{PyRuntime} (meta_map : gmap (str * str) (gmap str pyval))
    (wb : gmap str sheet) (df_log : dataframe) :
  wb !! sheet_main = None \/ wb !! sheet_log = None
  \/ (exists col, col ∈ required_cols /\ col ∉ columns df_log) ->
  process_bulk_log_streamlit meta_map wb df_log = Failed ValueError [].
Proof.
  intros Hbad.
  destruct (wb !! sheet_main) as [m|] eqn:Hm;
    [|unfold process_bulk_log_streamlit; now rewrite Hm].
  destruct (wb !! sheet_log) as [l|] eqn:Hl;
    [|unfold process_bulk_log_streamlit; now rewrite Hm, Hl].
  destruct Hbad as [?|[?|(col & Hin & Hout)]]; [discriminate|discriminate|].
  destruct (process_run meta_map wb df_log m l Hm Hl) as (t & w2 & _ & _ & _ & _ & _ & _ & _ & E).
  rewrite E.
  destruct (forallb _ required_cols) eqn:Hall; [|reflexivity].
  exfalso. apply Hout. now apply (proj1 (required_cols_check df_log) Hall).
Qed.

(** What a run that returns has done to the two sheets. *)
Lemma process_sheets_after `{PyRuntime}
    (meta_map : gmap (str * str) (gmap str pyval)) (wb : gmap str sheet)
    (df_log : dataframe) (out : gmap str sheet) (n : Z) (shown : list message) :
  process_bulk_log_streamlit meta_map wb df_log = Returned out n shown ->
  exists m l m' l',
    wb !! sheet_main = Some m /\ wb !! sheet_log = Some l
    /\ out !! sheet_main = Some m' /\ out !! sheet_log = Some l'
    /\ (forall col, col ∈ required_cols -> col ∈ columns df_log)
    /\ let logs := new_logs (watermark (log_times l)) (prepared_rows df_log) in
       rows_kept m m'
       /\ n = Z.of_nat (length logs)
       /\ max_row l' = max_row l + n
       /\ max_column l' = max_column l
       /\ tables l' = tables l
       /\ (forall r c, r <= max_row l ->
             value_at l' r c = value_at l r c /\ style_at l' r c = style_at l r c)
       /\ (forall i row hdr val c,
             logs !! i = Some row -> (hdr, val) ∈ value_map row.2 ->
             header_column l hdr = Some c ->
             value_at l' (max_row l + 1 + Z.of_nat i) c = val)
       /\ (logs = [] -> shown = [InfoNoNewLogs]
                        /\ same_content m m' /\ same_content l l')
       /\ (2 <= max_row m ->
           forall row vp vl, row ∈ logs ->
             row.2 !! k_part_no = Some vp -> row.2 !! k_lot_no = Some vl ->
             located m' (PStr (strip (py_str vp))) (PStr (strip (py_str vl)))
             <> 0).
Proof.
  intros E.
  destruct (wb !! sheet_main) as [m|] eqn:Hm;
    [|unfold process_bulk_log_streamlit in E; now rewrite Hm in E].
  destruct (wb !! sheet_log) as [l|] eqn:Hl;
    [|unfold process_bulk_log_streamlit in E; now rewrite Hm, Hl in E].
  destruct (process_run meta_map wb df_log m l Hm Hl)
    as (t & w2 & T2 & Sm & Mm & Sl & Ml & Cl & _ & Er).
  rewrite Er in E. clear Er.
  destruct (forallb _ required_cols) eqn:Hall; [|discriminate E].
  pose proof (proj1 (required_cols_check df_log) Hall) as Hcols. clear Hall.
  remember (new_logs (watermark (log_times l)) (prepared_rows df_log)) as logs
    eqn:Elogs.
  assert (Hrows : rows_kept m (main_sheet w2)).
  { split; [lia|]. intros r k _. destruct Sm as [_ Hc].
    destruct (Hc r k) as [-> ->]. now split. }
  destruct logs as [|r0 rest].
  - injection E as <- <- <-.
    exists m, l, (main_sheet w2), (log_sheet w2).
    rewrite lookup_save_main, lookup_save_log.
    do 5 (split; [reflexivity || assumption|]). cbn zeta. rewrite <- Elogs.
    split; [exact Hrows|]. split; [reflexivity|]. split; [simpl; lia|].
    split; [exact Cl|]. split; [apply Sl|]. split; [intros r c _; apply Sl|].
    split; [intros i row hdr val c Hi; discriminate Hi|].
    split; [intros _; now split|].
    intros _ row vp vl Hin. now apply elem_of_nil in Hin.
  - set (logs := r0 :: rest) in *.
    destruct (replay WsMain WsLog meta_map t logs w2) as [n' w'|] eqn:Erun;
      [|discriminate E].
    injection E as <- <- <-.
    pose proof (replay_count WsMain WsLog meta_map t logs w2 w' n' Erun) as Hn.
    unfold replay, bind in Erun.
    destruct (for_fold logs (t, 0) (replay_step WsMain WsLog meta_map) w2)
      as [st w''|] eqn:Eloop; [|discriminate Erun].
    unfold ret in Erun. assert (w'' = w') as -> by congruence.
    destruct (replay_loop_inv meta_map logs (t, 0) st w2 w' T2 Eloop)
      as (K & R & C & T & V & F & P).
    exists m, l, (main_sheet w'), (log_sheet w').
    rewrite lookup_save_main, lookup_save_log.
    do 5 (split; [reflexivity || assumption|]). cbn zeta. rewrite <- Elogs.
    split; [eapply rows_kept_trans; eassumption|].
    split; [exact Hn|]. split; [lia|]. split; [congruence|].
    destruct Sl as [Tl Hc].
    split; [congruence|]. split.
    + intros r c Hr. destruct (V r c ltac:(lia)) as [-> ->]. apply Hc.
    + split.
      * intros i row hdr val c Hi Hin Hcol. rewrite <- Ml.
        eapply F; [exact Hi|exact Hin|].
        rewrite <- Hcol. apply header_column_same; [exact Cl|].
        intros k. apply Hc.
      * split; [intros Hnil; discriminate Hnil|].
        intros Hge. apply P. lia.
Qed.



Lemma prepared_row_time `{PyRuntime} (df_log : dataframe) (r : timed_row)
    (t : datetime) :
  r ∈ prepared_rows df_log -> r.1 = Some t -> dict_get r.2 k_time = PDatetime t.
Proof.
  unfold prepared_rows. intros Hr Ht.
  apply list_elem_of_fmap in Hr as (row & -> & _).
  unfold convert_time in *. cbn [fst snd] in *. rewrite Ht.
  unfold dict_get. now rewrite lookup_insert_eq.
Qed.



(** ** The properties on the example ledger *)

(** The update of drum 3 of row 5 with quantity 3 at "4층", made twice. *)
Lemma drum_update_idempotent_witness :
  1 <= 3 <= 20
  /\ exists w1,
       @apply_drum_update_to_main example_runtime WsMain 5 3 (PInt 3)
         (PStr [52; 52789]) empty_world = Done tt w1
       /\ @apply_drum_update_to_main example_runtime WsMain 5 3 (PInt 3)
            (PStr [52; 52789]) w1 = Done tt w1.
Proof.
  split; [lia|].
  destruct (@apply_drum_update_to_main example_runtime WsMain 5 3 (PInt 3)
              (PStr [52; 52789]) empty_world) as [[] w1|e w1] eqn:E.
  - exists w1. split; [reflexivity|].
    apply (@drum_update_idempotent example_runtime WsMain empty_world w1 5 3
             (PInt 3) (PStr [52; 52789])); [lia|exact E].
  - vm_compute in E. discriminate E.
Defined.

(** The updates of drums 3 and 4 of row 5, in both orders. *)
Lemma drum_updates_commute_witness :
  1 <= 3 <= 20 /\ 1 <= 4 <= 20 /\ (5, 3) <> (5, 4)
  /\ exists w',
       (@apply_drum_update_to_main example_runtime WsMain 5 3 (PInt 3)
          (PStr [52; 52789]) ;;;
        @apply_drum_update_to_main example_runtime WsMain 5 4 (PInt 0)
          (PStr loc_outsourced)) empty_world = Done tt w'
       /\ (@apply_drum_update_to_main example_runtime WsMain 5 4 (PInt 0)
             (PStr loc_outsourced) ;;;
           @apply_drum_update_to_main example_runtime WsMain 5 3 (PInt 3)
             (PStr [52; 52789])) empty_world = Done tt w'.
Proof.
  split; [lia|]. split; [lia|]. split; [intros [=]|].
  destruct ((@apply_drum_update_to_main example_runtime WsMain 5 3 (PInt 3)
               (PStr [52; 52789]) ;;;
             @apply_drum_update_to_main example_runtime WsMain 5 4 (PInt 0)
               (PStr loc_outsourced)) empty_world) as [[] w'|e w'] eqn:E.
  - exists w'. split; [reflexivity|].
    apply (@drum_updates_commute example_runtime WsMain empty_world w' 5 3
             (PInt 3) (PStr [52; 52789]) 5 4 (PInt 0) (PStr loc_outsourced));
      [lia|lia|intros [=]|exact E].
  - vm_compute in E. discriminate E.
Defined.

(** The update of drum 1 of the lot in row 3 of the example ledger: the
    lot is found in row 3 before and after. *)
Lemma drum_update_keeps_rows_witness :
  let w := World example_main empty_sheet [] in
  1 <= 3 <= max_row (sheet_of WsMain w)
  /\ exists w1 w' w1',
       @apply_drum_update_to_main example_runtime WsMain 3 1 (PInt 5)
         (PStr (lit "4F")) w = Done tt w1
       /\ @find_main_row example_runtime WsMain (PStr (lit "P1")) (PStr (lit "L1")) w
          = Done 3 w'
       /\ @find_main_row example_runtime WsMain (PStr (lit "P1")) (PStr (lit "L1")) w1
          = Done 3 w1'.
Proof.
  intros w.
  assert (Hrow : 1 <= 3 <= max_row (sheet_of WsMain w)) by (vm_compute; split; discriminate).
  split; [exact Hrow|].
  destruct (@apply_drum_update_to_main example_runtime WsMain 3 1 (PInt 5)
              (PStr (lit "4F")) w) as [[] w1|e w1] eqn:E;
    [|vm_compute in E; discriminate E].
  destruct (@find_main_row example_runtime WsMain (PStr (lit "P1"))
              (PStr (lit "L1")) w) as [r w'|e w'] eqn:Ef;
    vm_compute in Ef; [|discriminate Ef].
  injection Ef as <- <-.
  destruct (@drum_update_keeps_rows example_runtime WsMain w w1 3 1 (PInt 5)
              (PStr (lit "4F")) (PStr (lit "P1")) (PStr (lit "L1")) Hrow E 3
              _ ltac:(vm_compute; reflexivity)) as [w1' E1].
  eexists w1, _, w1'. split; [reflexivity|]. split; [vm_compute; reflexivity|exact E1].
Defined.


(** The new lot ("P2", "L2") of the example ledger is found in the row
    made for it. *)
Lemma create_then_find_witness :
  let w := World example_main empty_sheet [] in
  template_within (sheet_of WsMain w) (Some 3)
  /\ 2 <= max_row (sheet_of WsMain w)
  /\ (forall x, 3 <= x <= max_row (sheet_of WsMain w) ->
        ~ @row_matches example_runtime (sheet_of WsMain w)
            (PStr (lit "P2")) (PStr (lit "L2")) x)
  /\ exists w1 w2,
       @create_new_main_row example_runtime WsMain (PStr (lit "P2"))
         (PStr (lit "L2")) (PStr (lit "N2")) ∅ (Some 3) w = Done 4 w1
       /\ @find_main_row example_runtime WsMain (PStr (lit "P2"))
            (PStr (lit "L2")) w1 = Done 4 w2.
Proof.
  intros w.
  assert (Ht : template_within (sheet_of WsMain w) (Some 3))
    by (vm_compute; split; discriminate).
  assert (Hrows : 2 <= max_row (sheet_of WsMain w)) by (vm_compute; discriminate).
  assert (Hnone : forall x, 3 <= x <= max_row (sheet_of WsMain w) ->
            ~ @row_matches example_runtime (sheet_of WsMain w)
                (PStr (lit "P2")) (PStr (lit "L2")) x).
  { intros x Hx. assert (x = 3) as -> by (change (max_row (sheet_of WsMain w)) with 3 in Hx; lia).
    intros [Hp _]. vm_compute in Hp. discriminate Hp. }
  split; [exact Ht|]. split; [exact Hrows|]. split; [exact Hnone|].
  destruct (@create_new_main_row example_runtime WsMain (PStr (lit "P2"))
              (PStr (lit "L2")) (PStr (lit "N2")) ∅ (Some 3) w)
    as [n w1|e w1] eqn:E; [|vm_compute in E; discriminate E].
  destruct (@create_then_find example_runtime WsMain w w1 (PStr (lit "P2"))
              (PStr (lit "L2")) (PStr (lit "N2")) ∅ (Some 3) n Ht Hrows Hnone E)
    as [w2 E2].
  assert (Hn : n = 4).
  { apply (create_new_main_row_done WsMain w w1) in E as [-> _]; [reflexivity|exact Ht]. }
  subst n. exists w1, w2. split; [reflexivity|exact E2].
Defined.

(** A new lot on a sheet without any cell lands in row 2 and is not found. *)
Lemma create_in_row_two_witness :
  template_within (sheet_of WsMain empty_world) None
  /\ max_row (sheet_of WsMain empty_world) = 1
  /\ exists w1,
       @create_new_main_row example_runtime WsMain (PStr (lit "P2"))
         (PStr (lit "L2")) (PStr (lit "N2")) ∅ None empty_world = Done 2 w1
       /\ exists w2, @find_main_row example_runtime WsMain (PStr (lit "P2"))
                       (PStr (lit "L2")) w1 = Done 0 w2.
Proof.
  split; [exact I|]. split; [reflexivity|].
  destruct (@create_new_main_row example_runtime WsMain (PStr (lit "P2"))
              (PStr (lit "L2")) (PStr (lit "N2")) ∅ None empty_world)
    as [n w1|e w1] eqn:E; [|vm_compute in E; discriminate E].
  destruct (@create_in_row_two example_runtime WsMain empty_world w1
              (PStr (lit "P2")) (PStr (lit "L2")) (PStr (lit "N2")) ∅ None n
              I eq_refl E) as [-> Hfind].
  exists w1. split; [reflexivity|]. apply Hfind.
Defined.

(** A workbook without any sheet is refused. *)
Lemma process_refuses_witness :
  ((∅ : gmap str sheet) !! sheet_main = None
   \/ (∅ : gmap str sheet) !! sheet_log = None
   \/ exists col, col ∈ required_cols /\ col ∉ columns example_frame)
  /\ @process_bulk_log_streamlit example_runtime ∅ ∅ example_frame
     = Failed ValueError [].
Proof.
  assert (Hbad : (∅ : gmap str sheet) !! sheet_main = None
                 \/ (∅ : gmap str sheet) !! sheet_log = None
                 \/ exists col, col ∈ required_cols /\ col ∉ columns example_frame)
    by (left; reflexivity).
  split; [exact Hbad|].
  exact (@process_refuses example_runtime ∅ ∅ example_frame Hbad).
Defined.




(** ** Reading a CSV file *)

Lemma first_readable_spec `{CsvReader} (encs : list str) (content : list Z) :
  match first_readable encs content with
  | Some df =>
      has_columns df = true
      /\ exists before enc after,
           encs = before ++ enc :: after
           /\ read_csv enc content = Some df
           /\ forall e d, e ∈ before -> read_csv e content = Some d ->
                has_columns d = false
  | None =>
      forall e d, e ∈ encs -> read_csv e content = Some d -> has_columns d = false
  end.
Proof.
  induction encs as [|enc encs IH]; cbn [first_readable].
  - intros e d He. now apply elem_of_nil in He.
  - assert (Hskip : (forall d, read_csv enc content = Some d -> has_columns d = false) ->
      match first_readable encs content with
      | Some df =>
          has_columns df = true
          /\ exists before enc0 after,
               enc :: encs = before ++ enc0 :: after
               /\ read_csv enc0 content = Some df
               /\ forall e d, e ∈ before -> read_csv e content = Some d ->
                    has_columns d = false
      | None =>
          forall e d, e ∈ enc :: encs -> read_csv e content = Some d ->
            has_columns d = false
      end).
    { intros Hno. destruct (first_readable encs content) as [df|].
      - destruct IH as (Hc & before & enc0 & after & -> & Hr & Hb).
        split; [exact Hc|]. exists (enc :: before), enc0, after.
        split; [reflexivity|]. split; [exact Hr|].
        intros e d He Hd. apply elem_of_cons in He as [->|He]; eauto.
      - intros e d He Hd. apply elem_of_cons in He as [->|He]; eauto. }
    destruct (read_csv enc content) as [df|] eqn:Er.
    + destruct (has_columns df) eqn:Ec.
      * split; [exact Ec|]. exists [], enc, encs. split; [reflexivity|].
        split; [exact Er|]. intros e d He. now apply elem_of_nil in He.
      * apply Hskip. intros d [= <-]. exact Ec.
    + apply Hskip. intros d [=].
Qed.

(** [read_csv_flexible] raises nothing but [ValueError]. The frame it
    returns has a column; it is the frame read with the first encoding of
    the list, in the order "cp949", "utf-8-sig", "utf-8", "ansi",
    "utf-16", that gives a frame with a column, and the frame read with
    the separator guessed when no encoding does. It raises exactly when
    there is no file or no reading gives a frame with a column. *)
Theorem read_csv_flexible_spec `{CsvReader} (uploaded_file : option (list Z)) :
  match read_csv_flexible uploaded_file with
  | inr df =>
      has_columns df = true
      /\ exists content,
           uploaded_file = Some content
           /\ ((exists before enc after,
                  encodings = before ++ enc :: after
                  /\ read_csv enc content = Some df
                  /\ forall e d, e ∈ before -> read_csv e content = Some d ->
                       has_columns d = false)
               \/ (read_csv_sniff content = Some df
                   /\ forall e d, e ∈ encodings -> read_csv e content = Some d ->
                        has_columns d = false))
  | inl e =>
      e = ValueError
      /\ forall content, uploaded_file = Some content ->
           (forall e d, e ∈ encodings -> read_csv e content = Some d ->
              has_columns d = false)
           /\ (forall d, read_csv_sniff content = Some d -> has_columns d = false)
  end.
Proof.
  destruct uploaded_file as [content|]; cbn [read_csv_flexible];
    [|split; [reflexivity|intros c [=]]].
  pose proof (first_readable_spec encodings content) as Hf.
  destruct (first_readable encodings content) as [df|].
  - destruct Hf as [Hc Hfirst]. split; [exact Hc|]. exists content.
    split; [reflexivity|]. now left.
  - destruct (read_csv_sniff content) as [df|] eqn:Es.
    + destruct (has_columns df) eqn:Ec.
      * split; [exact Ec|]. exists content. split; [reflexivity|]. right.
        now split.
      * split; [reflexivity|]. intros c [= <-]. split; [exact Hf|].
        intros d. rewrite Es. now intros [= <-].
    + split; [reflexivity|]. intros c [= <-]. split; [exact Hf|].
      intros d. rewrite Es. intros [=].
Qed.

(** ** The drum extractor *)

Lemma match_digits_floor_shape `{UnicodeDigits} (s g : str) :
  match_digits_floor s = Some g ->
  exists ds, ds <> [] /\ forallb is_decimal ds = true /\ g = ds ++ [ch_floor].
Proof.
  revert g. induction s as [|c t IH]; intros g; cbn [match_digits_floor];
    [discriminate|].
  destruct (is_decimal c) eqn:Ec; [|discriminate].
  destruct (match_digits_floor t) as [g'|].
  - intros [= <-]. destruct (IH g' eq_refl) as (ds & _ & Hd & ->).
    exists (c :: ds). split; [discriminate|]. split; [|reflexivity].
    simpl. now rewrite Ec.
  - destruct t as [|r t']; [discriminate|].
    destruct (r =? ch_floor); [|discriminate]. intros [= <-].
    exists [c]. split; [discriminate|]. split; [|reflexivity].
    simpl. now rewrite Ec.
Qed.

Lemma search_floor_shape `{UnicodeDigits} (s g : str) :
  search_floor s = Some g ->
  exists ds, ds <> [] /\ forallb is_decimal ds = true /\ g = ds ++ [ch_floor].
Proof.
  revert g. induction s as [|c t IH]; intros g; cbn [search_floor].
  - destruct (match_digits_floor []) eqn:E; [|discriminate].
    intros [= <-]. eapply match_digits_floor_shape; eassumption.
  - destruct (match_digits_floor (c :: t)) eqn:E.
    + intros [= <-]. eapply match_digits_floor_shape; eassumption.
    + apply IH.
Qed.

Lemma to_floor_str_cases `{PyRuntime} `{UnicodeDigits} (floor_raw : pyval) :
  let r := to_floor_str floor_raw in
  r = []
  \/ (r ∈ specials /\ is_special_text (norm_str floor_raw) r = true)
  \/ (exists ds, ds <> [] /\ forallb is_decimal ds = true /\ r = ds ++ [ch_floor]).
Proof.
  unfold to_floor_str. cbn zeta.
  destruct (bool_decide (norm_str floor_raw = [])) eqn:Ee; [now left|].
  destruct (find (is_special_text (norm_str floor_raw)) specials) as [sp|] eqn:Ef.
  - right. left. apply find_some in Ef as [Hin Hsp].
    split; [now apply list_elem_of_In|exact Hsp].
  - destruct (fullmatch_digits (norm_str floor_raw)) eqn:Em.
    + right. right. exists (norm_str floor_raw).
      unfold fullmatch_digits in Em. apply andb_true_iff in Em as [Hne Hall].
      split; [|split; [exact Hall|reflexivity]].
      apply negb_true_iff, bool_decide_eq_false in Hne. exact Hne.
    + destruct (search_floor (norm_str floor_raw)) as [g|] eqn:Es; [|now left].
      right. right. eapply search_floor_shape; eassumption.
Qed.

(** [to_floor_str] answers with the empty text, with one of the four
    special zones "외주", "폐기", "소진", "창고", or with one or more
    decimal digits followed by "층"; it answers with a special zone only
    for a text that is the zone or begins with it and a space, "_" or "-". *)
Theorem to_floor_str_shape `{PyRuntime} `{UnicodeDigits} (floor_raw : pyval) :
  let r := to_floor_str floor_raw in
  r = []
  \/ (r ∈ specials /\ is_special_text (norm_str floor_raw) r = true)
  \/ (exists ds, ds <> [] /\ forallb is_decimal ds = true /\ r = ds ++ [ch_floor]).
Proof. exact (to_floor_str_cases floor_raw). Qed.

Lemma strip_fixed (s : str) :
  match s with c :: _ => is_space c = false | [] => True end ->
  match rev s with c :: _ => is_space c = false | [] => True end ->
  strip s = s.
Proof.
  intros Hh Hl. unfold strip. rewrite (lstrip_fixed s Hh).
  unfold rstrip. rewrite (lstrip_fixed (rev s) Hl). apply rev_involutive.
Qed.

Lemma digit_not_space (c : Z) : is_digit c = true -> is_space c = false.
Proof.
  unfold is_digit. rewrite andb_true_iff, !Z.leb_le. intros Hc.
  apply not_true_iff_false. unfold is_space.
  rewrite !orb_true_iff, !andb_true_iff, !Z.leb_le, !Z.eqb_eq. lia.
Qed.

Section Digits.

Context `{PyRuntime} `{UnicodeDigits}.
Hypothesis apart : digits_apart.

Lemma decimal_not_space (c : Z) : is_decimal c = true -> is_space c = false.
Proof.
  unfold is_decimal. destruct (Z.ltb_spec c 128).
  - apply digit_not_space.
  - intros Hc. now apply apart.
Qed.

Lemma hangul_not_decimal (c : Z) : 44032 <= c <= 55203 -> is_decimal c = false.
Proof.
  intros Hc. unfold is_decimal. destruct (Z.ltb_spec c 128); [lia|].
  destruct (uni_decimal c) eqn:E; [|reflexivity].
  exfalso. now apply (apart c ltac:(lia) E).
Qed.

Lemma decimal_not_special (d : Z) (rest sp : str) :
  is_decimal d = true -> sp ∈ specials -> is_special_text (d :: rest) sp = false.
Proof.
  intros Hd Hsp.
  assert (Hh : forall h, 44032 <= h <= 55203 -> (h =? d) = false).
  { intros h Hh. destruct (Z.eqb_spec h d) as [->|]; [|reflexivity].
    rewrite hangul_not_decimal in Hd by exact Hh. discriminate. }
  unfold specials in Hsp. unfold is_special_text.
  repeat (apply elem_of_cons in Hsp as [->|Hsp];
          [ rewrite bool_decide_eq_false_2
              by (intros [= E _]; specialize (Hh d); rewrite E, Z.eqb_refl in Hh;
                  discriminate Hh; lia);
            cbn [startswith app loc_outsourced loc_disposed loc_exhausted
                   loc_warehouse];
            rewrite Hh by lia; reflexivity | ]).
  now apply elem_of_nil in Hsp.
Qed.

Lemma match_digits_floor_digits (ds : str) :
  ds <> [] -> forallb is_decimal ds = true ->
  match_digits_floor (ds ++ [ch_floor]) = Some (ds ++ [ch_floor]).
Proof.
  assert (Hch : is_decimal ch_floor = false)
    by (apply hangul_not_decimal; unfold ch_floor; lia).
  induction ds as [|d ds IH]; [congruence|]. intros _ Hall.
  simpl in Hall. apply andb_true_iff in Hall as [Hd Hall].
  simpl app. cbn [match_digits_floor]. rewrite Hd.
  destruct ds as [|d' ds'].
  - simpl. rewrite Hch. reflexivity.
  - now rewrite IH.
Qed.

Lemma to_floor_str_fixed (r : str) :
  r = []
  \/ r ∈ specials
  \/ (exists ds, ds <> [] /\ forallb is_decimal ds = true /\ r = ds ++ [ch_floor]) ->
  to_floor_str (PStr r) = r.
Proof.
  intros [->|[Hsp|(ds & Hne & Hall & ->)]].
  - reflexivity.
  - unfold specials in Hsp.
    repeat (apply elem_of_cons in Hsp as [->|Hsp]; [reflexivity|]).
    now apply elem_of_nil in Hsp.
  - assert (Hch : is_decimal ch_floor = false)
      by (apply hangul_not_decimal; unfold ch_floor; lia).
    destruct ds as [|d ds']; [congruence|].
    simpl in Hall. apply andb_true_iff in Hall as [Hd Hall'].
    unfold to_floor_str. cbn zeta.
    assert (Hs : norm_str (PStr ((d :: ds') ++ [ch_floor])) = (d :: ds') ++ [ch_floor]).
    { unfold norm_str. cbn [py_str]. apply strip_fixed.
      - simpl. now apply decimal_not_space.
      - rewrite rev_app_distr. reflexivity. }
    rewrite Hs. simpl app at 1.
    rewrite bool_decide_eq_false_2 by discriminate.
    assert (Hf : find (is_special_text ((d :: ds') ++ [ch_floor])) specials = None).
    { simpl app. unfold specials. cbn [find].
      rewrite !(decimal_not_special d) by
        (try exact Hd; unfold specials; rewrite !elem_of_cons; tauto).
      reflexivity. }
    rewrite Hf.
    assert (Hm : fullmatch_digits ((d :: ds') ++ [ch_floor]) = false).
    { unfold fullmatch_digits. rewrite forallb_app. simpl forallb at 2.
      rewrite Hch. now rewrite !andb_false_r. }
    rewrite Hm.
    assert (Hsearch : search_floor ((d :: ds') ++ [ch_floor])
                      = Some ((d :: ds') ++ [ch_floor])).
    { simpl app. cbn [search_floor].
      change (d :: ds' ++ [ch_floor]) with ((d :: ds') ++ [ch_floor]).
      rewrite match_digits_floor_digits; [reflexivity|discriminate|].
      simpl. now rewrite Hd. }
    now rewrite Hsearch.
Qed.

Lemma to_floor_str_again (floor_raw : pyval) :
  to_floor_str (PStr (to_floor_str floor_raw)) = to_floor_str floor_raw.
Proof.
  apply to_floor_str_fixed.
  destruct (to_floor_str_cases floor_raw) as [E|[[E _]|E]]; tauto.
Qed.

End Digits.

(** Normalising a floor twice is normalising it once: [to_floor_str] of a
    text it returned is that text (given that no decimal digit outside
    ASCII is a white-space character or a Hangul syllable, as in
    Unicode). *)
Theorem to_floor_str_idempotent `{PyRuntime} `{UnicodeDigits} (floor_raw : pyval) :
  digits_apart ->
  to_floor_str (PStr (to_floor_str floor_raw)) = to_floor_str floor_raw.
Proof. intros Hd. now apply to_floor_str_again. Qed.

(** The rows of a drum slot: as many as the count cell says, one when the
    count is missing or not positive and the location is "외주", "폐기" or
    "소진", none for another location without a positive count; each row
    has the drum number, the capacity and the location. The capacity cell
    never decides whether rows are made. *)
Theorem drum_rows_count `{PyRuntime} `{UnicodeDigits} (drum_no : Z)
    (cap floor_raw cnt_raw detail_cell : pyval) :
  let loc := drum_location floor_raw detail_cell in
  let c := drum_count cnt_raw in
  let n :=
    if decide (loc ∈ [loc_outsourced; loc_disposed; loc_exhausted] /\ c <= 0)
    then 1 else Z.max 0 c in
  drum_rows drum_no cap floor_raw cnt_raw detail_cell
  = replicate (Z.to_nat n) (drum_no, cap, loc).
Proof.
  intros loc c n. unfold drum_rows. fold loc c.
  destruct (decide (loc ∈ [loc_outsourced; loc_disposed; loc_exhausted] /\ c <= 0))
    as [[Hin Hc]|Hn].
  - rewrite (bool_decide_eq_true_2 _ Hin).
    destruct (Z.leb_spec c 0); [|lia]. reflexivity.
  - assert (Hb : bool_decide (loc ∈ [loc_outsourced; loc_disposed; loc_exhausted])
                 && (c <=? 0) = false).
    { destruct (bool_decide _) eqn:E; [|reflexivity].
      apply bool_decide_eq_true in E. destruct (Z.leb_spec c 0); [tauto|reflexivity]. }
    rewrite Hb. unfold n. destruct (Z.leb_spec c 0) as [Hle|Hgt].
    + replace (Z.to_nat (Z.max 0 c)) with 0%nat by lia.
      simpl. now destruct ((is_na cap || equals_zero cap) && bool_decide (loc = [])).
    + simpl. now replace (Z.max 0 c) with c by lia.
Qed.

(** ** The extender and the template scan, after a row was made *)

Lemma extended_again `{PyRuntime} (t n : Z) (tbl : table) :
  decodable tbl ->
  decodable (extended t n tbl)
  /\ extended t n (extended t n tbl) = extended t n tbl.
Proof.
  intros [[[[c1 r1] c2] r2] Hb].
  destruct (extend_table_spec t n tbl c1 r1 c2 r2 Hb) as (tbl' & E & Hcase).
  assert (Ex : extended t n tbl = tbl') by (unfold extended; now rewrite E).
  rewrite Ex. destruct (decide ((r1 <= t <= r2) /\ r2 < n)) as [Hc|Hc].
  - destruct Hcase as [_ Hb']. split; [eexists; exact Hb'|].
    destruct (extend_table_spec t n tbl' c1 r1 c2 n Hb') as (tbl'' & E' & Hcase').
    rewrite decide_False in Hcase' by lia. subst tbl''.
    unfold extended. now rewrite E'.
  - subst tbl'. split; [eexists; exact Hb|exact Ex].
Qed.

(** Extending the tables twice for the same rows is extending them once:
    on a sheet whose table ranges read as cells or rectangles, the
    extender returns, and run again it returns with nothing changed. *)
Theorem extend_tables_idempotent `{PyRuntime} (ws : worksheet) (w : world)
    (t n : Z) :
  Forall decodable (tables (sheet_of ws w)) ->
  exists w1,
    extend_tables_for_new_row ws t n w = Done tt w1
    /\ extend_tables_for_new_row ws t n w1 = Done tt w1.
Proof.
  intros Hdec.
  assert (Hrun : forall w0, Forall decodable (tables (sheet_of ws w0)) ->
            extend_tables_for_new_row ws t n w0
            = Done tt (with_sheet ws (Sheet (cells (sheet_of ws w0))
                                        (map (extended t n) (tables (sheet_of ws w0)))) w0)).
  { intros w0 Hd. unfold extend_tables_for_new_row, bind, get_tables.
    exact (extend_tables_loop ws t n (tables (sheet_of ws w0)) [] w0 eq_refl Hd). }
  eexists. split; [apply Hrun; exact Hdec|].
  rewrite Hrun; rewrite sheet_of_with_sheet; cbn [tables cells].
  - rewrite with_sheet_twice. do 3 f_equal.
    rewrite map_map. apply map_ext_in. intros tbl Hin.
    apply extended_again. rewrite Forall_forall in Hdec. apply Hdec.
    now apply list_elem_of_In.
  - apply Forall_forall. intros tbl' Hin.
    apply list_elem_of_fmap in Hin as (tbl & -> & Hin).
    apply extended_again. rewrite Forall_forall in Hdec. now apply Hdec.
Qed.

(** The row [create_new_main_row] makes for a lot that is not blank is
    the row the template scan then finds: taking the new row as the next
    template, as the replay loop does, agrees with scanning the sheet
    again. *)
Theorem create_then_template `{PyRuntime} (ws : worksheet) (w w1 : world)
    (part_no lot_no prod_name : pyval)
    (meta_map : gmap (str * str) (gmap str pyval)) (t : option Z) (n : Z) :
  let sh := sheet_of ws w in
  template_within sh t ->
  2 <= max_row sh ->
  strip (py_str lot_no) <> [] ->
  create_new_main_row ws part_no lot_no prod_name meta_map t w = Done n w1 ->
  exists w2, get_template_row ws w1 = Done (Some n) w2.
Proof.
  intros sh Ht Hrows Hlot E.
  apply create_new_main_row_done in E as [-> [tbls ->]]; [|exact Ht].
  fold sh.
  set (sh' := created_sheet sh tbls part_no lot_no prod_name
                (meta_of meta_map part_no lot_no) t).
  destruct (created_sheet_effects sh tbls part_no lot_no prod_name
              (meta_of meta_map part_no lot_no) t Ht) as (_ & R & V & _).
  fold sh' in R, V. set (n := max_row sh + 1) in *.
  assert (Htext : cell_text (value_at sh' n 4) <> []).
  { rewrite V, decide_True by reflexivity. unfold new_row_value.
    rewrite (decide_False (P := 4 = 2)) by lia.
    rewrite (decide_False (P := 4 = 3)) by lia.
    rewrite decide_True by reflexivity. now rewrite cell_text_stripped. }
  unfold get_template_row, bind, get_max_row, range_down.
  rewrite sheet_of_with_sheet, R.
  replace (2 + 1) with 3 by lia.
  replace (n - 2) with (Z.of_nat (Z.to_nat (n - 2))) by (unfold n; lia).
  destruct (get_template_row_loop_scan ws (Z.to_nat (n - 2)) 3
              (with_sheet ws sh' w) ltac:(lia)
              ltac:(rewrite sheet_of_with_sheet, R; unfold n; lia))
    as (t' & w2 & E2 & _ & Ht').
  rewrite sheet_of_with_sheet in Ht'.
  exists w2. rewrite E2. do 2 f_equal.
  destruct t' as [r|].
  - destruct Ht' as (Hr & _ & Hafter).
    destruct (decide (r = n)) as [->|Hne]; [reflexivity|].
    exfalso. apply Htext. apply Hafter. unfold n in *. lia.
  - exfalso. apply Htext. apply Ht'. unfold n. lia.
Qed.

(** ** The further properties on examples *)

Lemma example_digits_apart : @digits_apart example_digits.
Proof.
  intros c Hc Hd. simpl in Hd. apply andb_true_iff in Hd as [H1 H2].
  apply Z.leb_le in H1, H2. split; [|lia].
  apply not_true_iff_false. unfold is_space.
  rewrite !orb_true_iff, !andb_true_iff, !Z.leb_le, !Z.eqb_eq. lia.
Qed.

(** The floor of "4층 보관" is "4층", and so is the floor of "4층". *)
Lemma to_floor_str_idempotent_witness :
  @digits_apart example_digits
  /\ @to_floor_str example_runtime example_digits
       (PStr [52; 52789; 32; 48372; 44288]) = [52; 52789]
  /\ @to_floor_str example_runtime example_digits
       (PStr (@to_floor_str example_runtime example_digits
                (PStr [52; 52789; 32; 48372; 44288])))
     = @to_floor_str example_runtime example_digits
         (PStr [52; 52789; 32; 48372; 44288]).
Proof.
  split; [exact example_digits_apart|]. split; [reflexivity|].
  exact (@to_floor_str_idempotent example_runtime example_digits
           (PStr [52; 52789; 32; 48372; 44288]) example_digits_apart).
Defined.

(** The tables [F3:U418] and [A3:C300] extended for rows 418 and 419,
    twice. *)
Lemma extend_tables_idempotent_witness :
  let sh := Sheet ∅ [Table (lit "T1") (lit "F3:U418");
                     Table (lit "T2") (lit "A3:C300")] in
  let w := World sh empty_sheet [] in
  Forall (@decodable example_runtime) (tables (sheet_of WsMain w))
  /\ exists w1,
       @extend_tables_for_new_row example_runtime WsMain 418 419 w = Done tt w1
       /\ @extend_tables_for_new_row example_runtime WsMain 418 419 w1 = Done tt w1.
Proof.
  intros sh w.
  assert (Hdec : Forall (@decodable example_runtime) (tables (sheet_of WsMain w))).
  { repeat constructor; eexists; vm_compute; reflexivity. }
  split; [exact Hdec|].
  exact (@extend_tables_idempotent example_runtime WsMain w 418 419 Hdec).
Defined.

(** The new lot ("P2", "L2") of the example ledger is the next template. *)
Lemma create_then_template_witness :
  let w := World example_main empty_sheet [] in
  template_within (sheet_of WsMain w) (Some 3)
  /\ 2 <= max_row (sheet_of WsMain w)
  /\ strip (@py_str example_runtime (PStr (lit "L2"))) <> []
  /\ exists n w1 w2,
       @create_new_main_row example_runtime WsMain (PStr (lit "P2"))
         (PStr (lit "L2")) (PStr (lit "N2")) ∅ (Some 3) w = Done n w1
       /\ @get_template_row example_runtime WsMain w1 = Done (Some n) w2.
Proof.
  intros w.
  assert (Ht : template_within (sheet_of WsMain w) (Some 3))
    by (vm_compute; split; discriminate).
  assert (Hrows : 2 <= max_row (sheet_of WsMain w)) by (vm_compute; discriminate).
  assert (Hlot : strip (@py_str example_runtime (PStr (lit "L2"))) <> [])
    by (vm_compute; discriminate).
  split; [exact Ht|]. split; [exact Hrows|]. split; [exact Hlot|].
  destruct (@create_new_main_row example_runtime WsMain (PStr (lit "P2"))
              (PStr (lit "L2")) (PStr (lit "N2")) ∅ (Some 3) w)
    as [n w1|e w1] eqn:E; [|vm_compute in E; discriminate E].
  destruct (@create_then_template example_runtime WsMain w w1 (PStr (lit "P2"))
              (PStr (lit "L2")) (PStr (lit "N2")) ∅ (Some 3) n Ht Hrows Hlot E)
    as [w2 E2].
  exists n, w1, w2. split; [reflexivity|exact E2].
Defined.

(** ** The replayed records in the two sheets *)

Lemma sorted_lookup {A} (R : A -> A -> Prop) (l : list A) (i j : nat) (x y : A) :
  StronglySorted R l -> (i < j)%nat -> l !! i = Some x -> l !! j = Some y ->
  R x y.
Proof.
  intros Hs. revert i j. induction Hs as [|a l Hs IH Ha]; intros i j Hij Hi Hj.
  - discriminate Hi.
  - destruct j as [|j]; [lia|]. simpl in Hj. destruct i as [|i].
    + injection Hi as <-. rewrite Forall_forall in Ha. apply Ha.
      eapply list_elem_of_lookup_2. exact Hj.
    + simpl in Hi. apply (IH i j); [lia|assumption..].
Qed.

(** A row below the former last row of the log sheet, up to the new last
    row, is the row of a replayed record. *)
Lemma appended_index {A} (logs : list A) (base r : Z) :
  base < r <= base + Z.of_nat (length logs) ->
  exists i row, logs !! i = Some row /\ r = base + 1 + Z.of_nat i.
Proof.
  intros Hr.
  destruct (lookup_lt_is_Some_2 logs (Z.to_nat (r - base - 1)) ltac:(lia))
    as [row Hrow].
  exists (Z.to_nat (r - base - 1)), row. split; [exact Hrow|lia].
Qed.

Lemma prepared_row_id `{PyRuntime} (df_log : dataframe) (r : timed_row) :
  k_id ∉ columns df_log -> r ∈ prepared_rows df_log -> dict_get r.2 k_id = PNone.
Proof.
  unfold prepared_rows. intros Hid Hr.
  rewrite bool_decide_eq_false_2 in Hr by exact Hid.
  apply list_elem_of_fmap in Hr as (row & -> & Hr).
  apply list_elem_of_fmap in Hr as (row0 & -> & _).
  unfold convert_time, dict_get. cbn [fst snd].
  rewrite lookup_insert_ne by discriminate. now rewrite lookup_insert_eq.
Qed.

(** Every lot of a replayed record has its row in the ledger after the
    run: on a main sheet of two rows or more, when the run returns, the
    locator finds on the returned main sheet, for the item code and lot of
    each record replayed, a row from 3 to the last row. *)
Theorem replay_lots_present `{PyRuntime}
    (meta_map : gmap (str * str) (gmap str pyval)) (wb : gmap str sheet)
    (df_log : dataframe) (out : gmap str sheet) (n : Z) (shown : list message)
    (m l : sheet) :
  wb !! sheet_main = Some m ->
  wb !! sheet_log = Some l ->
  2 <= max_row m ->
  process_bulk_log_streamlit meta_map wb df_log = Returned out n shown ->
  exists m',
    out !! sheet_main = Some m'
    /\ forall row v_part v_lot lg msgs,
         row ∈ new_logs (watermark (log_times l)) (prepared_rows df_log) ->
         row.2 !! k_part_no = Some v_part -> row.2 !! k_lot_no = Some v_lot ->
         exists r w2,
           find_main_row WsMain (PStr (strip (py_str v_part)))
             (PStr (strip (py_str v_lot))) (World m' lg msgs) = Done r w2
           /\ 3 <= r <= max_row m'.
Proof.
  intros Hm Hl Hrows E.
  destruct (process_sheets_after _ _ _ _ _ _ E)
    as (m0 & l0 & m' & l' & Hm0 & Hl0 & Hm' & _ & _ & _ & _ & _ & _ & _ & _ & _ & _ & P).
  assert (m0 = m) as -> by congruence. assert (l0 = l) as -> by congruence.
  exists m'. split; [exact Hm'|]. intros row v_part v_lot lg msgs Hin Hp Hlot.
  destruct (find_main_row_located WsMain (PStr (strip (py_str v_part)))
              (PStr (strip (py_str v_lot))) (World m' lg msgs)) as (w2 & Ef & _).
  cbn [sheet_of main_sheet] in Ef.
  eexists _, w2. split; [exact Ef|].
  apply located_bounds. now apply (P Hrows row).
Qed.

(** A change log without the column "ID" leaves the ID cells blank: when
    the run returns, every row below the former last row of the log sheet
    has no value in the column headed "ID". *)
Theorem replay_blank_id `{PyRuntime}
    (meta_map : gmap (str * str) (gmap str pyval)) (wb : gmap str sheet)
    (df_log : dataframe) (out : gmap str sheet) (n : Z) (shown : list message)
    (l : sheet) (c : Z) :
  wb !! sheet_log = Some l ->
  k_id ∉ columns df_log ->
  header_column l k_id = Some c ->
  process_bulk_log_streamlit meta_map wb df_log = Returned out n shown ->
  exists l',
    out !! sheet_log = Some l'
    /\ forall r, max_row l < r -> value_at l' r c = PNone.
Proof.
  intros Hl Hid Hc E.
  destruct (process_sheets_after _ _ _ _ _ _ E)
    as (m0 & l0 & m' & l' & _ & Hl0 & _ & Hl' & _ & _ & Hn & R & _ & _ & _ & F & _).
  assert (l0 = l) as -> by congruence.
  exists l'. split; [exact Hl'|]. intros r Hr.
  destruct (Z_lt_ge_dec (max_row l') r) as [Hout|Hin];
    [now apply beyond_max_row|].
  pose proof (appended_index
                (new_logs (watermark (log_times l)) (prepared_rows df_log))
                (max_row l) r) as Hidx.
  cbv delta [timed_row] in Hidx, Hn.
  destruct Hidx as (i & row & Hi & ->); [lia|].
  rewrite (F i row k_id (dict_get row.2 k_id) c Hi); [|right; left|exact Hc].
  apply (prepared_row_id df_log); [exact Hid|].
  eapply new_logs_spec, list_elem_of_lookup_2, Hi.
Qed.

(** The rows a run appends to the log sheet are in ascending order of
    time and after the watermark: when the run returns, every row below
    the former last row, up to the new last row, holds under the header
    "시간" a time later than every time the sheet had, and a row further
    down never holds an earlier time. *)
Theorem replay_log_sorted `{PyRuntime}
    (meta_map : gmap (str * str) (gmap str pyval)) (wb : gmap str sheet)
    (df_log : dataframe) (out : gmap str sheet) (n : Z) (shown : list message)
    (l : sheet) (c : Z) :
  wb !! sheet_log = Some l ->
  header_column l k_time = Some c ->
  process_bulk_log_streamlit meta_map wb df_log = Returned out n shown ->
  exists l',
    out !! sheet_log = Some l'
    /\ max_row l' = max_row l + n
    /\ forall r r', max_row l < r -> r <= r' -> r' <= max_row l' ->
         exists t t',
           value_at l' r c = PDatetime t /\ value_at l' r' c = PDatetime t'
           /\ (watermark (log_times l) < t)%N /\ (t <= t')%N.
Proof.
  intros Hl Hc E.
  destruct (process_sheets_after _ _ _ _ _ _ E)
    as (m0 & l0 & m' & l' & _ & Hl0 & _ & Hl' & _ & _ & Hn & R & _ & _ & _ & F & _).
  assert (l0 = l) as -> by congruence.
  exists l'. split; [exact Hl'|]. split; [exact R|]. intros r r' Hr Hrr Hr'.
  set (logs := new_logs (watermark (log_times l)) (prepared_rows df_log)) in *.
  destruct (new_logs_spec (watermark (log_times l)) (prepared_rows df_log))
    as (_ & Hafter & Hsorted). fold logs in Hafter, Hsorted.
  assert (Hcell : forall i row, logs !! i = Some row ->
            exists t, row.1 = Some t /\ (watermark (log_times l) < t)%N
                      /\ value_at l' (max_row l + 1 + Z.of_nat i) c = PDatetime t).
  { intros i row Hi.
    destruct (Hafter row (list_elem_of_lookup_2 _ _ _ Hi)) as (Hp & t & Ht & Hlt).
    exists t. split; [exact Ht|]. split; [exact Hlt|].
    rewrite (F i row k_time (dict_get row.2 k_time) c Hi); [|left|exact Hc].
    now apply (prepared_row_time df_log). }
  pose proof (appended_index logs (max_row l)) as Hidx.
  cbv delta [timed_row] in Hidx, Hn.
  destruct (Hidx r ltac:(lia)) as (i & row & Hi & ->).
  destruct (Hidx r' ltac:(lia)) as (j & row' & Hj & ->).
  destruct (Hcell i row Hi) as (t & Ht & Hlt & Hv).
  destruct (Hcell j row' Hj) as (t' & Ht' & _ & Hv').
  exists t, t'. split; [exact Hv|]. split; [exact Hv'|]. split; [exact Hlt|].
  destruct (decide (i = j)) as [->|Hne].
  - assert (row' = row) as -> by congruence.
    assert (t' = t) as -> by congruence. lia.
  - pose proof (sorted_lookup time_le logs i j row row' Hsorted ltac:(lia) Hi Hj)
      as Hle.
    destruct row as [o g], row' as [o' g']. cbn [fst snd] in Ht, Ht'. subst o o'.
    exact Hle.
Qed.

Lemma replay_lots_present_witness :
  example_wb !! sheet_main = Some example_main
  /\ example_wb !! sheet_log = Some example_log
  /\ 2 <= max_row example_main
  /\ exists out n shown m' r w2,
       @process_bulk_log_streamlit example_runtime ∅ example_wb example_frame
       = Returned out n shown
       /\ out !! sheet_main = Some m'
       /\ @find_main_row example_runtime WsMain
            (PStr (strip (@py_str example_runtime (PStr (lit "P1")))))
            (PStr (strip (@py_str example_runtime (PStr (lit "L1")))))
            (World m' empty_sheet []) = Done r w2
       /\ 3 <= r <= max_row m'.
Proof.
  assert (Hm : example_wb !! sheet_main = Some example_main) by reflexivity.
  assert (Hl : example_wb !! sheet_log = Some example_log) by reflexivity.
  assert (Hr : 2 <= max_row example_main) by (vm_compute; discriminate).
  split; [exact Hm|]. split; [exact Hl|]. split; [exact Hr|].
  destruct (@process_bulk_log_streamlit example_runtime ∅ example_wb example_frame)
    as [out n shown|e shown] eqn:E; [|vm_compute in E; discriminate E].
  destruct (@replay_lots_present example_runtime ∅ example_wb example_frame
              out n shown example_main example_log Hm Hl Hr E) as (m' & Hm' & P).
  destruct (P (@convert_time example_runtime
                 (<[k_id := PNone]> (example_record 101%N 5)))
              (PStr (lit "P1")) (PStr (lit "L1")) empty_sheet [])
    as (r & w2 & Ef & Hb); [|vm_compute; reflexivity|vm_compute; reflexivity|].
  { unfold new_logs. rewrite merge_sort_Permutation.
    apply list_elem_of_filter. split; [vm_compute; exact I|].
    unfold prepared_rows.
    rewrite bool_decide_eq_false_2
      by (apply (bool_decide_eq_false_1 _); vm_compute; reflexivity).
    unfold example_frame. cbn [records map]. left. }
  exists out, n, shown, m', r, w2. split; [reflexivity|]. split; [exact Hm'|].
  split; [exact Ef|exact Hb].
Defined.

Lemma replay_blank_id_witness :
  example_wb !! sheet_log = Some example_log
  /\ (k_id ∉ columns example_frame)
  /\ @header_column example_runtime example_log k_id = Some 2
  /\ exists out n shown l',
       @process_bulk_log_streamlit example_runtime ∅ example_wb example_frame
       = Returned out n shown
       /\ out !! sheet_log = Some l'
       /\ value_at l' 3 2 = PNone.
Proof.
  assert (Hl : example_wb !! sheet_log = Some example_log) by reflexivity.
  assert (Hid : k_id ∉ columns example_frame)
    by (apply (bool_decide_eq_false_1 _); vm_compute; reflexivity).
  assert (Hh : @header_column example_runtime example_log k_id = Some 2)
    by (vm_compute; reflexivity).
  split; [exact Hl|]. split; [exact Hid|]. split; [exact Hh|].
  destruct (@process_bulk_log_streamlit example_runtime ∅ example_wb example_frame)
    as [out n shown|e shown] eqn:E; [|vm_compute in E; discriminate E].
  destruct (@replay_blank_id example_runtime ∅ example_wb example_frame
              out n shown example_log 2 Hl Hid Hh E) as (l' & Hl' & V).
  exists out, n, shown, l'. split; [reflexivity|]. split; [exact Hl'|].
  apply V. vm_compute. reflexivity.
Defined.

Lemma replay_log_sorted_witness :
  example_wb !! sheet_log = Some example_log
  /\ @header_column example_runtime example_log k_time = Some 1
  /\ exists out n shown l',
       @process_bulk_log_streamlit example_runtime ∅ example_wb example_frame
       = Returned out n shown
       /\ out !! sheet_log = Some l'
       /\ max_row l' = max_row example_log + n.
Proof.
  assert (Hl : example_wb !! sheet_log = Some example_log) by reflexivity.
  assert (Hh : @header_column example_runtime example_log k_time = Some 1)
    by (vm_compute; reflexivity).
  split; [exact Hl|]. split; [exact Hh|].
  destruct (@process_bulk_log_streamlit example_runtime ∅ example_wb example_frame)
    as [out n shown|e shown] eqn:E; [|vm_compute in E; discriminate E].
  destruct (@replay_log_sorted example_runtime ∅ example_wb example_frame
              out n shown example_log 1 Hl Hh E) as (l' & Hl' & R & _).
  exists out, n, shown, l'. split; [reflexivity|]. split; [exact Hl'|exact R].
Defined.
